(** * nativescript-doctor: environment probes, SDK resolution and diagnostics

    A shallow embedding of the three classes of the library
    - [SysInfo]          (lib/sys-info.ts): cached tool and version probes,
    - [AndroidToolsInfo] (lib/android-tools-info.ts): SDK component resolution,
    - [Doctor]           (lib/doctor.ts): platform validation and the warning list,
    together with the parts of the JavaScript runtime and of the [semver]
    package (5.5.1) that these classes rely on.

    Strings are sequences of 8-bit code units; every pattern of the program
    only inspects ASCII characters. *)

From Stdlib Require Import String Ascii List ZArith NArith Bool Lia DecimalString.
From stdpp Require Import gmap strings.

Local Open Scope string_scope.
Local Open Scope list_scope.

(** ** Character classes and string helpers *)

Module Str.

Definition isDigit (c : ascii) : bool := (("0" <=? c) && (c <=? "9"))%char.
Definition isUpper (c : ascii) : bool := (("A" <=? c) && (c <=? "Z"))%char.
Definition isLower (c : ascii) : bool := (("a" <=? c) && (c <=? "z"))%char.
Definition isAlpha (c : ascii) : bool := isUpper c || isLower c.

(** [\w] *)
Definition isWordChar (c : ascii) : bool := isDigit c || isAlpha c || (c =? "_")%char.

(** [[\w-]] *)
Definition isWordOrDash (c : ascii) : bool := isWordChar c || (c =? "-")%char.

(** [[0-9A-Za-z-]] *)
Definition isAlnumOrDash (c : ascii) : bool := isDigit c || isAlpha c || (c =? "-")%char.

(** Line terminators, the characters [.] does not match: LF and CR. *)
Definition isLineTerminator (c : ascii) : bool :=
  (c =? "010")%char || (c =? "013")%char.

(** White space stripped by [String.prototype.trim]: TAB, LF, VT, FF, CR, SP. *)
Definition isWhiteSpace (c : ascii) : bool :=
  let n := nat_of_ascii c in ((9 <=? n) && (n <=? 13))%nat || (n =? 32)%nat.

Definition toLower (c : ascii) : ascii :=
  if isUpper c then ascii_of_nat (nat_of_ascii c + 32) else c.

Fixpoint takeWhile (p : ascii -> bool) (s : string) : string * string :=
  match s with
  | String c s' =>
      if p c then let '(a, r) := takeWhile p s' in (String c a, r) else ("", s)
  | EmptyString => ("", "")
  end.

Fixpoint dropWhile (p : ascii -> bool) (s : string) : string :=
  match s with
  | String c s' => if p c then dropWhile p s' else s
  | EmptyString => ""
  end.

Definition rev (s : string) : string :=
  string_of_list_ascii (List.rev (list_ascii_of_string s)).

Definition trim (s : string) : string :=
  rev (dropWhile isWhiteSpace (rev (dropWhile isWhiteSpace s))).

(** The one-character string holding a double quote. *)
Definition dquote : string := String (ascii_of_nat 34) "".

Definition isEmpty (s : string) : bool :=
  match s with EmptyString => true | _ => false end.

(** [stripPrefix p s] is the rest of [s] after the prefix [p]. *)
Fixpoint stripPrefix (p s : string) : option string :=
  match p, s with
  | EmptyString, _ => Some s
  | String a p', String b s' => if (a =? b)%char then stripPrefix p' s' else None
  | String _ _, EmptyString => None
  end.

(** The same, comparing letters without regard to case (flag [i]). *)
Fixpoint stripPrefixCI (p s : string) : option string :=
  match p, s with
  | EmptyString, _ => Some s
  | String a p', String b s' =>
      if (toLower a =? toLower b)%char then stripPrefixCI p' s' else None
  | String _ _, EmptyString => None
  end.

(** Leftmost position at which [f] succeeds: how an unanchored pattern is
    searched. *)
Fixpoint search {A} (f : string -> option A) (s : string) : option A :=
  match f s with
  | Some r => Some r
  | None => match s with
            | String _ s' => search f s'
            | EmptyString => None
            end
  end.

(** [hay.indexOf(needle) !== -1] *)
Definition contains (needle hay : string) : bool :=
  match String.index 0 needle hay with Some _ => true | None => false end.

(** [s.split("\n")[0]] *)
Definition firstLine (s : string) : string :=
  fst (takeWhile (fun c => negb (c =? "010")%char) s).

(** The text up to the next line terminator: what a group of [.] repeated
    captures. *)
Definition restOfLine (s : string) : string :=
  fst (takeWhile (fun c => negb (isLineTerminator c)) s).

Fixpoint join (sep : string) (l : list string) : string :=
  match l with
  | [] => ""
  | [x] => x
  | x :: l' => x ++ sep ++ join sep l'
  end.

(** Value of a run of decimal digits. *)
Definition digitValue (c : ascii) : N := N.of_nat (nat_of_ascii c - 48).

Fixpoint digitsToN_aux (acc : N) (s : string) : N :=
  match s with
  | String c s' => digitsToN_aux (10 * acc + digitValue c) s'
  | EmptyString => acc
  end.

Definition digitsToN (s : string) : N := digitsToN_aux 0 s.

(** [s.replace(pat, "")] with a string pattern: the first occurrence only. *)
Fixpoint removeFirst (pat s : string) : string :=
  match stripPrefix pat s with
  | Some r => r
  | None => match s with
            | String c s' => String c (removeFirst pat s')
            | EmptyString => ""
            end
  end.

(** [s.replace(pat, repl)] with a string pattern and a replacement text
    without [$] patterns: the first occurrence only. *)
Fixpoint replaceFirst (pat repl s : string) : string :=
  match stripPrefix pat s with
  | Some r => repl ++ r
  | None => match s with
            | String c s' => String c (replaceFirst pat repl s')
            | EmptyString => ""
            end
  end.

(** Default [Array.prototype.sort] on strings: ascending code-unit order
    (insertion sort, stable). *)
Fixpoint insertSorted (x : string) (l : list string) : list string :=
  match l with
  | [] => [x]
  | y :: l' => if String.leb x y then x :: l else y :: insertSorted x l'
  end.

Definition sort (l : list string) : list string :=
  fold_right insertSorted [] l.

End Str.

(** ** Regular expressions of the program

    Each pattern is written out as the matcher it denotes.  All
    quantifiers below are followed by a character outside their class (or by
    nothing), so the greedy match is the only one and no backtracking inside
    a digit run can succeed. *)

Module Re.
Import Str.

(** [n] runs of digits separated by single dots; [None] when the text does
    not start with them. *)
Fixpoint takeComponents (n : nat) (s : string) : option (list string * string) :=
  match n with
  | 0 => Some ([], s)
  | S n' =>
      let '(d, r) := takeWhile isDigit s in
      if isEmpty d then None
      else match n' with
           | 0 => Some ([d], r)
           | S _ =>
               match r with
               | String "." r' =>
                   match takeComponents n' r' with
                   | Some (ds, r2) => Some (d :: ds, r2)
                   | None => None
                   end
               | _ => None
               end
           end
  end.

(** The longest prefix of the shape [\d+(\.\d+)*], as its list of digit
    runs. [cur] is the run being read, [done] the completed ones. *)
Fixpoint scanDotted (done : list string) (cur : string) (s : string) : list string :=
  let finish := if isEmpty cur then done else done ++ [cur] in
  match s with
  | String c s' =>
      if isDigit c then scanDotted done (cur ++ String c "") s'
      else if (c =? ".")%char && negb (isEmpty cur) then scanDotted (done ++ [cur]) "" s'
      else finish
  | EmptyString => finish
  end.

(** [AndroidToolsInfo.VERSION_REGEX = /((\d+\.){2}\d+)/], group 1. *)
Definition ANDROID_VERSION_REGEX (s : string) : option string :=
  search (fun t => match takeComponents 3 t with
                   | Some (ds, _) => Some (join "." ds)
                   | None => None
                   end) s.

(** [SysInfo.JAVA_VERSION_REGEXP]: the word openjdk or java, then
    [ version ] and a double quote, then group 1 [(?:\d+\.)+(?:\d+)];
    flag [i]. *)
Definition JAVA_VERSION_REGEXP (s : string) : option string :=
  search (fun t =>
    let after :=
      match stripPrefixCI ("openjdk version " ++ dquote) t with
      | Some r => Some r
      | None => stripPrefixCI ("java version " ++ dquote) t
      end in
    match after with
    | Some r => let ds := scanDotted [] "" r in
                if (2 <=? length ds)%nat then Some (join "." ds) else None
    | None => None
    end) s.

(** [SysInfo.JAVA_COMPILER_VERSION_REGEXP]: [^javac ] and the rest of the
    line as group 1, flags [im].  With flag [m] the anchor holds at the
    start and after each line terminator. *)
Fixpoint JAVA_COMPILER_VERSION_REGEXP_from (lineStart : bool) (s : string) : option string :=
  match (if lineStart then stripPrefixCI "javac " s else None) with
  | Some r => Some (restOfLine r)
  | None => match s with
            | String c s' => JAVA_COMPILER_VERSION_REGEXP_from (isLineTerminator c) s'
            | EmptyString => None
            end
  end.

Definition JAVA_COMPILER_VERSION_REGEXP (s : string) : option string :=
  JAVA_COMPILER_VERSION_REGEXP_from true s.

(** [SysInfo.XCODE_VERSION_REGEXP]: [Xcode ] and the rest of the line;
    only whether it matches is used. *)
Definition XCODE_VERSION_REGEXP (s : string) : bool :=
  match search (stripPrefix "Xcode ") s with Some _ => true | None => false end.

(** [SysInfo.VERSION_REGEXP = /(\d{1,})\.(\d{1,})\.*([\w-]{0,})/m]:
    the whole match and groups 1 to 3. *)
Record VersionMatch := {
  vm_all : string; vm_1 : string; vm_2 : string; vm_3 : string
}.

Definition VERSION_REGEXP (s : string) : option VersionMatch :=
  search (fun t =>
    let '(d1, r1) := takeWhile isDigit t in
    if isEmpty d1 then None
    else match r1 with
         | String "." r2 =>
             let '(d2, r3) := takeWhile isDigit r2 in
             if isEmpty d2 then None
             else
               let '(dots, r4) := takeWhile (fun c => (c =? ".")%char) r3 in
               let '(g3, _) := takeWhile isWordOrDash r4 in
               Some {| vm_all := d1 ++ "." ++ d2 ++ dots ++ g3;
                       vm_1 := d1; vm_2 := d2; vm_3 := g3 |}
         | _ => None
         end) s.

(** [SysInfo.GIT_VERSION_REGEXP]: [^git version ] and the rest of the line
    as group 1; no flag, so only at the start of the text. *)
Definition GIT_VERSION_REGEXP (s : string) : option string :=
  match stripPrefix "git version " s with
  | Some r => Some (restOfLine r)
  | None => None
  end.

(** [SysInfo.GRADLE_VERSION_REGEXP]: [Gradle ] and the rest of the line as
    group 1, flag [i]. *)
Definition GRADLE_VERSION_REGEXP (s : string) : option string :=
  search (fun t => match stripPrefixCI "Gradle " t with
                   | Some r => Some (restOfLine r)
                   | None => None
                   end) s.

(** [monoVerRegExp = /version (\d+[.]\d+[.]\d+) /gm].  The flag [g] makes
    [exec] stateful: the search starts at [lastIndex], which a match moves
    behind the matched text and a failure resets to 0.  The result is
    group 1 and the new [lastIndex]. *)
Definition monoMatchHere (t : string) : option string :=
  match stripPrefix "version " t with
  | Some r => match takeComponents 3 r with
              | Some (ds, String " " _) => Some (join "." ds)
              | _ => None
              end
  | None => None
  end.

Fixpoint monoSearch (pos : nat) (s : string) : option (string * nat) :=
  match monoMatchHere s with
  | Some g => Some (g, pos + 8 + String.length g + 1)
  | None => match s with
            | String _ s' => monoSearch (S pos) s'
            | EmptyString => None
            end
  end.

Fixpoint dropChars (n : nat) (s : string) : option string :=
  match n, s with
  | 0, _ => Some s
  | S n', String _ s' => dropChars n' s'
  | S _, EmptyString => None
  end.

Definition monoVerRegExp_exec (lastIndex : nat) (s : string) : option string * nat :=
  match dropChars lastIndex s with
  | None => (None, 0)
  | Some t => match monoSearch lastIndex t with
              | Some (g, e) => (Some g, e)
              | None => (None, 0)
              end
  end.

(** The pattern of [validateInfo] for the two bounds of a range: start of
    the text, a lazy run of any characters, group 1 [[\d\.]+], white space
    [\s+], a lazy run again, group 2 [[\d\.]+], end of the text.  Here the
    alternatives are tried in the order of a backtracking matcher: a lazy
    run grows one character at a time, a greedy run shrinks. *)
Definition isDigitOrDot (c : ascii) : bool := isDigit c || (c =? ".")%char.

(** A lazy run of [.] followed by [f]. *)
Fixpoint lazyThen {A} (f : string -> option A) (s : string) : option A :=
  match f s with
  | Some r => Some r
  | None => match s with
            | String c s' => if isLineTerminator c then None else lazyThen f s'
            | EmptyString => None
            end
  end.

(** A greedy run of one or more characters of the class [p] followed by
    [f]; the run is returned with the result of [f]. *)
Fixpoint plusThen {A} (p : ascii -> bool) (f : string -> option A) (s : string)
  : option (string * A) :=
  match s with
  | String c s' =>
      if p c then
        match plusThen p f s' with
        | Some (g, r) => Some (String c g, r)
        | None => match f s' with
                  | Some r => Some (String c "", r)
                  | None => None
                  end
        end
      else None
  | EmptyString => None
  end.

Definition atEnd (s : string) : option unit :=
  if isEmpty s then Some tt else None.

(** Groups 1 and 2. *)
Definition RANGE_BOUNDS_REGEXP (s : string) : option (string * string) :=
  match lazyThen
          (plusThen isDigitOrDot
             (plusThen isWhiteSpace
                (lazyThen (plusThen isDigitOrDot atEnd)))) s with
  | Some (g1, (_, (g2, _))) => Some (g1, g2)
  | None => None
  end.

End Re.

(** ** JavaScript values and errors *)

(** The values the program stores in its caches and passes around:
    [undefined], [null], booleans, strings and plain objects (created by
    [Object.create(null)] or a literal), the latter as finite maps from
    property names to values. *)
#[warnings="-register-all"]
Inductive JsVal :=
| JUndefined
| JNull
| JBool (b : bool)
| JStr (s : string)
| JObj (o : gmap string JsVal).

(** Thrown values and promise rejections. *)
Inductive JsError :=
| TypeError (msg : string)
| Error (msg : string).

(** Outcome of an evaluation that may throw. *)
Inductive Res (A : Type) :=
| Ok (a : A)
| Throw (e : JsError).
Arguments Ok {A} a.
Arguments Throw {A} e.

Definition res_bind {A B} (r : Res A) (f : A -> Res B) : Res B :=
  match r with Ok a => f a | Throw e => Throw e end.

Module Js.

(** ToBoolean *)
Definition truthy (v : JsVal) : bool :=
  match v with
  | JUndefined | JNull => false
  | JBool b => b
  | JStr s => negb (Str.isEmpty s)
  | JObj _ => true
  end.

(** [v === undefined || v === null] *)
Definition isNullish (v : JsVal) : bool :=
  match v with JUndefined | JNull => true | _ => false end.

(** ToString, as used by template literals and by [RegExp.prototype.exec]. *)
Definition toString (v : JsVal) : string :=
  match v with
  | JUndefined => "undefined"
  | JNull => "null"
  | JBool true => "true"
  | JBool false => "false"
  | JStr s => s
  | JObj _ => "[object Object]"
  end.

(** [o.k] on an object; a missing property reads as [undefined]. *)
Definition prop (o : gmap string JsVal) (k : string) : JsVal :=
  default JUndefined (o !! k).

Definition ofOption (o : option string) : JsVal :=
  match o with Some s => JStr s | None => JNull end.

End Js.

(** ** The [semver] package, strict mode

    Versions are parsed by the package's full pattern: an optional [v],
    three numeric identifiers without leading zeros, an optional
    prerelease after a hyphen and optional build metadata after a plus
    sign. Numeric prerelease identifiers are compared by their exact
    value. *)

Module Semver.
Import Str.

Inductive PreId :=
| PreNum (n : N)
| PreStr (s : string).

Record SemVer := {
  major : N;
  minor : N;
  patch : N;
  prerelease : list PreId
}.

Definition MAX_LENGTH : nat := 256.
Definition MAX_SAFE_INTEGER : N := 9007199254740991.

(** A numeric identifier, [0] or a digit run not starting with [0], at the
    head of the text. *)
Definition takeNumericIdentifier (s : string) : option (string * string) :=
  let '(d, r) := takeWhile isDigit s in
  match d with
  | EmptyString => None
  | String "0" (String _ _) => None
  | _ => Some (d, r)
  end.

(** Dot-separated non-empty runs of letters, digits and hyphens. *)
Fixpoint scanIds (done : list string) (cur : string) (s : string)
  : option (list string * string) :=
  match s with
  | String c s' =>
      if isAlnumOrDash c then scanIds done (cur ++ String c "") s'
      else if (c =? ".")%char then
        if isEmpty cur then None else scanIds (done ++ [cur]) "" s'
      else if isEmpty cur then None else Some (done ++ [cur], s)
  | EmptyString => if isEmpty cur then None else Some (done ++ [cur], "")
  end.

Definition allDigits (s : string) : bool :=
  isEmpty (dropWhile isDigit s).

(** A prerelease identifier: numeric without leading zero, or containing a
    letter or hyphen. *)
Definition preIdOf (id : string) : option PreId :=
  if allDigits id then
    match id with
    | String "0" (String _ _) => None
    | _ => Some (PreNum (digitsToN id))
    end
  else Some (PreStr id).

Fixpoint preIdsOf (ids : list string) : option (list PreId) :=
  match ids with
  | [] => Some []
  | id :: ids' =>
      match preIdOf id, preIdsOf ids' with
      | Some p, Some ps => Some (p :: ps)
      | _, _ => None
      end
  end.

(** Build metadata up to the end of the text. *)
Definition buildOk (s : string) : bool :=
  match s with
  | EmptyString => true
  | String "+" r => match scanIds [] "" r with
                    | Some (_, EmptyString) => true
                    | _ => false
                    end
  | _ => false
  end.

(** The text against the full pattern, anchored at both ends. *)
Definition matchFull (s : string) : option SemVer :=
  let s := match s with String "v" r => r | _ => s end in
  match takeNumericIdentifier s with
  | Some (ma, String "." r1) =>
      match takeNumericIdentifier r1 with
      | Some (mi, String "." r2) =>
          match takeNumericIdentifier r2 with
          | Some (pa, r3) =>
              let mk pre :=
                {| major := digitsToN ma; minor := digitsToN mi;
                   patch := digitsToN pa; prerelease := pre |} in
              match r3 with
              | String "-" r4 =>
                  match scanIds [] "" r4 with
                  | Some (ids, r5) =>
                      match preIdsOf ids with
                      | Some pre => if buildOk r5 then Some (mk pre) else None
                      | None => None
                      end
                  | None => None
                  end
              | _ => if buildOk r3 then Some (mk []) else None
              end
          | None => None
          end
      | _ => None
      end
  | _ => None
  end.

Definition invalidVersion (version : string) : JsError :=
  TypeError ("Invalid Version: " ++ version).

(** [new SemVer(version)] for a string. *)
Definition newSemVer (version : string) : Res SemVer :=
  if (MAX_LENGTH <? String.length version)%nat
  then Throw (TypeError "version is longer than 256 characters")
  else match matchFull (trim version) with
       | None => Throw (invalidVersion version)
       | Some v =>
           if (MAX_SAFE_INTEGER <? major v)%N then Throw (TypeError "Invalid major version")
           else if (MAX_SAFE_INTEGER <? minor v)%N then Throw (TypeError "Invalid minor version")
           else if (MAX_SAFE_INTEGER <? patch v)%N then Throw (TypeError "Invalid patch version")
           else Ok v
       end.

(** [new SemVer(v)] for any value: only strings are accepted. *)
Definition newSemVerJs (v : JsVal) : Res SemVer :=
  match v with
  | JStr s => newSemVer s
  | _ => Throw (invalidVersion (Js.toString v))
  end.

(** [semver.valid(v)], as a truth value: the pattern is tested on the
    untrimmed text first. *)
Definition valid (v : JsVal) : bool :=
  match v with
  | JStr s =>
      if (MAX_LENGTH <? String.length s)%nat then false
      else match matchFull s with
           | None => false
           | Some _ => match newSemVer s with Ok _ => true | Throw _ => false end
           end
  | _ => false
  end.

Definition compareMain (a b : SemVer) : comparison :=
  match (major a ?= major b)%N with
  | Eq => match (minor a ?= minor b)%N with
          | Eq => (patch a ?= patch b)%N
          | c => c
          end
  | c => c
  end.

Definition compareIdentifiers (a b : PreId) : comparison :=
  match a, b with
  | PreNum x, PreNum y => (x ?= y)%N
  | PreNum _, PreStr _ => Lt
  | PreStr _, PreNum _ => Gt
  | PreStr x, PreStr y => String.compare x y
  end.

Fixpoint comparePreIds (a b : list PreId) : comparison :=
  match a, b with
  | [], [] => Eq
  | _ :: _, [] => Gt
  | [], _ :: _ => Lt
  | x :: a', y :: b' =>
      match compareIdentifiers x y with
      | Eq => comparePreIds a' b'
      | c => c
      end
  end.

(** A version without prerelease is greater than one with. *)
Definition comparePre (a b : SemVer) : comparison :=
  match prerelease a, prerelease b with
  | _ :: _, [] => Lt
  | [], _ :: _ => Gt
  | [], [] => Eq
  | pa, pb => comparePreIds pa pb
  end.

Definition compare (a b : SemVer) : comparison :=
  match compareMain a b with
  | Eq => comparePre a b
  | c => c
  end.

Definition isLt (c : comparison) : bool :=
  match c with Lt => true | _ => false end.

(** [semver.lt(a, b)] and [semver.gte(a, b)]: both arguments are parsed,
    the first one first, and an invalid one throws. *)
Definition lt (a b : JsVal) : Res bool :=
  res_bind (newSemVerJs a) (fun va =>
  res_bind (newSemVerJs b) (fun vb =>
  Ok (isLt (compare va vb)))).

Definition gte (a b : JsVal) : Res bool :=
  res_bind (newSemVerJs a) (fun va =>
  res_bind (newSemVerJs b) (fun vb =>
  Ok (negb (isLt (compare va vb))))).

(** *** Ranges

    The program only builds ranges from the templates [>=A <=B] and
    [>=A <B] with whole numbers [A] and [B]; a range is kept as the list of
    its comparators. *)

Inductive Op := OpGE | OpLE | OpLT.

Record Comparator := { c_op : Op; c_major : N }.

Definition Range := list Comparator.

(** A comparator on a bare major number stands for one on a full version:
    [>=M] is [>=M.0.0], [<M] is [<M.0.0], and [<=M] admits every [M.x.y],
    so it is [<(M+1).0.0]. *)
Definition testComparator (c : Comparator) (v : SemVer) : bool :=
  let bound m := {| major := m; minor := 0; patch := 0; prerelease := [] |} in
  match c_op c with
  | OpGE => negb (isLt (compare v (bound (c_major c))))
  | OpLT => isLt (compare v (bound (c_major c)))
  | OpLE => isLt (compare v (bound (c_major c + 1)%N))
  end.

(** A version with a prerelease tag satisfies a set of comparators only if
    one of them carries a prerelease too; none of the program's does. *)
Definition testSet (r : Range) (v : SemVer) : bool :=
  forallb (fun c => testComparator c v) r &&
  match prerelease v with [] => true | _ => false end.

(** One step of [maxSatisfying]'s loop over the candidates. *)
Definition maxStep (r : Range) (acc : Res (option (string * SemVer))) (v : string)
  : Res (option (string * SemVer)) :=
  res_bind acc (fun max =>
  if isEmpty v then Ok max
  else
    res_bind (newSemVer v) (fun sv =>
    if testSet r sv then
      match max with
      | None => Ok (Some (v, sv))
      | Some (_, maxSV) =>
          if isLt (compare maxSV sv) then Ok (Some (v, sv)) else Ok max
      end
    else Ok max)).

(** [semver.maxSatisfying(versions, range)]: the first of the greatest
    candidates in the range, [None] for JavaScript's [null].  A text that is
    not a range ([None]) gives [null] before any candidate is looked at. *)
Definition maxSatisfying (versions : list string) (range : option Range)
  : Res (option string) :=
  match range with
  | None => Ok None
  | Some r =>
      res_bind (fold_left (maxStep r) versions (Ok None)) (fun max =>
      Ok (option_map fst max))
  end.

End Semver.

(** ** The host: collaborators outside the three classes

    The process runner, the file system and registry wrappers, [HostInfo],
    [temp], [path] and the process environment are inputs of the model.
    A collaborator's reply depends on the call and on the number of external
    calls made before it, so that the machine may change between two calls
    of one probe. *)

Record ProcessInfo := {
  stdout : string;
  stderr : string;
  exitCode : option Z
}.

Record SpawnOptions := {
  ignoreError : bool;
  cwd : option string
}.

Definition noOptions : SpawnOptions := {| ignoreError := false; cwd := None |}.

(** The external calls, as recorded in the trace. *)
Inductive Call :=
| CExec (cmd : string)
| CSpawn (cmd : string) (args : list string) (event : string) (opts : SpawnOptions)
| CExists (path : option string)
| CReadDirectory (path : string)
| CExtractZip (archive dest : string)
| CRegistry (name key : string)
| CDotNetVersion
| CMkdirTemp (prefix : string).

Record Env := {
  (* HostInfo flags *)
  isWindows : bool;
  isWindows64 : bool;
  isDarwin : bool;
  isLinux : bool;
  (* Node's os, process and path *)
  EOL : string;
  os_platform : string;
  osenv_shell : string;
  process_arch : string;
  process_version : string;
  env_JAVA_HOME : option string;
  env_ANDROID_HOME : option string;
  env_CommonProgramFiles : option string;
  env_CommonProgramFilesX86 : option string;
  dirname : string;
  path_join : list string -> string;
  (* what the collaborators and the started processes answer *)
  childProcess_exec : nat -> string -> Res ProcessInfo;
  process_spawn :
    nat -> string -> list string -> string -> SpawnOptions -> Res ProcessInfo;
  fileSystem_exists : nat -> option string -> bool;
  fileSystem_readDirectory : nat -> string -> Res (list string);
  fileSystem_extractZip : nat -> string -> string -> Res unit;
  winReg_getRegistryValue : nat -> string -> string -> Res JsVal;
  hostInfo_dotNetVersion : nat -> Res JsVal;
  temp_mkdirSync : nat -> string -> Res string
}.

(** ** Program state *)

(** [IAndroidToolsInfoData] *)
Record ToolsInfoData := {
  androidHomeEnvVar : option string;
  compileSdkVersion : option Z;
  buildToolsVersion : option string;
  supportRepositoryVersion : option string
}.

(** [IWarning] *)
Record IWarning := {
  warning : string;
  additionalInformation : string;
  platforms : option (list string)
}.

(** The mutable fields of the [SysInfo] and [AndroidToolsInfo] instances and
    the trace of external calls.  [fields] holds the cache properties of the
    [SysInfo] object, which the program reads and writes by name. *)
Record St := {
  fields : gmap string JsVal;
  shouldCache : bool;
  monoLastIndex : nat;
  toolsInfo : option ToolsInfoData;
  log : list Call
}.

(** Field initialisers of the two classes. *)
Definition initialFields : gmap string JsVal :=
  <["iTunesInstalledCache" := JNull]>
  (<["androidInstalledCache" := JNull]>
  (<["isCocoaPodsWorkingCorrectlyCache" := JNull]>
  (<["isCocoaPodsUpdateRequiredCache" := JNull]> ∅))).

Definition initialState : St :=
  {| fields := initialFields; shouldCache := true; monoLastIndex := 0;
     toolsInfo := None; log := [] |}.

(** ** Computations: state and exceptions *)

Definition M (A : Type) : Type := St -> Res A * St.

Definition ret {A} (a : A) : M A := fun st => (Ok a, st).

Definition throw {A} (e : JsError) : M A := fun st => (Throw e, st).

Definition bind {A B} (m : M A) (k : A -> M B) : M B :=
  fun st => match m st with
            | (Ok a, st') => k a st'
            | (Throw e, st') => (Throw e, st')
            end.

(** [try { m } catch (err) { h }] *)
Definition tryCatch {A} (m : M A) (h : JsError -> M A) : M A :=
  fun st => match m st with
            | (Ok a, st') => (Ok a, st')
            | (Throw e, st') => h e st'
            end.

Definition liftRes {A} (r : Res A) : M A := fun st => (r, st).

Declare Scope js_scope.
Delimit Scope js_scope with js.
Notation "x <- m ;; k" := (bind m (fun x => k))
  (at level 100, m at next level, right associativity) : js_scope.
Notation "m ;;; k" := (bind m (fun _ => k))
  (at level 100, right associativity) : js_scope.
Local Open Scope js_scope.

(** An external call: it is appended to the trace and answered by the
    host. *)
Definition perform {A} (c : Call) (reply : nat -> Res A) : M A :=
  fun st =>
    (reply (length (log st)),
     {| fields := fields st; shouldCache := shouldCache st;
        monoLastIndex := monoLastIndex st; toolsInfo := toolsInfo st;
        log := log st ++ [c] |}).

Definition readField (name : string) : M JsVal :=
  fun st => (Ok (Js.prop (fields st) name), st).

Definition writeField (name : string) (v : JsVal) : M unit :=
  fun st =>
    (Ok tt,
     {| fields := <[name := v]> (fields st); shouldCache := shouldCache st;
        monoLastIndex := monoLastIndex st; toolsInfo := toolsInfo st;
        log := log st |}).

(** ** Wrappers around the collaborators *)

Section Wrappers.
Variable E : Env.

Definition childProcessExec (cmd : string) : M ProcessInfo :=
  perform (CExec cmd) (fun n => childProcess_exec E n cmd).

(** [exitCode === 0] *)
Definition exitedWithZero (p : ProcessInfo) : bool :=
  match exitCode p with
  | Some z => (z =? 0)%Z
  | None => false
  end.

(** Modelled from the spec: [ChildProcess.spawnFromEvent] (the process
    runner, lib/wrappers/child-process.ts) runs the command and gives its
    exit code, standard output and standard error; by default it rejects on
    a non-zero exit unless the ignore-error option is set.  [process_spawn]
    is what the started process does: [Throw] when it cannot be started,
    otherwise its output and exit code at the awaited event. *)
Definition spawnFromEvent (cmd : string) (args : list string) (event : string)
  (opts : SpawnOptions) : M ProcessInfo :=
  perform (CSpawn cmd args event opts)
          (fun n =>
             match process_spawn E n cmd args event opts with
             | Ok p =>
                 if ignoreError opts || exitedWithZero p then Ok p
                 else Throw (Error ("Command " ++ cmd ++ " failed with a non-zero exit code"))
             | Throw e => Throw e
             end).

Definition fsExists (path : option string) : M bool :=
  perform (CExists path) (fun n => Ok (fileSystem_exists E n path)).

Definition readDirectory (path : string) : M (list string) :=
  perform (CReadDirectory path) (fun n => fileSystem_readDirectory E n path).

Definition extractZip (archive dest : string) : M unit :=
  perform (CExtractZip archive dest) (fun n => fileSystem_extractZip E n archive dest).

Definition getRegistryValue (name key : string) : M JsVal :=
  perform (CRegistry name key) (fun n => winReg_getRegistryValue E n name key).

Definition dotNetVersion : M JsVal :=
  perform CDotNetVersion (fun n => hostInfo_dotNetVersion E n).

Definition mkdirSync (prefix : string) : M string :=
  perform (CMkdirTemp prefix) (fun n => temp_mkdirSync E n prefix).

Fixpoint allStrings (args : list (option string)) : option (list string) :=
  match args with
  | [] => Some []
  | Some a :: args' =>
      match allStrings args' with Some l => Some (a :: l) | None => None end
  | None :: _ => None
  end.

(** [path.join(...)]: an argument that is not a string is a [TypeError]. *)
Definition pathJoin (args : list (option string)) : Res string :=
  match allStrings args with
  | Some l => Ok (path_join E l)
  | None => Throw (TypeError "Path must be a string")
  end.

End Wrappers.

(** ** [SysInfo] *)

Module SysInfo.
Section SysInfo.
Variable E : Env.

(** Modelled from the spec: [Helpers.getPropertyName] derives the cache slot
    name from the function reference it is given; the reference
    [() => this.p] is represented by the name [p], which it returns. *)
Definition getPropertyName (property : string) : string := property.

Definition setShouldCacheSysInfo (shouldCache' : bool) : M unit :=
  fun st =>
    (Ok tt,
     {| fields := fields st; shouldCache := shouldCache';
        monoLastIndex := monoLastIndex st; toolsInfo := toolsInfo st;
        log := log st |}).

Definition getValueForProperty (property : string) (getValueMethod : M JsVal) : M JsVal :=
  fun st =>
    if shouldCache st then
      (let propertyName := getPropertyName property in
       cachedValue <- readField propertyName ;;
       if Js.isNullish cachedValue then
         result <- getValueMethod ;;
         writeField propertyName result ;;;
         ret result
       else ret cachedValue) st
    else getValueMethod st.

(** The private [exec]: [None] stands for [null]. *)
Definition exec (cmd : string) : M (option ProcessInfo) :=
  if Str.isEmpty cmd then ret None
  else tryCatch (p <- childProcessExec E cmd ;; ret (Some p)) (fun _ => ret None).

Definition execCommand (cmd : string) : M JsVal :=
  output <- exec cmd ;;
  ret (match output with Some p => JStr (stdout p) | None => JNull end).

Definition getVersionFromString (versionString : string) : JsVal :=
  match Re.VERSION_REGEXP versionString with
  | Some m =>
      JStr (Re.vm_1 m ++ "." ++ Re.vm_2 m ++ "." ++
            (if Str.isEmpty (Re.vm_3 m) then "0" else Re.vm_3 m))
  | None => JNull
  end.

(** [output ? f(output) : null] for the output of [execCommand]. *)
Definition ifOutput (output : JsVal) (f : string -> JsVal) : JsVal :=
  match output with
  | JStr s => if Str.isEmpty s then JNull else f s
  | _ => JNull
  end.

Definition getJavaVersion : M JsVal :=
  getValueForProperty "javaVerCache" (
    tryCatch
      (spawnResult <- spawnFromEvent E "java" ["-version"] "exit" noOptions ;;
       let matches := Re.JAVA_VERSION_REGEXP (stderr spawnResult) in
       ret (Js.ofOption matches))
      (fun _ => ret JNull)).

Definition getJavaCompilerVersion : M JsVal :=
  getValueForProperty "javaCompilerVerCache" (
    let javaCompileExecutableName := "javac" in
    let pathToJavaCompilerExecutable :=
      match env_JAVA_HOME E with
      | Some javaHome =>
          if Str.isEmpty javaHome then javaCompileExecutableName
          else path_join E [javaHome; "bin"; javaCompileExecutableName]
      | None => javaCompileExecutableName
      end in
    tryCatch
      (output <- childProcessExec E
                   (Str.dquote ++ pathToJavaCompilerExecutable ++ Str.dquote ++ " -version") ;;
       match Re.JAVA_COMPILER_VERSION_REGEXP (stderr output) with
       | Some g => ret (JStr g)
       | None => throw (TypeError "Cannot read property '1' of null")
       end)
      (fun _ => ret JNull)).

Definition getXcodeVersion : M JsVal :=
  getValueForProperty "xCodeVerCache" (
    if isDarwin E then
      output <- execCommand "xcodebuild -version" ;;
      match output with
      | JStr s =>
          if negb (Str.isEmpty s) && Re.XCODE_VERSION_REGEXP s
          then ret (getVersionFromString s)
          else ret JUndefined
      | _ => ret JUndefined
      end
    else ret JUndefined).

Definition getNodeVersion : M JsVal :=
  ret (getVersionFromString (process_version E)).

Definition getNpmVersion : M JsVal :=
  getValueForProperty "npmVerCache" (
    output <- execCommand "npm -v" ;;
    ret (ifOutput output (fun s => JStr (Str.firstLine s)))).

Definition getNodeGypVersion : M JsVal :=
  getValueForProperty "nodeGypVerCache" (
    output <- execCommand "node-gyp -v" ;;
    ret (ifOutput output getVersionFromString)).

Definition getXcodeprojGemLocation : M JsVal :=
  getValueForProperty "xCodeprojGemLocationCache" (
    output <- execCommand "gem which xcodeproj" ;;
    ret (ifOutput output (fun s => JStr (Str.trim s)))).

Definition isITunesInstalled : M JsVal :=
  getValueForProperty "iTunesInstalledCache" (
    if isLinux E then ret (JBool false)
    else
      dirs <-
        (if isWindows E then
           let commonProgramFiles :=
             if isWindows64 E then env_CommonProgramFilesX86 E
             else env_CommonProgramFiles E in
           coreFoundationDir <-
             liftRes (pathJoin E [commonProgramFiles; Some "Apple"; Some "Apple Application Support"]) ;;
           mobileDeviceDir <-
             liftRes (pathJoin E [commonProgramFiles; Some "Apple"; Some "Mobile Device Support"]) ;;
           ret (Some coreFoundationDir, Some mobileDeviceDir)
         else if isDarwin E then
           ret (Some "/System/Library/Frameworks/CoreFoundation.framework/CoreFoundation",
                Some "/System/Library/PrivateFrameworks/MobileDevice.framework/MobileDevice")
         else ret (None, None)) ;;
      a <- fsExists E (fst dirs) ;;
      if a then b <- fsExists E (snd dirs) ;; ret (JBool b)
      else ret (JBool false)).

Definition getCocoaPodsVersion : M JsVal :=
  getValueForProperty "cocoaPodsVerCache" (
    if isDarwin E then
      if isDarwin E then
        output <- execCommand "pod --version" ;;
        match output with
        | JStr s =>
            match (if Str.isEmpty s then None else Re.VERSION_REGEXP s) with
            | Some m => ret (JStr (Str.trim (Re.vm_all m)))
            | None => ret JUndefined
            end
        | _ => ret JUndefined
        end
      else ret JUndefined
    else ret JUndefined).

Definition winVer : M JsVal :=
  let key := "\Software\Microsoft\Windows NT\CurrentVersion" in
  productName <- getRegistryValue E "ProductName" key ;;
  currentVersion <- getRegistryValue E "CurrentVersion" key ;;
  currentBuild <- getRegistryValue E "CurrentBuild" key ;;
  ret (JStr (Js.toString productName ++ " " ++ Js.toString currentVersion ++ "." ++
             Js.toString currentBuild)).

Definition unixVer : M JsVal := execCommand "uname -a".

Definition getOs : M JsVal :=
  getValueForProperty "osCache" (if isWindows E then winVer else unixVer).

Definition getAdbVersion : M JsVal :=
  getValueForProperty "adbVerCache" (
    output <- execCommand "adb version" ;;
    ret (ifOutput output getVersionFromString)).

Definition isAndroidInstalled : M JsVal :=
  getValueForProperty "androidInstalledCache" (
    let pathToAndroid := (if isWindows E then "android" ++ ".bat" else "android")%string in
    tryCatch
      (output <- spawnFromEvent E pathToAndroid ["-h"] "close"
                   {| ignoreError := true; cwd := None |} ;;
       ret (JBool (Str.contains "android" (stdout output))))
      (fun _ => ret JNull)).

(** [this.monoVerRegExp.exec(output)]: the pattern object keeps its
    [lastIndex] between calls. *)
Definition monoVerRegExpExec (output : JsVal) : M (option string) :=
  fun st =>
    let '(m, lastIndex) := Re.monoVerRegExp_exec (monoLastIndex st) (Js.toString output) in
    (Ok m,
     {| fields := fields st; shouldCache := shouldCache st;
        monoLastIndex := lastIndex; toolsInfo := toolsInfo st; log := log st |}).

Definition getMonoVersion : M JsVal :=
  getValueForProperty "monoVerCache" (
    output <- execCommand "mono --version" ;;
    m <- monoVerRegExpExec output ;;
    ret (Js.ofOption m)).

Definition getGitVersion : M JsVal :=
  getValueForProperty "gitVerCache" (
    output <- execCommand "git --version" ;;
    ret (Js.ofOption (Re.GIT_VERSION_REGEXP (Js.toString output)))).

Definition getGradleVersion : M JsVal :=
  getValueForProperty "gradleVerCache" (
    output <- execCommand "gradle -v" ;;
    ret (Js.ofOption (Re.GRADLE_VERSION_REGEXP (Js.toString output)))).

(** [if (spawnResult.exitCode)] *)
Definition exitCodeTruthy (p : ProcessInfo) : bool :=
  match exitCode p with
  | Some z => negb (z =? 0)%Z
  | None => false
  end.

Definition isCocoaPodsWorkingCorrectly : M JsVal :=
  getValueForProperty "isCocoaPodsWorkingCorrectlyCache" (
    if isDarwin E then
      tempDirectory <- mkdirSync E "nativescript-check-cocoapods" ;;
      let pathToXCodeProjectZip :=
        path_join E [dirname E; ".."; "resources"; "cocoapods-verification"; "cocoapods.zip"] in
      extractZip E pathToXCodeProjectZip tempDirectory ;;;
      let xcodeProjectDir := path_join E [tempDirectory; "cocoapods"] in
      tryCatch
        (spawnResult <- spawnFromEvent E "pod" ["install"] "exit"
                          {| ignoreError := false; cwd := Some xcodeProjectDir |} ;;
         if exitCodeTruthy spawnResult then ret (JBool false)
         else
           b <- fsExists E (Some (path_join E [xcodeProjectDir; "cocoapods.xcworkspace"])) ;;
           ret (JBool b))
        (fun _ => ret JNull)
    else ret (JBool false)).

Definition getNativeScriptCliVersion : M JsVal :=
  getValueForProperty "nativeScriptCliVersionCache" (
    output <- execCommand "tns --version" ;;
    ret (match output with
         | JStr s => if Str.isEmpty s then output else JStr (Str.trim s)
         | _ => output
         end)).

Definition getXcprojInfo : M JsVal :=
  getValueForProperty "xcprojInfoCache" (
    cocoaPodsVersion <- getCocoaPodsVersion ;;
    xcodeVersion <- getXcodeVersion ;;
    shouldUseXcproj <-
      (if Js.truthy cocoaPodsVersion then
         isOld <- liftRes (Semver.lt cocoaPodsVersion (JStr "1.0.0")) ;;
         if isOld then
           isNew <- liftRes (Semver.gte xcodeVersion (JStr "7.3.0")) ;;
           ret (JBool isNew)
         else ret (JBool false)
       else ret cocoaPodsVersion) ;;
    xcprojAvailable <-
      (if Js.truthy shouldUseXcproj then
         p <- exec "xcproj --version" ;;
         ret (JBool (match p with Some _ => true | None => false end))
       else ret JUndefined) ;;
    ret (JObj (<["xcprojAvailable" := xcprojAvailable]>
              (<["shouldUseXcproj" := shouldUseXcproj]> ∅)))).

Definition isCocoaPodsUpdateRequired : M JsVal :=
  getValueForProperty "isCocoaPodsUpdateRequiredCache" (
    xcprojInfo <- getXcprojInfo ;;
    match xcprojInfo with
    | JObj o =>
        if Js.truthy (Js.prop o "shouldUseXcproj") && negb (Js.truthy (Js.prop o "xcprojAvailable"))
        then ret (JBool true) else ret (JBool false)
    | JUndefined | JNull => throw (TypeError "Cannot read property 'shouldUseXcproj'")
    | _ => ret (JBool false)
    end).

Definition getSysInfo : M JsVal :=
  getValueForProperty "sysInfoCache" (
    let result : gmap string JsVal := ∅ in
    (* os stuff *)
    let result := <["platform" := JStr (os_platform E)]> result in
    let result := <["shell" := JStr (osenv_shell E)]> result in
    v <- getOs ;; let result := <["os" := v]> result in
    (* node stuff *)
    let result := <["procArch" := JStr (process_arch E)]> result in
    v <- getNodeVersion ;; let result := <["nodeVer" := v]> result in
    v <- getNpmVersion ;; let result := <["npmVer" := v]> result in
    v <- getNodeGypVersion ;; let result := <["nodeGypVer" := v]> result in
    v <- dotNetVersion E ;; let result := <["dotNetVer" := v]> result in
    v <- getJavaVersion ;; let result := <["javaVer" := v]> result in
    v <- getJavaCompilerVersion ;; let result := <["javacVersion" := v]> result in
    v <- getXcodeVersion ;; let result := <["xcodeVer" := v]> result in
    v <- getXcodeprojGemLocation ;; let result := <["xcodeprojGemLocation" := v]> result in
    v <- isITunesInstalled ;; let result := <["itunesInstalled" := v]> result in
    v <- getCocoaPodsVersion ;; let result := <["cocoaPodsVer" := v]> result in
    v <- getAdbVersion ;; let result := <["adbVer" := v]> result in
    v <- isAndroidInstalled ;; let result := <["androidInstalled" := v]> result in
    v <- getMonoVersion ;; let result := <["monoVer" := v]> result in
    v <- getGitVersion ;; let result := <["gitVer" := v]> result in
    v <- getGradleVersion ;; let result := <["gradleVer" := v]> result in
    v <- isCocoaPodsWorkingCorrectly ;; let result := <["isCocoaPodsWorkingCorrectly" := v]> result in
    v <- getNativeScriptCliVersion ;; let result := <["nativeScriptCliVersion" := v]> result in
    v <- isCocoaPodsUpdateRequired ;; let result := <["isCocoaPodsUpdateRequired" := v]> result in
    ret (JObj result)).

(** The accessors that go through [getValueForProperty], with the name of
    the cache property of each. *)
Definition accessors : list (string * M JsVal) :=
  [("javaVerCache", getJavaVersion);
   ("javaCompilerVerCache", getJavaCompilerVersion);
   ("xCodeVerCache", getXcodeVersion);
   ("npmVerCache", getNpmVersion);
   ("nodeGypVerCache", getNodeGypVersion);
   ("xCodeprojGemLocationCache", getXcodeprojGemLocation);
   ("iTunesInstalledCache", isITunesInstalled);
   ("cocoaPodsVerCache", getCocoaPodsVersion);
   ("osCache", getOs);
   ("adbVerCache", getAdbVersion);
   ("androidInstalledCache", isAndroidInstalled);
   ("monoVerCache", getMonoVersion);
   ("gitVerCache", getGitVersion);
   ("gradleVerCache", getGradleVersion);
   ("sysInfoCache", getSysInfo);
   ("isCocoaPodsWorkingCorrectlyCache", isCocoaPodsWorkingCorrectly);
   ("nativeScriptCliVersionCache", getNativeScriptCliVersion);
   ("xcprojInfoCache", getXcprojInfo);
   ("isCocoaPodsUpdateRequiredCache", isCocoaPodsUpdateRequired)].

End SysInfo.
End SysInfo.

(** ** [AndroidToolsInfo] *)

Module AndroidToolsInfo.
Section AndroidToolsInfo.
Variable E : Env.

(** [Constants.ANDROID_PLATFORM_NAME]; the class [Constants] is outside the
    modelled files. *)
Variable ANDROID_PLATFORM_NAME : string.

Definition ANDROID_TARGET_PREFIX : string := "android".

Definition SUPPORTED_TARGETS : list string :=
  ["android-17"; "android-18"; "android-19"; "android-21"; "android-22";
   "android-23"; "android-24"; "android-25"].

Definition MIN_REQUIRED_COMPILE_TARGET : Z := 22.

(** [REQUIRED_BUILD_TOOLS_RANGE_PREFIX = ">=23"] *)
Definition REQUIRED_BUILD_TOOLS_RANGE_PREFIX : Semver.Comparator :=
  {| Semver.c_op := Semver.OpGE; Semver.c_major := 23 |}.

(** [this.androidHome], read from the environment when the object is
    created. *)
Definition androidHome : option string := env_ANDROID_HOME E.

(** [if (this.androidHome)]: set and not empty. *)
Definition androidHomeSet : option string :=
  match androidHome with
  | Some h => if Str.isEmpty h then None else Some h
  | None => None
  end.

(** [parseInt] in base ten: leading white space, a sign, then the longest
    run of digits; [None] is [NaN]. *)
Definition parseInt (s : string) : option Z :=
  let s := Str.dropWhile Str.isWhiteSpace s in
  let '(neg, s) :=
    match s with
    | String "-" r => (true, r)
    | String "+" r => (false, r)
    | _ => (false, s)
    end in
  let '(d, _) := Str.takeWhile Str.isDigit s in
  if Str.isEmpty d then None
  else let n := Z.of_N (Str.digitsToN d) in Some (if neg then (- n)%Z else n).

Definition parseAndroidSdkString (androidSdkString : string) : option Z :=
  parseInt (Str.removeFirst (ANDROID_TARGET_PREFIX ++ "-") androidSdkString).

Definition getInstalledTargets : M (list string) :=
  tryCatch
    (pathToInstalledTargets <- liftRes (pathJoin E [androidHome; Some "platforms"]) ;;
     b <- fsExists E (Some pathToInstalledTargets) ;;
     if negb b then throw (Error "No Android Targets installed.")
     else readDirectory E pathToInstalledTargets)
    (fun _ => ret []).

Definition getLatestValidAndroidTarget : M (option string) :=
  installedTargets <- getInstalledTargets ;;
  let sortedAndroidToolsInfo := Str.sort SUPPORTED_TARGETS in
  ret (fold_left
         (fun latestValidAndroidTarget s =>
            if existsb (String.eqb s) installedTargets then Some s
            else latestValidAndroidTarget)
         sortedAndroidToolsInfo None).

Definition getCompileSdk : M (option Z) :=
  latestValidAndroidTarget <- getLatestValidAndroidTarget ;;
  match latestValidAndroidTarget with
  | Some t =>
      match parseAndroidSdkString t with
      | Some integerVersion =>
          if negb (integerVersion =? 0)%Z && (MIN_REQUIRED_COMPILE_TARGET <=? integerVersion)%Z
          then ret (Some integerVersion)
          else ret None
      | None => ret None
      end
  | None => ret None
  end.

Definition getMatchingDir (pathToDir : string) (versionRange : option Semver.Range)
  : M (option string) :=
  b <- fsExists E (Some pathToDir) ;;
  if b then
    subDirs <- readDirectory E pathToDir ;;
    let subDirsVersions := omap Re.ANDROID_VERSION_REGEX subDirs in
    version <- liftRes (Semver.maxSatisfying subDirsVersions versionRange) ;;
    match version with
    | Some version => ret (List.find (fun dir => Str.contains version dir) subDirs)
    | None => ret None
    end
  else ret None.

Definition getMaxSupportedVersion : option Z :=
  parseAndroidSdkString (List.last (Str.sort SUPPORTED_TARGETS) "").

(** [`>=23 <=${this.getMaxSupportedVersion()}`] *)
Definition getBuildToolsRange : option Semver.Range :=
  match getMaxSupportedVersion with
  | Some m =>
      if (0 <=? m)%Z then
        Some [REQUIRED_BUILD_TOOLS_RANGE_PREFIX;
              {| Semver.c_op := Semver.OpLE; Semver.c_major := Z.to_N m |}]
      else None
  | None => None
  end.

Definition getBuildToolsVersion : M (option string) :=
  match androidHomeSet with
  | Some home =>
      let pathToBuildTools := path_join E [home; "build-tools"] in
      let buildToolsRange := getBuildToolsRange in
      getMatchingDir pathToBuildTools buildToolsRange
  | None => ret None
  end.

(** [`>=${compileSdkVersion} <${compileSdkVersion + 1}`], or [undefined] *)
Definition getAppCompatRange : M (option Semver.Range) :=
  compileSdkVersion <- getCompileSdk ;;
  match compileSdkVersion with
  | Some c =>
      ret (Some [{| Semver.c_op := Semver.OpGE; Semver.c_major := Z.to_N c |};
                 {| Semver.c_op := Semver.OpLT; Semver.c_major := Z.to_N (c + 1) |}])
  | None => ret None
  end.

Definition getAndroidSupportRepositoryVersion : M (option string) :=
  requiredAppCompatRange <- getAppCompatRange ;;
  match androidHomeSet, requiredAppCompatRange with
  | Some home, Some range =>
      let pathToAppCompat :=
        path_join E [home; "extras"; "android"; "m2repository"; "com"; "android";
                     "support"; "appcompat-v7"] in
      getMatchingDir pathToAppCompat (Some range)
  | _, _ => ret None
  end.

(** The body of [getToolsInfo] that runs when nothing is stored. *)
Definition computeToolsInfo : M ToolsInfoData :=
  c <- getCompileSdk ;;
  b <- getBuildToolsVersion ;;
  s <- getAndroidSupportRepositoryVersion ;;
  ret {| androidHomeEnvVar := androidHome;
         compileSdkVersion := c;
         buildToolsVersion := b;
         supportRepositoryVersion := s |}.

Definition getToolsInfo : M ToolsInfoData :=
  fun st =>
    match toolsInfo st with
    | Some stored => (Ok stored, st)
    | None =>
        (infoData <- computeToolsInfo ;;
         (fun st' =>
            (Ok infoData,
             {| fields := fields st'; shouldCache := shouldCache st';
                monoLastIndex := monoLastIndex st'; toolsInfo := Some infoData;
                log := log st' |}))) st
    end.

Definition androidHomeNotSetWarning : IWarning :=
  {| warning := "The ANDROID_HOME environment variable is not set or it points to a non-existent directory. You will not be able to perform any build-related operations for Android.";
     additionalInformation := "To be able to perform Android build-related operations, set the `ANDROID_HOME` variable to point to the root of your Android SDK installation directory.";
     platforms := Some [ANDROID_PLATFORM_NAME] |}.

Definition androidHomeIncorrectWarning : IWarning :=
  {| warning := "The ANDROID_HOME environment variable points to incorrect directory. You will not be able to perform any build-related operations for Android.";
     additionalInformation := "To be able to perform Android build-related operations, set the `ANDROID_HOME` variable to point to the root of your Android SDK installation directory, where you will find `tools` and `platform-tools` directories.";
     platforms := Some [ANDROID_PLATFORM_NAME] |}.

Definition expectedDirectoriesInAndroidHome : list string :=
  ["build-tools"; "tools"; "platform-tools"; "extras"].

(** [list.map(f)] for an [f] that calls the file system. *)
Fixpoint mapM {A B} (f : A -> M B) (l : list A) : M (list B) :=
  match l with
  | [] => ret []
  | a :: l' => b <- f a ;; bs <- mapM f l' ;; ret (b :: bs)
  end.

Definition validateAndroidHomeEnvVariable : M (list IWarning) :=
  let errors : list IWarning := [] in
  match androidHomeSet with
  | None => ret (errors ++ [androidHomeNotSetWarning])
  | Some home =>
      homeExists <- fsExists E (Some home) ;;
      if negb homeExists then ret (errors ++ [androidHomeNotSetWarning])
      else
        found <- mapM (fun dir => fsExists E (Some (path_join E [home; dir])))
                      expectedDirectoriesInAndroidHome ;;
        if (length found =? 0)%nat then ret (errors ++ [androidHomeIncorrectWarning])
        else ret errors
  end.

(** *** Validation of the installation and paths of the tools *)

Definition MIN_JAVA_VERSION : string := "1.8.0".

(** A number in a template literal; [None] is [NaN]. *)
Definition numberToString (n : option Z) : string :=
  match n with
  | Some z => NilZero.string_of_int (Z.to_int z)
  | None => "NaN"
  end.

(** Truth values: a number other than 0 and [NaN], a string that is not
    empty, and every array, the empty one included. *)
Definition numberTruthy (n : option Z) : bool :=
  match n with Some z => negb (z =? 0)%Z | None => false end.

Definition stringTruthy (s : option string) : bool :=
  match s with Some s => negb (Str.isEmpty s) | None => false end.

Definition arrayTruthy {A} (l : list A) : bool := true.

(** The text built by [getBuildToolsRange]. *)
Definition getBuildToolsRangeText : string :=
  ">=23" ++ " <=" ++ numberToString getMaxSupportedVersion.

(** [process.platform] is the value that [os.platform()] returns. *)
Definition getSystemRequirementsLink : string :=
  if String.eqb (os_platform E) "linux"
  then "http://docs.nativescript.org/setup/ns-cli-setup/ns-setup-linux.html#system-requirements"
  else if String.eqb (os_platform E) "win32"
  then "http://docs.nativescript.org/setup/ns-cli-setup/ns-setup-win.html#system-requirements"
  else if String.eqb (os_platform E) "darwin"
  then "http://docs.nativescript.org/setup/ns-cli-setup/ns-setup-os-x.html#system-requirements"
  else "".

Definition javacAdditionalMessage : string :=
  "You will not be able to build your projects for Android." ++ EOL E
  ++ "To be able to build for Android, verify that you have installed The Java Development Kit (JDK) and configured it according to system requirements as" ++ EOL E
  ++ " described in " ++ getSystemRequirementsLink.

Definition javacUnsupportedWarning (installedJavaVersion : JsVal) : IWarning :=
  {| warning := "Javac version " ++ Js.toString installedJavaVersion
                ++ " is not supported. You have to install at least " ++ MIN_JAVA_VERSION ++ ".";
     additionalInformation := javacAdditionalMessage;
     platforms := Some [ANDROID_PLATFORM_NAME] |}.

Definition javacMissingWarning : IWarning :=
  {| warning := "Error executing command 'javac'. Make sure you have installed The Java Development Kit (JDK) and set JAVA_HOME environment variable.";
     additionalInformation := javacAdditionalMessage;
     platforms := Some [ANDROID_PLATFORM_NAME] |}.

(** [(installedJavaVersion || "").match(VERSION_REGEX)]: a value that is
    neither falsy nor a string has no method [match]. *)
Definition javacVersionMatch (installedJavaVersion : JsVal) : Res (option string) :=
  match installedJavaVersion with
  | JStr s => Ok (Re.ANDROID_VERSION_REGEX s)
  | JUndefined | JNull | JBool false => Ok (Re.ANDROID_VERSION_REGEX "")
  | JBool true | JObj _ => Throw (TypeError "(intermediate value).match is not a function")
  end.

Definition validateJavacVersion (installedJavaVersion : JsVal) : Res (list IWarning) :=
  let errors : list IWarning := [] in
  res_bind (javacVersionMatch installedJavaVersion) (fun matchingVersion =>
  match matchingVersion with
  | Some v =>
      if negb (Str.isEmpty v) then
        res_bind (Semver.lt (JStr v) (JStr MIN_JAVA_VERSION)) (fun older =>
        if older then Ok (errors ++ [javacUnsupportedWarning installedJavaVersion])
        else Ok errors)
      else Ok (errors ++ [javacMissingWarning])
  | None => Ok (errors ++ [javacMissingWarning])
  end).

(** [ChildProcess.execFile] is a collaborator that the trace does not
    record: any computation. *)
Variable childProcess_execFile : string -> list string -> M ProcessInfo.

(** [None] is [null]. *)
Definition getPathToAdbFromAndroidHome : M (option string) :=
  match androidHomeSet with
  | Some home =>
      let pathToAdb := path_join E [home; "platform-tools"; "adb"] in
      tryCatch
        (childProcess_execFile pathToAdb ["help"] ;;;
         ret (Some pathToAdb))
        (fun _ => ret None)
  | None => ret None
  end.

(** The argument is the field [this.pathToEmulatorExecutable] before the
    call; the result is also the value of the field after it. *)
Definition getPathToEmulatorExecutable (pathToEmulatorExecutable : option string) : M string :=
  if negb (stringTruthy pathToEmulatorExecutable) then
    let emulatorExecutableName := "emulator" in
    match androidHomeSet with
    | Some home =>
        let pathToEmulatorFromAndroidStudio :=
          path_join E [home; emulatorExecutableName; emulatorExecutableName] in
        let realFilePath :=
          if isWindows E then (pathToEmulatorFromAndroidStudio ++ ".exe")%string
          else pathToEmulatorFromAndroidStudio in
        found <- fsExists E (Some realFilePath) ;;
        if found then ret pathToEmulatorFromAndroidStudio
        else ret (path_join E [home; "tools"; emulatorExecutableName])
    | None => ret emulatorExecutableName
    end
  else ret (default "" pathToEmulatorExecutable).

(** [pathToExecutable.replace(this.androidHome, ...)]: a pattern that is
    not a string is converted to one. *)
Definition getPathToSdkManagementTool : M string :=
  let sdkmanagerName := "sdkmanager" in
  let sdkManagementToolPath := sdkmanagerName in
  isAndroidHomeValid <- validateAndroidHomeEnvVariable ;;
  if arrayTruthy isAndroidHomeValid then
    pathToSdkmanager <-
      liftRes (pathJoin E [androidHome; Some "tools"; Some "bin"; Some sdkmanagerName]) ;;
    pathToAndroidExecutable <-
      liftRes (pathJoin E [androidHome; Some "tools"; Some "android"]) ;;
    found <- fsExists E (Some pathToSdkmanager) ;;
    let pathToExecutable := if found then pathToSdkmanager else pathToAndroidExecutable in
    ret (Str.replaceFirst (default "undefined" androidHome)
           (if isWindows E then "%ANDROID_HOME%" else "$ANDROID_HOME")
           pathToExecutable)
  else ret sdkManagementToolPath.

Definition compileSdkWarning (tool : string) : IWarning :=
  {| warning := "Cannot find a compatible Android SDK for compilation. To be able to build for Android, install Android SDK "
                ++ numberToString (Some MIN_REQUIRED_COMPILE_TARGET) ++ " or later.";
     additionalInformation := "Run `$ " ++ tool ++ "` to manage your Android SDK versions.";
     platforms := Some [ANDROID_PLATFORM_NAME] |}.

Definition androidHomeHintForBuildTools : string :=
  " In case you already have them installed, make sure `ANDROID_HOME` environment variable is set correctly.".

Definition androidHomeHintForSupportRepository : string :=
  " In case you already have it installed, make sure `ANDROID_HOME` environment variable is set correctly.".

Definition buildToolsWarning (message additionalMsg : string) : IWarning :=
  {| warning := "You need to have the Android SDK Build-tools installed on your system. " ++ message;
     additionalInformation := additionalMsg;
     platforms := Some [ANDROID_PLATFORM_NAME] |}.

Definition supportRepositoryWarning (additionalMsg : string) : IWarning :=
  {| warning := "You need to have Android SDK " ++ numberToString (Some MIN_REQUIRED_COMPILE_TARGET)
                ++ " or later and the latest Android Support Repository installed on your system.";
     additionalInformation := additionalMsg;
     platforms := Some [ANDROID_PLATFORM_NAME] |}.

Definition validateInfo : M (list IWarning) :=
  let errors : list IWarning := [] in
  toolsInfoData <- getToolsInfo ;;
  isAndroidHomeValid <- validateAndroidHomeEnvVariable ;;
  errors <-
    (if negb (numberTruthy (compileSdkVersion toolsInfoData)) then
       tool <- getPathToSdkManagementTool ;;
       ret (errors ++ [compileSdkWarning tool])
     else ret errors) ;;
  errors <-
    (if negb (stringTruthy (buildToolsVersion toolsInfoData)) then
       let buildToolsRange := getBuildToolsRangeText in
       let versionRangeMatches := Re.RANGE_BOUNDS_REGEXP buildToolsRange in
       let message :=
         ("You can install any version in the following range: '" ++ buildToolsRange ++ "'.")%string in
       let message :=
         match versionRangeMatches with
         | Some (g1, g2) =>
             if negb (Str.isEmpty g1) && negb (Str.isEmpty g2) && String.eqb g1 g2
             then ("You have to install version " ++ g1 ++ ".")%string
             else message
         | None => message
         end in
       tool <- getPathToSdkManagementTool ;;
       let invalidBuildToolsAdditionalMsg :=
         ("Run `$ " ++ tool ++ "` from your command-line to install required `Android Build Tools`.")%string in
       let invalidBuildToolsAdditionalMsg :=
         if negb (arrayTruthy isAndroidHomeValid)
         then (invalidBuildToolsAdditionalMsg ++ androidHomeHintForBuildTools)%string
         else invalidBuildToolsAdditionalMsg in
       ret (errors ++ [buildToolsWarning message invalidBuildToolsAdditionalMsg])
     else ret errors) ;;
  errors <-
    (if negb (stringTruthy (supportRepositoryVersion toolsInfoData)) then
       tool <- getPathToSdkManagementTool ;;
       let invalidSupportLibAdditionalMsg :=
         ("Run `$ " ++ tool ++ "` to manage the Android Support Repository.")%string in
       let invalidSupportLibAdditionalMsg :=
         if negb (arrayTruthy isAndroidHomeValid)
         then (invalidSupportLibAdditionalMsg ++ androidHomeHintForSupportRepository)%string
         else invalidSupportLibAdditionalMsg in
       ret (errors ++ [supportRepositoryWarning invalidSupportLibAdditionalMsg])
     else ret errors) ;;
  ret errors.

End AndroidToolsInfo.
End AndroidToolsInfo.

(** ** [Doctor] *)

Module Doctor.
Section Doctor.
Variable E : Env.

(** [Constants] and the two requirement checkers are outside the modelled
    files; the locale used by [toLocaleLowerCase] belongs to the host. *)
Variable ANDROID_PLATFORM_NAME : string.
Variable IOS_PLATFORM_NAME : string.
Variable SUPPORTED_PLATFORMS : list string.
Variable toLocaleLowerCase : string -> string.
Variable androidCheckRequirements : M bool.
Variable iosCheckRequirements : M bool.

Definition MIN_SUPPORTED_POD_VERSION : string := "0.38.2".

Definition isPlatformSupported (platform : string) : bool :=
  fold_left
    (fun (prevValue : bool) currentValue =>
       if negb prevValue
       then String.eqb (toLocaleLowerCase currentValue) (toLocaleLowerCase platform)
       else prevValue)
    SUPPORTED_PLATFORMS false.

Definition notSupportedMessage (platform : string) : string :=
  "Platform " ++ platform ++ " is not supported. The supported platforms are: " ++
  Str.join ", " SUPPORTED_PLATFORMS.

Definition validatePlatform (platform : string) : M unit :=
  if Str.isEmpty platform then throw (Error "You must specify a platform.")
  else if negb (isPlatformSupported platform)
       then throw (Error (notSupportedMessage platform))
       else ret tt.

Definition canExecuteLocalBuild (platform : string) : M bool :=
  validatePlatform platform ;;;
  if String.eqb (toLocaleLowerCase platform) (toLocaleLowerCase ANDROID_PLATFORM_NAME)
  then androidCheckRequirements
  else if String.eqb (toLocaleLowerCase platform) (toLocaleLowerCase IOS_PLATFORM_NAME)
  then iosCheckRequirements
  else ret false.

Definition mkWarning (w info : string) : IWarning :=
  {| warning := w; additionalInformation := info; platforms := None |}.

Definition adbWarning : IWarning :=
  mkWarning
    "WARNING: adb from the Android SDK is not installed or is not configured properly. "
    ("For Android-related operations, the AppBuilder CLI will use a built-in version of adb." ++ EOL E
     ++ "To avoid possible issues with the native Android emulator, Genymotion or connected" ++ EOL E
     ++ "Android devices, verify that you have installed the latest Android SDK and" ++ EOL E
     ++ "its dependencies as described in http://developer.android.com/sdk/index.html#Requirements" ++ EOL E).

Definition androidWarning : IWarning :=
  mkWarning
    "WARNING: The Android SDK is not installed or is not configured properly."
    ("You will not be able to run your apps in the native emulator. To be able to run apps" ++ EOL E
     ++ "in the native Android emulator, verify that you have installed the latest Android SDK " ++ EOL E
     ++ "and its dependencies as described in http://developer.android.com/sdk/index.html#Requirements" ++ EOL E).

Definition xcodeWarning : IWarning :=
  mkWarning
    "WARNING: Xcode is not installed or is not configured properly."
    ("You will not be able to build your projects for iOS or run them in the iOS Simulator." ++ EOL E
     ++ "To be able to build for iOS and run apps in the native emulator, verify that you have installed Xcode." ++ EOL E).

Definition xcodeprojWarning : IWarning :=
  mkWarning
    "WARNING: xcodeproj gem is not installed or is not configured properly."
    ("You will not be able to build your projects for iOS." ++ EOL E
     ++ "To be able to build for iOS and run apps in the native emulator, verify that you have installed xcodeproj." ++ EOL E).

Definition cocoaPodsWarning : IWarning :=
  mkWarning
    "WARNING: CocoaPods is not installed or is not configured properly."
    ("You will not be able to build your projects for iOS if they contain plugin with CocoaPod file." ++ EOL E
     ++ "To be able to build such projects, verify that you have installed CocoaPods.").

Definition cocoaPodsProblemWarning : IWarning :=
  mkWarning
    "WARNING: There was a problem with CocoaPods"
    "Verify that CocoaPods are configured properly.".

Definition cocoaPodsOldWarning : IWarning :=
  mkWarning
    ("WARNING: Your current CocoaPods version is earlier than " ++ MIN_SUPPORTED_POD_VERSION ++ ".")
    ("You will not be able to build your projects for iOS if they contain plugin with CocoaPod file." ++ EOL E
     ++ "To be able to build such projects, verify that you have at least " ++ MIN_SUPPORTED_POD_VERSION
     ++ " version installed.").

Definition monoWarning : IWarning :=
  mkWarning
    "WARNING: Mono 3.12 or later is not installed or not configured properly."
    ("You will not be able to work with Android devices in the device simulator or debug on connected Android devices." ++ EOL E
     ++ "To be able to work with Android in the device simulator and debug on connected Android devices," ++ EOL E
     ++ "download and install Mono 3.12 or later from http://www.mono-project.com/download/" ++ EOL E).

Definition iosNote : IWarning :=
  mkWarning
    "NOTE: You can develop for iOS only on Mac OS X systems."
    ("To be able to work with iOS devices and projects, you need Mac OS X Mavericks or later." ++ EOL E).

Definition itunesWarning : IWarning :=
  mkWarning
    "WARNING: iTunes is not installed."
    ("You will not be able to work with iOS devices via cable connection." ++ EOL E
     ++ "To be able to work with connected iOS devices," ++ EOL E
     ++ "download and install iTunes from http://www.apple.com" ++ EOL E).

Definition javaWarning : IWarning :=
  mkWarning
    "WARNING: The Java Development Kit (JDK) is not installed or is not configured properly."
    ("You will not be able to work with the Android SDK and you might not be able" ++ EOL E
     ++ "to perform some Android-related operations. To ensure that you can develop and" ++ EOL E
     ++ "test your apps for Android, verify that you have installed the JDK as" ++ EOL E
     ++ "described in http://docs.oracle.com/javase/8/docs/technotes/guides/install/install_overview.html (for JDK 8)" ++ EOL E
     ++ "or http://docs.oracle.com/javase/7/docs/webnotes/install/ (for JDK 7)." ++ EOL E).

Definition gitWarning : IWarning :=
  mkWarning
    "WARNING: Git is not installed or not configured properly."
    ("You will not be able to create and work with Screen Builder projects." ++ EOL E
     ++ "To be able to work with Screen Builder projects, download and install Git as described" ++ EOL E
     ++ "in https://git-scm.com/downloads and add the git executable to your PATH." ++ EOL E).

(** [if (c) { result.push(w) }] *)
Definition pushIf (c : bool) (w : IWarning) (result : list IWarning) : list IWarning :=
  if c then result ++ [w] else result.

(** The checks of [getWarnings] on a snapshot object. *)
Definition getWarningsFrom (sysInfoData : gmap string JsVal) : M (list IWarning) :=
  let sysInfoData_ k := Js.prop sysInfoData k in
  let result : list IWarning := [] in
  let result := pushIf (negb (Js.truthy (sysInfoData_ "adbVer"))) adbWarning result in
  let result := pushIf (negb (Js.truthy (sysInfoData_ "androidInstalled"))) androidWarning result in
  result <-
    (if isDarwin E then
       let result := pushIf (negb (Js.truthy (sysInfoData_ "xcodeVer"))) xcodeWarning result in
       let result :=
         pushIf (negb (Js.truthy (sysInfoData_ "xcodeprojGemLocation"))) xcodeprojWarning result in
       let result := pushIf (negb (Js.truthy (sysInfoData_ "cocoapodVer"))) cocoaPodsWarning result in
       result <-
         (if Js.truthy (sysInfoData_ "xcodeVer") && Js.truthy (sysInfoData_ "cocoapodVer") then
            isCocoaPodsWorkingCorrectly <- SysInfo.isCocoaPodsWorkingCorrectly E ;;
            ret (pushIf (negb (Js.truthy isCocoaPodsWorkingCorrectly)) cocoaPodsProblemWarning result)
          else ret result) ;;
       tooOld <-
         (if Js.truthy (sysInfoData_ "cocoapodVer") && Semver.valid (sysInfoData_ "cocoapodVer")
          then liftRes (Semver.lt (sysInfoData_ "cocoapodVer") (JStr MIN_SUPPORTED_POD_VERSION))
          else ret false) ;;
       let result := pushIf tooOld cocoaPodsOldWarning result in
       monoMissing <-
         (if negb (Js.truthy (sysInfoData_ "monoVer")) then ret true
          else liftRes (Semver.lt (sysInfoData_ "monoVer") (JStr "3.12.0"))) ;;
       let result := pushIf monoMissing monoWarning result in
       ret result
     else ret (result ++ [iosNote])) ;;
  let result := pushIf (negb (Js.truthy (sysInfoData_ "itunesInstalled"))) itunesWarning result in
  let result := pushIf (negb (Js.truthy (sysInfoData_ "javaVer"))) javaWarning result in
  let result := pushIf (negb (Js.truthy (sysInfoData_ "gitVer"))) gitWarning result in
  ret result.

(** Reading a property of [undefined] or [null] throws; a primitive has no
    own property of these names. *)
Definition getWarnings : M (list IWarning) :=
  sysInfoData <- SysInfo.getSysInfo E ;;
  match sysInfoData with
  | JObj o => getWarningsFrom o
  | JUndefined | JNull => throw (TypeError "Cannot read property 'adbVer'")
  | JBool _ | JStr _ => getWarningsFrom ∅
  end.

End Doctor.
End Doctor.

(** ** Sample hosts

    Concrete machines on which the definitions above are evaluated. *)

Module Hosts.

Definition LF : string := String (ascii_of_nat 10) "".

Definition enoent {A} : Res A := Throw (Error "ENOENT").

(** [path.join] on POSIX for the paths of the samples: the parts are joined
    with a slash and the segments [.] and [..] are resolved. *)
Fixpoint splitSlash (cur : string) (s : string) : list string :=
  match s with
  | String c s' =>
      if (c =? "/")%char then cur :: splitSlash "" s'
      else splitSlash (cur ++ String c "") s'
  | EmptyString => [cur]
  end.

Definition resolveSegments (segments : list string) : list string :=
  fold_left
    (fun acc seg =>
       if Str.isEmpty seg || String.eqb seg "." then acc
       else if String.eqb seg ".." then removelast acc
       else acc ++ [seg])
    segments [].

Definition posixJoin (parts : list string) : string :=
  let joined := Str.join "/" (filter (fun p => negb (Str.isEmpty p)) parts) in
  let body := Str.join "/" (resolveSegments (splitSlash "" joined)) in
  match joined with
  | String "/" _ => ("/" ++ body)%string
  | _ => if Str.isEmpty body then "." else body
  end.

(** A host given by its family, its SDK root variable and the replies of
    the process runner and the file system; paths are joined with a
    slash. *)
Definition host (darwin : bool) (androidHome : option string)
  (execReply : nat -> string -> Res ProcessInfo)
  (spawnReply : nat -> string -> list string -> Res ProcessInfo)
  (existsReply : nat -> string -> bool)
  (readDirectoryReply : nat -> string -> Res (list string)) : Env :=
  {| isWindows := false;
     isWindows64 := false;
     isDarwin := darwin;
     isLinux := negb darwin;
     EOL := LF;
     os_platform := if darwin then "darwin" else "linux";
     osenv_shell := "/bin/bash";
     process_arch := "x64";
     process_version := "v8.11.1";
     env_JAVA_HOME := None;
     env_ANDROID_HOME := androidHome;
     env_CommonProgramFiles := None;
     env_CommonProgramFilesX86 := None;
     dirname := "/opt/doctor/lib";
     path_join := posixJoin;
     childProcess_exec := execReply;
     process_spawn := fun n cmd args _ _ => spawnReply n cmd args;
     fileSystem_exists :=
       fun n path => match path with Some p => existsReply n p | None => false end;
     fileSystem_readDirectory := readDirectoryReply;
     fileSystem_extractZip := fun _ _ _ => Ok tt;
     winReg_getRegistryValue := fun _ _ _ => Ok JUndefined;
     hostInfo_dotNetVersion := fun _ => Ok JNull;
     temp_mkdirSync := fun _ prefix => Ok ("/tmp/" ++ prefix)%string |}.

Definition noExec : nat -> string -> Res ProcessInfo := fun _ _ => enoent.
Definition noSpawn : nat -> string -> list string -> Res ProcessInfo := fun _ _ _ => enoent.
Definition noFiles : nat -> string -> bool := fun _ _ => false.
Definition noDirectories : nat -> string -> Res (list string) := fun _ _ => enoent.

(** Nothing installed, on Linux and on macOS. *)
Definition bareLinux : Env := host false None noExec noSpawn noFiles noDirectories.
Definition bareMac : Env := host true None noExec noSpawn noFiles noDirectories.

(** Java is installed between the first and the second external call. *)
Definition javaOutput : ProcessInfo :=
  {| stdout := "";
     stderr := ("java version " ++ Str.dquote ++ "1.8.0_211" ++ Str.dquote ++ LF)%string;
     exitCode := Some 0%Z |}.

Definition javaInstalledLater : Env :=
  host false None noExec
       (fun n cmd _ => if String.eqb cmd "java" && (1 <=? n)%nat then Ok javaOutput else enoent)
       noFiles noDirectories.

Definition javaInstalled : Env :=
  host false None noExec
       (fun n cmd _ => if String.eqb cmd "java" then Ok javaOutput else enoent)
       noFiles noDirectories.

(** A Mac with CocoaPods 0.39.0 and without Xcode. *)
Definition oldPodsNoXcode : Env :=
  host true None
       (fun _ cmd =>
          if String.eqb cmd "pod --version"
          then Ok {| stdout := ("0.39.0" ++ LF)%string; stderr := ""; exitCode := None |}
          else enoent)
       noSpawn noFiles noDirectories.

(** A Mac on which unpacking the bundled project fails. *)
Definition brokenArchive : Env :=
  {| isWindows := false; isWindows64 := false; isDarwin := true; isLinux := false;
     EOL := LF; os_platform := "darwin"; osenv_shell := "/bin/bash";
     process_arch := "x64"; process_version := "v8.11.1";
     env_JAVA_HOME := None; env_ANDROID_HOME := None;
     env_CommonProgramFiles := None; env_CommonProgramFilesX86 := None;
     dirname := "/opt/doctor/lib"; path_join := posixJoin;
     childProcess_exec := noExec;
     process_spawn := fun _ _ _ _ _ => enoent;
     fileSystem_exists := fun _ _ => false;
     fileSystem_readDirectory := noDirectories;
     fileSystem_extractZip := fun _ _ _ => Throw (Error "invalid zip");
     winReg_getRegistryValue := fun _ _ _ => Ok JUndefined;
     hostInfo_dotNetVersion := fun _ => Ok JNull;
     temp_mkdirSync := fun _ prefix => Ok ("/tmp/" ++ prefix)%string |}.

(** [ANDROID_HOME] points to an existing directory without any of the
    expected subdirectories. *)
Definition emptySdkRoot : Env :=
  host false (Some "/sdk") noExec noSpawn (fun _ p => String.eqb p "/sdk") noDirectories.

(** Build-tools directories named [124.0.0] and [24.0.0]. *)
Definition oddBuildTools : Env :=
  host false (Some "/sdk") noExec noSpawn
       (fun _ p => String.eqb p "/sdk" || String.eqb p "/sdk/build-tools")
       (fun _ p => if String.eqb p "/sdk/build-tools" then Ok ["124.0.0"; "24.0.0"] else enoent).

Definition appCompatPath : string :=
  "/sdk/extras/android/m2repository/com/android/support/appcompat-v7".

(** Platform 25 with support libraries 24.2.1 and 25.1.0, build tools
    25.0.2. *)
Definition sdk25 : Env :=
  host false (Some "/sdk") noExec noSpawn
       (fun _ p => String.eqb p "/sdk" || String.eqb p "/sdk/platforms"
                   || String.eqb p "/sdk/build-tools" || String.eqb p appCompatPath)
       (fun _ p =>
          if String.eqb p "/sdk/platforms" then Ok ["android-19"; "android-25"]
          else if String.eqb p "/sdk/build-tools" then Ok ["25.0.2"]
          else if String.eqb p appCompatPath then Ok ["24.2.1"; "25.1.0"]
          else enoent).

(** Platform 25 with support-library directories named [24.125.0.1] and
    [25.0.1]. *)
Definition oddSupportLibrary : Env :=
  host false (Some "/sdk") noExec noSpawn
       (fun _ p => String.eqb p "/sdk" || String.eqb p "/sdk/platforms"
                   || String.eqb p appCompatPath)
       (fun _ p =>
          if String.eqb p "/sdk/platforms" then Ok ["android-25"]
          else if String.eqb p appCompatPath then Ok ["24.125.0.1"; "25.0.1"]
          else enoent).

(** A build-tools directory whose name has a number with a leading zero. *)
Definition malformedBuildTools : Env :=
  host false (Some "/sdk") noExec noSpawn
       (fun _ p => String.eqb p "/sdk" || String.eqb p "/sdk/build-tools")
       (fun _ p => if String.eqb p "/sdk/build-tools" then Ok ["25.0.2"; "25.0.03"]
                   else enoent).

(** Mono 5.4.1 is installed. *)
Definition monoOutput : ProcessInfo :=
  {| stdout := "Mono JIT compiler version 5.4.1 (x)"; stderr := ""; exitCode := Some 0%Z |}.

Definition monoInstalled : Env :=
  host false None
       (fun _ cmd => if String.eqb cmd "mono --version" then Ok monoOutput else enoent)
       noSpawn noFiles noDirectories.

(** The same SDK, removed from the disk after the eighth external call. *)
Definition sdk25Removed : Env :=
  host false (Some "/sdk") noExec noSpawn
       (fun n p => (n <? 8)%nat && fileSystem_exists sdk25 n (Some p))
       (fun n p => if (n <? 8)%nat then fileSystem_readDirectory sdk25 n p else enoent).

(** A Mac on which [pod install] ends with the given exit code and the
    workspace is present or not. *)
Definition podInstall (code : Z) (workspace : bool) : Env :=
  host true None noExec
       (fun _ cmd _ =>
          if String.eqb cmd "pod"
          then Ok {| stdout := ""; stderr := ""; exitCode := Some code |}
          else enoent)
       (fun _ p => workspace &&
          String.eqb p "/tmp/nativescript-check-cocoapods/cocoapods/cocoapods.xcworkspace")
       noDirectories.

(** ASCII lower-casing, the result of [toLocaleLowerCase] on ASCII text in
    the usual locales. *)
Fixpoint lower (s : string) : string :=
  match s with
  | String c s' => String (Str.toLower c) (lower s')
  | EmptyString => ""
  end.

(** A snapshot with Xcode and CocoaPods, as a caller of the checks may
    hold it. *)
Definition snapshotWithPods : gmap string JsVal :=
  <["cocoapodVer" := JStr "1.5.3"]> (<["xcodeVer" := JStr "9.4.1"]> ∅).

Definition checkTrue : M bool := ret true.
Definition checkFalse : M bool := ret false.

End Hosts.

(** ** Notions used in the statements *)

(** The state after [this[name] = v]. *)
Definition store (name : string) (v : JsVal) (st : St) : St :=
  {| fields := <[name := v]> (fields st); shouldCache := shouldCache st;
     monoLastIndex := monoLastIndex st; toolsInfo := toolsInfo st; log := log st |}.

(** A computation [keeps] the configuration when it leaves the caching flag
    and the stored SDK data alone, only extends the trace, and, with caching
    disabled, stores nothing in the cache properties. *)
Definition keeps {A} (m : M A) : Prop :=
  forall st,
    shouldCache (snd (m st)) = shouldCache st /\
    toolsInfo (snd (m st)) = toolsInfo st /\
    (shouldCache st = false -> fields (snd (m st)) = fields st) /\
    exists l, log (snd (m st)) = log st ++ l.

(** The accessor called on [st] runs its strategy: caching is disabled or
    the slot reads as not yet computed. *)
Definition strategyRuns (name : string) (st : St) : Prop :=
  shouldCache st = false \/ Js.isNullish (Js.prop (fields st) name) = true.

(** The paths and options of the CocoaPods check, for the temporary
    directory [tmp]. *)
Definition podPrefix : string := "nativescript-check-cocoapods".

Definition podArchive (E : Env) : string :=
  path_join E [dirname E; ".."; "resources"; "cocoapods-verification"; "cocoapods.zip"].

Definition podProjectDir (E : Env) (tmp : string) : string :=
  path_join E [tmp; "cocoapods"].

Definition podWorkspace (E : Env) (tmp : string) : string :=
  path_join E [podProjectDir E tmp; "cocoapods.xcworkspace"].

Definition podInstallOptions (E : Env) (tmp : string) : SpawnOptions :=
  {| ignoreError := false; cwd := Some (podProjectDir E tmp) |}.

(** What [pod install] does when it is the external call number [n]. *)
Definition podInstallOutcome (E : Env) (n : nat) (tmp : string) : Res ProcessInfo :=
  process_spawn E n "pod" ["install"] "exit" (podInstallOptions E tmp).

(** The three groups of checks of [getWarnings], each in the order of the
    source. *)
Definition androidChecks (E : Env) : list IWarning :=
  [Doctor.adbWarning E; Doctor.androidWarning E].

Definition iosChecks (E : Env) : list IWarning :=
  [Doctor.xcodeWarning E; Doctor.xcodeprojWarning E; Doctor.cocoaPodsWarning E;
   Doctor.cocoaPodsProblemWarning; Doctor.cocoaPodsOldWarning E; Doctor.monoWarning E].

Definition toolChecks (E : Env) : list IWarning :=
  [Doctor.itunesWarning E; Doctor.javaWarning E; Doctor.gitWarning E].

(** The range required of the support library for the compile target [c],
    and the directory that is searched. *)
Definition appCompatRange (c : Z) : Semver.Range :=
  [{| Semver.c_op := Semver.OpGE; Semver.c_major := Z.to_N c |};
   {| Semver.c_op := Semver.OpLT; Semver.c_major := Z.to_N (c + 1) |}].

Definition appCompatDir (E : Env) (home : string) : string :=
  path_join E [home; "extras"; "android"; "m2repository"; "com"; "android";
               "support"; "appcompat-v7"].

(** How often the command [cmd] was run through [childProcess.exec]. *)
Definition executions (cmd : string) (trace : list Call) : nat :=
  length (List.filter (fun c => match c with
                                | CExec c' => String.eqb c' cmd
                                | _ => false
                                end) trace).

(** The command line of an external call that starts a process. *)
Definition commandOf (c : Call) : option string :=
  match c with
  | CExec cmd => Some cmd
  | CSpawn cmd args _ _ => Some (Str.join " " (cmd :: args))
  | _ => None
  end.

(** The command lines run in a trace, in order. *)
Definition commands (trace : list Call) : list string := omap commandOf trace.

(** [st'] is reached from [st] by writing cache properties among [slots]
    only and by running some of the commands [cmds], in the order of
    [cmds]; the caching flag is untouched. *)
Definition step (slots cmds : list string) (st st' : St) : Prop :=
  shouldCache st' = shouldCache st /\
  (forall k, ~ In k slots -> fields st' !! k = fields st !! k) /\
  exists l, log st' = log st ++ l /\ sublist (commands l) cmds.

Definition probes {A} (slots cmds : list string) (m : M A) : Prop :=
  forall st, step slots cmds st (snd (m st)).

(** The command lines of the Java compiler and of the Android tool, as
    [getJavaCompilerVersion] and [isAndroidInstalled] build them. *)
Definition javacCommand (E : Env) : string :=
  let javaCompileExecutableName := "javac" in
  let pathToJavaCompilerExecutable :=
    match env_JAVA_HOME E with
    | Some javaHome =>
        if Str.isEmpty javaHome then javaCompileExecutableName
        else path_join E [javaHome; "bin"; javaCompileExecutableName]
    | None => javaCompileExecutableName
    end in
  Str.dquote ++ pathToJavaCompilerExecutable ++ Str.dquote ++ " -version".

Definition androidCommand (E : Env) : string :=
  Str.join " " [(if isWindows E then "android" ++ ".bat" else "android")%string; "-h"].

(** The commands of [getXcprojInfo], called at the end of [getSysInfo]: the
    two version commands run again only for a slot that reads as not
    computed. *)
Definition xcprojCommands (absentPods absentXcode : bool) : list string :=
  (if absentPods then ["pod --version"] else []) ++
  (if absentXcode then ["xcodebuild -version"] else []) ++
  ["xcproj --version"].

Definition xcprojSlots : list string :=
  ["cocoaPodsVerCache"; "xCodeVerCache"; "xcprojInfoCache"; "isCocoaPodsUpdateRequiredCache"].

(** The commands of one [getSysInfo] evaluation, in the order of the
    source. *)
Definition snapshotCommands (E : Env) (absentPods absentXcode : bool) : list string :=
  ["uname -a"; "npm -v"; "node-gyp -v"; "java -version"; javacCommand E;
   "xcodebuild -version"; "gem which xcodeproj"; "pod --version"; "adb version";
   androidCommand E; "mono --version"; "git --version"; "gradle -v"; "pod install";
   "tns --version"] ++
  xcprojCommands absentPods absentXcode.

Definition snapshotSlots : list string :=
  ["osCache"; "npmVerCache"; "nodeGypVerCache"; "javaVerCache"; "javaCompilerVerCache";
   "xCodeVerCache"; "xCodeprojGemLocationCache"; "iTunesInstalledCache";
   "cocoaPodsVerCache"; "adbVerCache"; "androidInstalledCache"; "monoVerCache";
   "gitVerCache"; "gradleVerCache"; "isCocoaPodsWorkingCorrectlyCache";
   "nativeScriptCliVersionCache"; "xcprojInfoCache"; "isCocoaPodsUpdateRequiredCache";
   "sysInfoCache"].

(** The commands of one [getWarnings] evaluation: those of the snapshot,
    and [pod install] once more when the checks call the functional check
    again. *)
Definition evaluationCommands (E : Env) (absentPods absentXcode absentCheck : bool)
  : list string :=
  snapshotCommands E absentPods absentXcode ++
  (if absentCheck then ["pod install"] else []).

(** The commands of the probes whose recorded result is absent. *)
Definition absentCommands (absentPods absentXcode absentCheck : bool) : list string :=
  (if absentPods then ["pod --version"] else []) ++
  (if absentXcode then ["xcodebuild -version"] else []) ++
  (if absentCheck then ["pod install"] else []).

(** The state after [this.toolsInfo = infoData]. *)
Definition storeToolsInfo (infoData : ToolsInfoData) (st : St) : St :=
  {| fields := fields st; shouldCache := shouldCache st;
     monoLastIndex := monoLastIndex st; toolsInfo := Some infoData; log := log st |}.

(** A computation that always returns: whatever the host answers, no error
    leaves it. *)
Definition absorbs {A} (m : M A) : Prop :=
  forall st, exists a st', m st = (Ok a, st').

(** A computation [retains] the stored results: a cache property that holds
    a value other than [null] and [undefined] holds the same value
    afterwards. *)
Definition retains {A} (m : M A) : Prop :=
  forall st k,
    Js.isNullish (Js.prop (fields st) k) = false ->
    Js.prop (fields (snd (m st))) k = Js.prop (fields st) k.

(** The accesses a caller can make, and the state after a series of
    them. *)
Inductive Access :=
| CallProbe (name : string) (accessor : M JsVal)
| CallGetSysInfo
| CallGetWarnings
| CallGetToolsInfo
| SetShouldCache (shouldCache : bool).

Definition access (E : Env) (st : St) (a : Access) : St :=
  match a with
  | CallProbe _ accessor => snd (accessor st)
  | CallGetSysInfo => snd (SysInfo.getSysInfo E st)
  | CallGetWarnings => snd (Doctor.getWarnings E st)
  | CallGetToolsInfo => snd (AndroidToolsInfo.getToolsInfo E st)
  | SetShouldCache b => snd (SysInfo.setShouldCacheSysInfo b st)
  end.

Definition afterAll (E : Env) (later : list Access) (st : St) : St :=
  fold_left (access E) later st.

(** The probes called are accessors of [SysInfo]. *)
Definition isAccess (E : Env) (a : Access) : Prop :=
  match a with
  | CallProbe name accessor => In (name, accessor) (SysInfo.accessors E)
  | _ => True
  end.

(** Every character of the text is in the class. *)
Definition allChars (p : ascii -> bool) (s : string) : bool :=
  forallb p (list_ascii_of_string s).

(** A non-empty run of digits. *)
Definition digitRun (s : string) : Prop :=
  s <> "" /\ allChars Str.isDigit s = true.

(** A numeric identifier of [semver]: [0], or digits that do not start
    with [0]. *)
Definition numericIdentifier (d : string) : bool :=
  match d with
  | EmptyString => false
  | String "0" (String _ _) => false
  | _ => true
  end.

(** [MIN_JAVA_VERSION], parsed. *)
Definition minJavaVersion : Semver.SemVer :=
  {| Semver.major := 1; Semver.minor := 8; Semver.patch := 0; Semver.prerelease := [] |}.

(** No CocoaPods version that counts as present is stored. *)
Definition podsFree (st : St) : Prop :=
  Js.truthy (Js.prop (fields st) "cocoaPodsVerCache") = false.

(** From a state without a stored CocoaPods version the computation
    returns a value in [Q] and leaves such a state. *)
Definition returnsWith {A} (Q : A -> Prop) (m : M A) : Prop :=
  forall st, podsFree st -> exists a st', m st = (Ok a, st') /\ Q a /\ podsFree st'.

(** What the loop of [maxSatisfying] maintains over the candidates [seen]
    so far. *)
Definition maxInvariant (r : Semver.Range) (seen : list string)
  (acc : Res (option (string * Semver.SemVer))) : Prop :=
  let inRange w sw := Semver.newSemVer w = Ok sw /\ Semver.testSet r sw = true in
  match acc with
  | Throw _ => True
  | Ok None => forall w sw, In w seen -> ~ inRange w sw
  | Ok (Some (m, msv)) =>
      In m seen /\ inRange m msv /\
      forall w sw, In w seen -> inRange w sw -> Semver.isLt (Semver.compare msv sw) = false
  end.

(** * Properties *)

Example re_android_1 : Re.ANDROID_VERSION_REGEX "build-tools-23.0.1" = Some "23.0.1".
Proof. reflexivity. Qed.
Example re_android_2 : Re.ANDROID_VERSION_REGEX "1..2.3.4.5x" = Some "2.3.4".
Proof. reflexivity. Qed.
Example re_android_3 : Re.ANDROID_VERSION_REGEX "25.1" = None.
Proof. reflexivity. Qed.
Example re_java_1 :
  Re.JAVA_VERSION_REGEXP ("java version " ++ Str.dquote ++ "1.8.0_211" ++ Str.dquote) = Some "1.8.0".
Proof. reflexivity. Qed.
Example re_java_2 :
  Re.JAVA_VERSION_REGEXP ("OpenJDK Version " ++ Str.dquote ++ "11.0.2" ++ Str.dquote ++ " 2019") = Some "11.0.2".
Proof. reflexivity. Qed.
Example re_java_3 : Re.JAVA_VERSION_REGEXP ("java version " ++ Str.dquote ++ "9" ++ Str.dquote) = None.
Proof. reflexivity. Qed.
Example re_java_4 : Re.JAVA_VERSION_REGEXP ("java version " ++ Str.dquote ++ "1.8." ++ Str.dquote) = Some "1.8".
Proof. reflexivity. Qed.
Example re_ver_1 : option_map Re.vm_all (Re.VERSION_REGEXP ("0.39.0" ++ String (ascii_of_nat 10) "")) = Some "0.39.0".
Proof. reflexivity. Qed.
Example re_ver_2 : option_map Re.vm_3 (Re.VERSION_REGEXP "Xcode 9.0") = Some "".
Proof. reflexivity. Qed.
Example re_mono_1 : Re.monoVerRegExp_exec 0 "Mono JIT compiler version 5.4.1 (x)" = (Some "5.4.1", 32).
Proof. reflexivity. Qed.
Example re_mono_2 : Re.monoVerRegExp_exec 32 "Mono JIT compiler version 5.4.1 (x)" = (None, 0).
Proof. reflexivity. Qed.
Example str_trim : Str.trim "  a b  " = "a b". Proof. reflexivity. Qed.
Example str_sort : Str.sort ["android-25"; "android-17"; "android-21"] = ["android-17"; "android-21"; "android-25"].
Proof. reflexivity. Qed.


(** ** The computation monad *)

Lemma bind_ok {A B} (m : M A) (k : A -> M B) st a st' :
  m st = (Ok a, st') -> bind m k st = k a st'.
Proof. intros H. unfold bind. now rewrite H. Qed.

Lemma bind_inv_ok {A B} (m : M A) (k : A -> M B) st b st2 :
  bind m k st = (Ok b, st2) ->
  exists a st1, m st = (Ok a, st1) /\ k a st1 = (Ok b, st2).
Proof.
  unfold bind. destruct (m st) as [[a|e] st1]; intros H.
  - eauto.
  - discriminate.
Qed.

Lemma length_snoc {A} (l : list A) (x : A) : length (l ++ [x]) = S (length l).
Proof. rewrite length_app. cbn. lia. Qed.

(** ** What a probe may change *)

Lemma keeps_ret {A} (a : A) : keeps (ret a).
Proof. intros st. cbn. repeat split; auto. exists []. now rewrite app_nil_r. Qed.

Lemma keeps_throw {A} e : keeps (@throw A e).
Proof. intros st. cbn. repeat split; auto. exists []. now rewrite app_nil_r. Qed.

Lemma keeps_liftRes {A} (r : Res A) : keeps (liftRes r).
Proof. intros st. cbn. repeat split; auto. exists []. now rewrite app_nil_r. Qed.

Lemma keeps_readField name : keeps (readField name).
Proof. intros st. cbn. repeat split; auto. exists []. now rewrite app_nil_r. Qed.

Lemma keeps_perform {A} c (reply : nat -> Res A) : keeps (perform c reply).
Proof. intros st. cbn. repeat split; auto. now exists [c]. Qed.

Lemma keeps_bind {A B} (m : M A) (k : A -> M B) :
  keeps m -> (forall a, keeps (k a)) -> keeps (bind m k).
Proof.
  intros Hm Hk st. specialize (Hm st). unfold bind.
  destruct (m st) as [[a|e] st1]; cbn in *.
  - destruct Hm as (H1 & H2 & H3 & l1 & H4).
    destruct (Hk a st1) as (K1 & K2 & K3 & l2 & K4).
    repeat split.
    + congruence.
    + congruence.
    + intros Hf. rewrite K3 by congruence. auto.
    + exists (l1 ++ l2). rewrite K4, H4. now rewrite app_assoc.
  - exact Hm.
Qed.

Lemma keeps_tryCatch {A} (m : M A) (h : JsError -> M A) :
  keeps m -> (forall e, keeps (h e)) -> keeps (tryCatch m h).
Proof.
  intros Hm Hh st. specialize (Hm st). unfold tryCatch.
  destruct (m st) as [[a|e] st1]; cbn in *.
  - exact Hm.
  - destruct Hm as (H1 & H2 & H3 & l1 & H4).
    destruct (Hh e st1) as (K1 & K2 & K3 & l2 & K4).
    repeat split.
    + congruence.
    + congruence.
    + intros Hf. rewrite K3 by congruence. auto.
    + exists (l1 ++ l2). rewrite K4, H4. now rewrite app_assoc.
Qed.

(** [getValueForProperty], case by case. *)

Lemma getValueForProperty_eq property (strategy : M JsVal) st :
  SysInfo.getValueForProperty property strategy st =
  if shouldCache st then
    if Js.isNullish (Js.prop (fields st) property) then
      match strategy st with
      | (Ok r, st') => (Ok r, store property r st')
      | (Throw e, st') => (Throw e, st')
      end
    else (Ok (Js.prop (fields st) property), st)
  else strategy st.
Proof.
  unfold SysInfo.getValueForProperty, SysInfo.getPropertyName.
  destruct (shouldCache st); [|reflexivity].
  unfold bind, readField, writeField, ret, store.
  destruct (Js.isNullish _); [|reflexivity].
  destruct (strategy st) as [[r|e] st']; reflexivity.
Qed.

Lemma keeps_getValueForProperty property (strategy : M JsVal) :
  keeps strategy -> keeps (SysInfo.getValueForProperty property strategy).
Proof.
  intros Hs st. rewrite getValueForProperty_eq.
  destruct (Hs st) as (H1 & H2 & H3 & H4).
  destruct (shouldCache st) eqn:Hc.
  - destruct (Js.isNullish _).
    + destruct (strategy st) as [[r|e] st1]; cbn in *; repeat split; auto; congruence.
    + cbn. repeat split; auto. exists []. now rewrite app_nil_r.
  - repeat split; auto.
Qed.

Lemma keeps_monoVerRegExpExec output : keeps (SysInfo.monoVerRegExpExec output).
Proof.
  intros st. unfold SysInfo.monoVerRegExpExec.
  destruct (Re.monoVerRegExp_exec _ _). cbn. repeat split; auto.
  exists []. now rewrite app_nil_r.
Qed.

Create HintDb keeps.
#[local] Hint Resolve keeps_ret keeps_throw keeps_liftRes keeps_readField keeps_perform
  keeps_monoVerRegExpExec : keeps.

Ltac keeps_step :=
  match goal with
  | |- keeps (bind _ _) => apply keeps_bind; [ | intros ]
  | |- keeps (tryCatch _ _) => apply keeps_tryCatch; [ | intros ]
  | |- keeps (SysInfo.getValueForProperty _ _) => apply keeps_getValueForProperty
  | |- keeps (if ?b then _ else _) => destruct b
  | |- keeps (match ?x with _ => _ end) => destruct x
  | |- keeps _ => solve [auto with keeps]
  | |- keeps _ => progress cbv beta zeta
  end.

Ltac keeps_tac := repeat keeps_step.

Section KeepsSysInfo.
Variable E : Env.

Lemma keeps_childProcessExec cmd : keeps (childProcessExec E cmd).
Proof. apply keeps_perform. Qed.

Lemma keeps_spawnFromEvent cmd args event opts : keeps (spawnFromEvent E cmd args event opts).
Proof. apply keeps_perform. Qed.

Lemma keeps_fsExists path : keeps (fsExists E path).
Proof. apply keeps_perform. Qed.

Lemma keeps_readDirectory path : keeps (readDirectory E path).
Proof. apply keeps_perform. Qed.

Lemma keeps_extractZip archive dest : keeps (extractZip E archive dest).
Proof. apply keeps_perform. Qed.

Lemma keeps_getRegistryValue name key : keeps (getRegistryValue E name key).
Proof. apply keeps_perform. Qed.

Lemma keeps_dotNetVersion : keeps (dotNetVersion E).
Proof. apply keeps_perform. Qed.

Lemma keeps_mkdirSync prefix : keeps (mkdirSync E prefix).
Proof. apply keeps_perform. Qed.

Hint Resolve keeps_childProcessExec keeps_spawnFromEvent keeps_fsExists
  keeps_readDirectory keeps_extractZip keeps_getRegistryValue keeps_dotNetVersion
  keeps_mkdirSync : keeps.

Lemma keeps_exec cmd : keeps (SysInfo.exec E cmd).
Proof. unfold SysInfo.exec. keeps_tac. Qed.

Lemma keeps_winVer : keeps (SysInfo.winVer E).
Proof. unfold SysInfo.winVer. keeps_tac. Qed.

Lemma keeps_execCommand cmd : keeps (SysInfo.execCommand E cmd).
Proof. unfold SysInfo.execCommand. apply keeps_bind; [apply keeps_exec | intros; apply keeps_ret]. Qed.

Lemma keeps_unixVer : keeps (SysInfo.unixVer E).
Proof. apply keeps_execCommand. Qed.

Hint Resolve keeps_exec keeps_execCommand keeps_winVer keeps_unixVer : keeps.

Lemma keeps_getJavaVersion : keeps (SysInfo.getJavaVersion E).
Proof. unfold SysInfo.getJavaVersion, spawnFromEvent. keeps_tac. Qed.

Lemma keeps_getJavaCompilerVersion : keeps (SysInfo.getJavaCompilerVersion E).
Proof. unfold SysInfo.getJavaCompilerVersion, childProcessExec. keeps_tac. Qed.

Lemma keeps_getXcodeVersion : keeps (SysInfo.getXcodeVersion E).
Proof. unfold SysInfo.getXcodeVersion. keeps_tac. Qed.

Lemma keeps_getNodeVersion : keeps (SysInfo.getNodeVersion E).
Proof. unfold SysInfo.getNodeVersion. keeps_tac. Qed.

Lemma keeps_getNpmVersion : keeps (SysInfo.getNpmVersion E).
Proof. unfold SysInfo.getNpmVersion. keeps_tac. Qed.

Lemma keeps_getNodeGypVersion : keeps (SysInfo.getNodeGypVersion E).
Proof. unfold SysInfo.getNodeGypVersion. keeps_tac. Qed.

Lemma keeps_getXcodeprojGemLocation : keeps (SysInfo.getXcodeprojGemLocation E).
Proof. unfold SysInfo.getXcodeprojGemLocation. keeps_tac. Qed.

Lemma keeps_isITunesInstalled : keeps (SysInfo.isITunesInstalled E).
Proof. unfold SysInfo.isITunesInstalled, fsExists. keeps_tac. Qed.

Lemma keeps_getCocoaPodsVersion : keeps (SysInfo.getCocoaPodsVersion E).
Proof. unfold SysInfo.getCocoaPodsVersion. keeps_tac. Qed.

Lemma keeps_getOs : keeps (SysInfo.getOs E).
Proof. unfold SysInfo.getOs, SysInfo.winVer, SysInfo.unixVer, getRegistryValue. keeps_tac. Qed.

Lemma keeps_getAdbVersion : keeps (SysInfo.getAdbVersion E).
Proof. unfold SysInfo.getAdbVersion. keeps_tac. Qed.

Lemma keeps_isAndroidInstalled : keeps (SysInfo.isAndroidInstalled E).
Proof. unfold SysInfo.isAndroidInstalled, spawnFromEvent. keeps_tac. Qed.

Lemma keeps_getMonoVersion : keeps (SysInfo.getMonoVersion E).
Proof. unfold SysInfo.getMonoVersion. keeps_tac. Qed.

Lemma keeps_getGitVersion : keeps (SysInfo.getGitVersion E).
Proof. unfold SysInfo.getGitVersion. keeps_tac. Qed.

Lemma keeps_getGradleVersion : keeps (SysInfo.getGradleVersion E).
Proof. unfold SysInfo.getGradleVersion. keeps_tac. Qed.

Lemma keeps_isCocoaPodsWorkingCorrectly : keeps (SysInfo.isCocoaPodsWorkingCorrectly E).
Proof.
  unfold SysInfo.isCocoaPodsWorkingCorrectly, mkdirSync, extractZip, spawnFromEvent, fsExists.
  keeps_tac.
Qed.

Lemma keeps_getNativeScriptCliVersion : keeps (SysInfo.getNativeScriptCliVersion E).
Proof. unfold SysInfo.getNativeScriptCliVersion. keeps_tac. Qed.

Hint Resolve keeps_getCocoaPodsVersion keeps_getXcodeVersion : keeps.

Lemma keeps_getXcprojInfo : keeps (SysInfo.getXcprojInfo E).
Proof. unfold SysInfo.getXcprojInfo. keeps_tac. Qed.

Hint Resolve keeps_getXcprojInfo : keeps.

Lemma keeps_isCocoaPodsUpdateRequired : keeps (SysInfo.isCocoaPodsUpdateRequired E).
Proof. unfold SysInfo.isCocoaPodsUpdateRequired. keeps_tac. Qed.

Hint Resolve keeps_getJavaVersion keeps_getJavaCompilerVersion keeps_getNodeVersion
  keeps_getNpmVersion keeps_getNodeGypVersion keeps_getXcodeprojGemLocation
  keeps_isITunesInstalled keeps_getOs keeps_getAdbVersion keeps_isAndroidInstalled
  keeps_getMonoVersion keeps_getGitVersion keeps_getGradleVersion
  keeps_isCocoaPodsWorkingCorrectly keeps_getNativeScriptCliVersion
  keeps_isCocoaPodsUpdateRequired : keeps.

Lemma keeps_getSysInfo : keeps (SysInfo.getSysInfo E).
Proof. unfold SysInfo.getSysInfo, dotNetVersion. keeps_tac. Qed.

Hint Resolve keeps_getSysInfo : keeps.

(** Every accessor of the list keeps the configuration. *)
Lemma keeps_accessors name a : In (name, a) (SysInfo.accessors E) -> keeps a.
Proof.
  unfold SysInfo.accessors. cbn [In].
  intros H. repeat (destruct H as [H|H]; [injection H as _ <-; auto with keeps; fail | ]).
  - contradiction.
Qed.

(** Every accessor of the list is [getValueForProperty] applied to the name
    of its cache property and to a strategy that keeps the configuration. *)
Lemma accessor_shape name a :
  In (name, a) (SysInfo.accessors E) ->
  exists strategy, a = SysInfo.getValueForProperty name strategy /\ keeps strategy.
Proof.
  unfold SysInfo.accessors. cbn [In].
  intros H.
  repeat (destruct H as [H|H];
          [injection H as <- <-; eexists; split; [reflexivity | solve [keeps_tac]] | ]).
  contradiction.
Qed.

End KeepsSysInfo.

(** ** Caching of probe results *)

Lemma prop_store name v st : Js.prop (fields (store name v st)) name = v.
Proof. unfold Js.prop, store. cbn. now rewrite lookup_insert_eq. Qed.

(** A stored value that is neither [null] nor [undefined] is returned
    without running anything. *)
Lemma getValueForProperty_hit property strategy st :
  shouldCache st = true ->
  Js.isNullish (Js.prop (fields st) property) = false ->
  SysInfo.getValueForProperty property strategy st = (Ok (Js.prop (fields st) property), st).
Proof. intros Hc Hn. rewrite getValueForProperty_eq, Hc, Hn. reflexivity. Qed.

(** With an empty slot, or with caching disabled, the strategy runs. *)
Lemma getValueForProperty_miss property strategy st :
  shouldCache st = true ->
  Js.isNullish (Js.prop (fields st) property) = true ->
  SysInfo.getValueForProperty property strategy st =
  match strategy st with
  | (Ok r, st') => (Ok r, store property r st')
  | (Throw e, st') => (Throw e, st')
  end.
Proof. intros Hc Hn. rewrite getValueForProperty_eq, Hc, Hn. reflexivity. Qed.

Lemma getValueForProperty_disabled property strategy st :
  shouldCache st = false ->
  SysInfo.getValueForProperty property strategy st = strategy st.
Proof. intros Hc. rewrite getValueForProperty_eq, Hc. reflexivity. Qed.

(** After a call with caching enabled the slot holds the returned value and
    caching is still enabled. *)
Lemma getValueForProperty_after property strategy st v st1 :
  keeps strategy ->
  shouldCache st = true ->
  SysInfo.getValueForProperty property strategy st = (Ok v, st1) ->
  shouldCache st1 = true /\ Js.prop (fields st1) property = v.
Proof.
  intros Hk Hc. rewrite getValueForProperty_eq, Hc.
  destruct (Js.isNullish _) eqn:Hn.
  - destruct (Hk st) as (H1 & _). destruct (strategy st) as [[r|e] st'] eqn:Hs; [|discriminate].
    intros [= <- <-]. cbn in *. split; [congruence|]. apply prop_store.
  - intros [= <- <-]. auto.
Qed.

(** C1, corrected. With caching enabled, once a probe accessor has returned
    a value other than [null] and [undefined], the next call returns the
    same value and changes nothing, so no detection strategy runs.  A [null]
    or [undefined] result is not terminal: the slot then reads as not yet
    computed and the next call runs the strategy it is given. *)
Theorem probe_result_caching E name accessor st v st1 :
  In (name, accessor) (SysInfo.accessors E) ->
  shouldCache st = true ->
  accessor st = (Ok v, st1) ->
  (Js.isNullish v = false -> accessor st1 = (Ok v, st1)) /\
  (forall strategy,
     SysInfo.getValueForProperty name strategy st1 =
     if Js.isNullish v then
       match strategy st1 with
       | (Ok r, st') => (Ok r, store name r st')
       | (Throw e, st') => (Throw e, st')
       end
     else (Ok v, st1)).
Proof.
  intros Hin Hc Hrun.
  destruct (accessor_shape E name accessor Hin) as (strategy & -> & Hk).
  destruct (getValueForProperty_after _ _ _ _ _ Hk Hc Hrun) as (Hc1 & Hv).
  split.
  - intros Hn. rewrite getValueForProperty_hit; rewrite ?Hv; auto.
  - intros again. destruct (Js.isNullish v) eqn:Hn.
    + apply getValueForProperty_miss; rewrite ?Hv; auto.
    + rewrite getValueForProperty_hit; rewrite ?Hv; auto.
Qed.

Lemma probe_result_caching_witness :
  SysInfo.getJavaVersion Hosts.javaInstalled
    (snd (SysInfo.getJavaVersion Hosts.javaInstalled initialState)) =
  (Ok (JStr "1.8.0"), snd (SysInfo.getJavaVersion Hosts.javaInstalled initialState)).
Proof.
  refine (proj1 (probe_result_caching Hosts.javaInstalled "javaVerCache"
                   (SysInfo.getJavaVersion Hosts.javaInstalled) initialState
                   (JStr "1.8.0") _ _ _ _) _).
  - cbn. auto.
  - reflexivity.
  - vm_compute. reflexivity.
  - reflexivity.
Defined.

(** C1 as stated fails: Java is missing at the first call and present at
    the second; caching is enabled throughout, yet the two calls return
    different values and the detection command runs twice. *)
Lemma absent_probe_result_is_retried :
  let E := Hosts.javaInstalledLater in
  let first := SysInfo.getJavaVersion E initialState in
  let second := SysInfo.getJavaVersion E (snd first) in
  shouldCache initialState = true /\
  shouldCache (snd first) = true /\
  fst first = Ok JNull /\
  fst second = Ok (JStr "1.8.0") /\
  log (snd second) =
    [CSpawn "java" ["-version"] "exit" noOptions;
     CSpawn "java" ["-version"] "exit" noOptions].
Proof. vm_compute. repeat split; reflexivity. Qed.

(** ** Failures that leave a probe *)

(** The probes that absorb every failure of the commands they run. *)

Lemma absorbs_ret {A} (a : A) : absorbs (ret a).
Proof. intros st. unfold ret. eauto. Qed.

Lemma absorbs_bind {A B} (m : M A) (k : A -> M B) :
  absorbs m -> (forall a, absorbs (k a)) -> absorbs (bind m k).
Proof.
  intros Hm Hk st. destruct (Hm st) as (a & st1 & H).
  rewrite (bind_ok _ _ _ _ _ H). apply Hk.
Qed.

Lemma absorbs_tryCatch {A} (m : M A) (h : JsError -> M A) :
  (forall e, absorbs (h e)) -> absorbs (tryCatch m h).
Proof.
  intros Hh st. unfold tryCatch. destruct (m st) as [[a|e] st1]; [eauto | apply Hh].
Qed.

Lemma absorbs_getValueForProperty property strategy :
  absorbs strategy -> absorbs (SysInfo.getValueForProperty property strategy).
Proof.
  intros Hs st. rewrite getValueForProperty_eq.
  destruct (Hs st) as (r & st1 & H). rewrite H.
  destruct (shouldCache st); [destruct (Js.isNullish _)|]; eauto.
Qed.

Lemma absorbs_fsExists E path : absorbs (fsExists E path).
Proof. intros st. unfold fsExists, perform. eauto. Qed.

Lemma absorbs_monoVerRegExpExec output : absorbs (SysInfo.monoVerRegExpExec output).
Proof.
  intros st. unfold SysInfo.monoVerRegExpExec.
  destruct (Re.monoVerRegExp_exec _ _). eauto.
Qed.

Lemma absorbs_exec E cmd : absorbs (SysInfo.exec E cmd).
Proof.
  unfold SysInfo.exec. destruct (Str.isEmpty cmd).
  - apply absorbs_ret.
  - apply absorbs_tryCatch. intros _. apply absorbs_ret.
Qed.

Lemma absorbs_execCommand E cmd : absorbs (SysInfo.execCommand E cmd).
Proof.
  unfold SysInfo.execCommand. apply absorbs_bind; [apply absorbs_exec|].
  intros a. apply absorbs_ret.
Qed.

Create HintDb absorbs.
#[local] Hint Resolve absorbs_ret absorbs_fsExists absorbs_monoVerRegExpExec
  absorbs_exec absorbs_execCommand : absorbs.

Ltac absorbs_step :=
  match goal with
  | |- absorbs (bind _ _) => apply absorbs_bind; [ | intros ]
  | |- absorbs (tryCatch _ _) => apply absorbs_tryCatch; intros
  | |- absorbs (SysInfo.getValueForProperty _ _) => apply absorbs_getValueForProperty
  | |- absorbs (if ?b then _ else _) => destruct b
  | |- absorbs (match ?x with _ => _ end) => destruct x
  | |- absorbs _ => solve [auto with absorbs]
  | |- absorbs _ => progress cbv beta zeta
  end.

(** Fourteen of the accessors return on every host; [getOs] does so where
    the registry is not consulted. *)
Lemma absorbing_probes E :
  absorbs (SysInfo.getJavaVersion E) /\
  absorbs (SysInfo.getJavaCompilerVersion E) /\
  absorbs (SysInfo.getXcodeVersion E) /\
  absorbs (SysInfo.getNodeVersion E) /\
  absorbs (SysInfo.getNpmVersion E) /\
  absorbs (SysInfo.getNodeGypVersion E) /\
  absorbs (SysInfo.getXcodeprojGemLocation E) /\
  absorbs (SysInfo.getCocoaPodsVersion E) /\
  absorbs (SysInfo.getAdbVersion E) /\
  absorbs (SysInfo.isAndroidInstalled E) /\
  absorbs (SysInfo.getMonoVersion E) /\
  absorbs (SysInfo.getGitVersion E) /\
  absorbs (SysInfo.getGradleVersion E) /\
  absorbs (SysInfo.getNativeScriptCliVersion E) /\
  (isWindows E = false -> absorbs (SysInfo.getOs E)).
Proof.
  repeat split.
  - unfold SysInfo.getJavaVersion. repeat absorbs_step.
  - unfold SysInfo.getJavaCompilerVersion. repeat absorbs_step.
  - unfold SysInfo.getXcodeVersion. repeat absorbs_step.
  - unfold SysInfo.getNodeVersion. repeat absorbs_step.
  - unfold SysInfo.getNpmVersion. repeat absorbs_step.
  - unfold SysInfo.getNodeGypVersion. repeat absorbs_step.
  - unfold SysInfo.getXcodeprojGemLocation. repeat absorbs_step.
  - unfold SysInfo.getCocoaPodsVersion. repeat absorbs_step.
  - unfold SysInfo.getAdbVersion. repeat absorbs_step.
  - unfold SysInfo.isAndroidInstalled. repeat absorbs_step.
  - unfold SysInfo.getMonoVersion. repeat absorbs_step.
  - unfold SysInfo.getGitVersion. repeat absorbs_step.
  - unfold SysInfo.getGradleVersion. repeat absorbs_step.
  - unfold SysInfo.getNativeScriptCliVersion. repeat absorbs_step.
  - intros Hw. unfold SysInfo.getOs, SysInfo.unixVer. rewrite Hw. repeat absorbs_step.
Qed.

(** C2, code defect. On a Mac with CocoaPods 0.39.0 and without Xcode,
    [getXcprojInfo] hands the absent Xcode version to [semver.gte], which
    throws; the error leaves [getXcprojInfo], [isCocoaPodsUpdateRequired],
    [getSysInfo] and [getWarnings].  A failing [extractZip] leaves
    [isCocoaPodsWorkingCorrectly] in the same way. *)
Theorem probe_failure_propagates :
  fst (SysInfo.getXcodeVersion Hosts.oldPodsNoXcode initialState) = Ok JUndefined /\
  fst (SysInfo.getCocoaPodsVersion Hosts.oldPodsNoXcode initialState) = Ok (JStr "0.39.0") /\
  fst (SysInfo.getXcprojInfo Hosts.oldPodsNoXcode initialState)
    = Throw (TypeError "Invalid Version: undefined") /\
  fst (SysInfo.isCocoaPodsUpdateRequired Hosts.oldPodsNoXcode initialState)
    = Throw (TypeError "Invalid Version: undefined") /\
  fst (SysInfo.getSysInfo Hosts.oldPodsNoXcode initialState)
    = Throw (TypeError "Invalid Version: undefined") /\
  fst (Doctor.getWarnings Hosts.oldPodsNoXcode initialState)
    = Throw (TypeError "Invalid Version: undefined") /\
  fst (SysInfo.isCocoaPodsWorkingCorrectly Hosts.brokenArchive initialState)
    = Throw (Error "invalid zip").
Proof. vm_compute. repeat split; reflexivity. Qed.

(** ** Platform validation *)

Section Platforms.
Variable ANDROID_PLATFORM_NAME : string.
Variable IOS_PLATFORM_NAME : string.
Variable toLocaleLowerCase : string -> string.
Variable androidCheckRequirements : M bool.
Variable iosCheckRequirements : M bool.

Lemma fold_supported (l : list string) platform acc :
  fold_left
    (fun (prevValue : bool) currentValue =>
       if negb prevValue
       then String.eqb (toLocaleLowerCase currentValue) (toLocaleLowerCase platform)
       else prevValue) l acc
  = acc || existsb (fun s => String.eqb (toLocaleLowerCase s) (toLocaleLowerCase platform)) l.
Proof.
  revert acc. induction l as [|x l IH]; intros acc; cbn.
  - now rewrite orb_false_r.
  - rewrite IH. destruct acc; cbn; reflexivity.
Qed.

Lemma isPlatformSupported_existsb SUPPORTED platform :
  Doctor.isPlatformSupported SUPPORTED toLocaleLowerCase platform =
  existsb (fun s => String.eqb (toLocaleLowerCase s) (toLocaleLowerCase platform)) SUPPORTED.
Proof. unfold Doctor.isPlatformSupported. now rewrite fold_supported. Qed.

(** [validatePlatform] never touches the state; it throws exactly for the
    empty name and for a name that is not, up to case, in the list, and then
    the message lists the supported platforms. *)
Lemma validatePlatform_cases SUPPORTED platform st :
  Doctor.validatePlatform SUPPORTED toLocaleLowerCase platform st =
  if Str.isEmpty platform then (Throw (Error "You must specify a platform."), st)
  else if existsb (fun s => String.eqb (toLocaleLowerCase s) (toLocaleLowerCase platform)) SUPPORTED
       then (Ok tt, st)
       else (Throw (Error (Doctor.notSupportedMessage SUPPORTED platform)), st).
Proof.
  unfold Doctor.validatePlatform. rewrite isPlatformSupported_existsb.
  destruct (Str.isEmpty platform); [reflexivity|].
  destruct (existsb _ _); reflexivity.
Qed.

(** C10. When the supported platforms are exactly the Android and the iOS
    name, a platform that passes [validatePlatform] equals one of the two up
    to case, so the final [return false] is never reached, and every result
    of [canExecuteLocalBuild] is the result of the Android or of the iOS
    requirements check. *)
Theorem canExecuteLocalBuild_delegates SUPPORTED_PLATFORMS platform st :
  (forall s, In s SUPPORTED_PLATFORMS <-> s = ANDROID_PLATFORM_NAME \/ s = IOS_PLATFORM_NAME) ->
  (Doctor.validatePlatform SUPPORTED_PLATFORMS toLocaleLowerCase platform st = (Ok tt, st) ->
   String.eqb (toLocaleLowerCase platform) (toLocaleLowerCase ANDROID_PLATFORM_NAME)
   || String.eqb (toLocaleLowerCase platform) (toLocaleLowerCase IOS_PLATFORM_NAME) = true) /\
  (forall b st',
     Doctor.canExecuteLocalBuild ANDROID_PLATFORM_NAME IOS_PLATFORM_NAME SUPPORTED_PLATFORMS
       toLocaleLowerCase androidCheckRequirements iosCheckRequirements platform st = (Ok b, st') ->
     androidCheckRequirements st = (Ok b, st') \/ iosCheckRequirements st = (Ok b, st')).
Proof.
  intros Hsup.
  assert (Hval :
    Doctor.validatePlatform SUPPORTED_PLATFORMS toLocaleLowerCase platform st = (Ok tt, st) ->
    String.eqb (toLocaleLowerCase platform) (toLocaleLowerCase ANDROID_PLATFORM_NAME)
    || String.eqb (toLocaleLowerCase platform) (toLocaleLowerCase IOS_PLATFORM_NAME) = true).
  { rewrite validatePlatform_cases.
    destruct (Str.isEmpty platform); [discriminate|].
    destruct (existsb _ _) eqn:Hex; [|discriminate]. intros _.
    apply existsb_exists in Hex as (s0 & Hin & Heq).
    apply String.eqb_eq in Heq.
    apply Hsup in Hin as [-> | ->]; rewrite <- Heq, String.eqb_refl.
    - reflexivity.
    - apply orb_true_r. }
  split; [exact Hval|].
  intros b st'. unfold Doctor.canExecuteLocalBuild. unfold bind at 1.
  destruct (Doctor.validatePlatform _ _ _ _) as [[[]|e] st1] eqn:Hv; [|discriminate].
  assert (st1 = st) as ->.
  { rewrite validatePlatform_cases in Hv.
    destruct (Str.isEmpty platform); [discriminate|].
    destruct (existsb _ _); congruence. }
  specialize (Hval eq_refl).
  destruct (String.eqb (toLocaleLowerCase platform) (toLocaleLowerCase ANDROID_PLATFORM_NAME)).
  - auto.
  - destruct (String.eqb (toLocaleLowerCase platform) (toLocaleLowerCase IOS_PLATFORM_NAME)).
    + auto.
    + discriminate.
Qed.

End Platforms.

Lemma canExecuteLocalBuild_delegates_witness :
  Hosts.checkTrue initialState = (Ok true, initialState) \/
  Hosts.checkFalse initialState = (Ok true, initialState).
Proof.
  refine (proj2 (canExecuteLocalBuild_delegates "Android" "iOS" Hosts.lower
                   Hosts.checkTrue Hosts.checkFalse ["Android"; "iOS"] "ANDROID"
                   initialState _) true initialState _).
  - intros s. cbn. intuition congruence.
  - vm_compute. reflexivity.
Defined.

(** The two validation errors on the usual constants. *)
Example validatePlatform_empty :
  fst (Doctor.validatePlatform ["Android"; "iOS"] Hosts.lower "" initialState)
  = Throw (Error "You must specify a platform.").
Proof. reflexivity. Qed.

Example validatePlatform_blackberry :
  fst (Doctor.validatePlatform ["Android"; "iOS"] Hosts.lower "blackberry" initialState)
  = Throw (Error "Platform blackberry is not supported. The supported platforms are: Android, iOS").
Proof. reflexivity. Qed.

(** ** The SDK root variable *)

Section AndroidHome.
Variable E : Env.
Variable ANDROID_PLATFORM_NAME : string.

Lemma mapM_fsExists_ok (f : string -> option string) (l : list string) st :
  exists found st',
    AndroidToolsInfo.mapM (fun dir => fsExists E (f dir)) l st = (Ok found, st') /\
    length found = length l.
Proof.
  revert st. induction l as [|d l IH]; intros st; cbn [AndroidToolsInfo.mapM].
  - eexists _, _. split; reflexivity.
  - destruct (IH (snd (fsExists E (f d) st))) as (found & st' & Hm & Hl).
    exists (fileSystem_exists E (length (log st)) (f d) :: found), st'. split.
    + rewrite (bind_ok _ _ st (fileSystem_exists E (length (log st)) (f d))
                 (snd (fsExists E (f d) st))) by reflexivity.
      rewrite (bind_ok _ _ _ _ _ Hm). reflexivity.
    + cbn. congruence.
Qed.

(** The warning about an unset variable or a missing directory is
    produced as the claim says. *)
Lemma validateAndroidHome_unset st :
  AndroidToolsInfo.androidHomeSet E = None ->
  fst (AndroidToolsInfo.validateAndroidHomeEnvVariable E ANDROID_PLATFORM_NAME st)
  = Ok [AndroidToolsInfo.androidHomeNotSetWarning ANDROID_PLATFORM_NAME].
Proof.
  intros H. unfold AndroidToolsInfo.validateAndroidHomeEnvVariable. now rewrite H.
Qed.

Lemma validateAndroidHome_missing st home :
  AndroidToolsInfo.androidHomeSet E = Some home ->
  fileSystem_exists E (length (log st)) (Some home) = false ->
  fst (AndroidToolsInfo.validateAndroidHomeEnvVariable E ANDROID_PLATFORM_NAME st)
  = Ok [AndroidToolsInfo.androidHomeNotSetWarning ANDROID_PLATFORM_NAME].
Proof.
  intros H Hx. unfold AndroidToolsInfo.validateAndroidHomeEnvVariable. rewrite H.
  unfold bind, fsExists, perform. rewrite Hx. reflexivity.
Qed.

(** For a directory that exists nothing is reported, whatever it contains:
    the list of the four look-ups is never empty. *)
Lemma validateAndroidHome_existing st home :
  AndroidToolsInfo.androidHomeSet E = Some home ->
  fileSystem_exists E (length (log st)) (Some home) = true ->
  fst (AndroidToolsInfo.validateAndroidHomeEnvVariable E ANDROID_PLATFORM_NAME st) = Ok [].
Proof.
  intros H Hx. unfold AndroidToolsInfo.validateAndroidHomeEnvVariable. rewrite H.
  rewrite (bind_ok _ _ st true (snd (fsExists E (Some home) st)))
    by (unfold fsExists, perform; now rewrite Hx).
  cbn [negb].
  destruct (mapM_fsExists_ok (fun dir => Some (path_join E [home; dir]))
              AndroidToolsInfo.expectedDirectoriesInAndroidHome
              (snd (fsExists E (Some home) st))) as (found & st' & Hm & Hl).
  rewrite (bind_ok _ _ _ _ _ Hm). rewrite Hl. reflexivity.
Qed.

End AndroidHome.

(** C4, code defect. [ANDROID_HOME] points to the existing directory
    [/sdk], which has none of [build-tools], [tools], [platform-tools] and
    [extras]: all four look-ups are made and answer no, and no warning is
    returned. *)
Theorem incorrect_sdk_root_is_not_reported :
  AndroidToolsInfo.validateAndroidHomeEnvVariable Hosts.emptySdkRoot "Android" initialState
  = (Ok [],
     {| fields := initialFields; shouldCache := true; monoLastIndex := 0; toolsInfo := None;
        log := [CExists (Some "/sdk"); CExists (Some "/sdk/build-tools");
                CExists (Some "/sdk/tools"); CExists (Some "/sdk/platform-tools");
                CExists (Some "/sdk/extras")] |}) /\
  forallb (fun dir => negb (fileSystem_exists Hosts.emptySdkRoot 1 (Some ("/sdk/" ++ dir)%string)))
          AndroidToolsInfo.expectedDirectoriesInAndroidHome = true.
Proof. vm_compute. split; reflexivity. Qed.

(** ** Version ranges and matching directories *)

Lemma testSet_release r v : Semver.testSet r v = true -> Semver.prerelease v = [].
Proof.
  unfold Semver.testSet. intros H. apply andb_prop in H as (_ & H).
  destruct (Semver.prerelease v); [reflexivity | discriminate].
Qed.

Lemma compare_release a b :
  Semver.prerelease a = [] -> Semver.prerelease b = [] ->
  Semver.compare a b = Semver.compareMain a b.
Proof.
  intros Ha Hb. unfold Semver.compare, Semver.comparePre. rewrite Ha, Hb.
  destruct (Semver.compareMain a b); reflexivity.
Qed.

Lemma compareMain_refl a : Semver.compareMain a a = Eq.
Proof. unfold Semver.compareMain. now rewrite !N.compare_refl. Qed.

Lemma compareMain_below m x w :
  Semver.isLt (Semver.compareMain m w) = false ->
  Semver.isLt (Semver.compareMain m x) = true ->
  Semver.isLt (Semver.compareMain x w) = false.
Proof.
  unfold Semver.compareMain, Semver.isLt.
  repeat match goal with
         | |- context [(?p ?= ?q)%N] => destruct (N.compare_spec p q)
         end; intros; try reflexivity; try discriminate; lia.
Qed.

Lemma maxStep_invariant r seen acc x :
  maxInvariant r seen acc -> maxInvariant r (seen ++ [x]) (Semver.maxStep r acc x).
Proof.
  unfold Semver.maxStep, res_bind. destruct acc as [max|e]; [|auto].
  intros Hinv.
  assert (Hin : forall w : string, In w (seen ++ [x]) -> In w seen \/ w = x).
  { intros w Hw. apply in_app_or in Hw as [Hw|[Hw|[]]]; auto. }
  destruct (Str.isEmpty x) eqn:Hx.
  { destruct x; [|discriminate].
    destruct max as [[m msv]|]; cbn in *.
    - destruct Hinv as (H1 & H2 & H3). split; [apply in_or_app; auto|]. split; [exact H2|].
      intros w sw Hw [Hv Ht]. apply Hin in Hw as [Hw| ->]; [eauto|]. discriminate.
    - intros w sw Hw [Hv Ht]. apply Hin in Hw as [Hw| ->]; [eapply Hinv; eauto|]. discriminate. }
  destruct (Semver.newSemVer x) as [sx|e] eqn:Hsx; [|exact I].
  destruct (Semver.testSet r sx) eqn:Ht.
  - assert (Hrefl : Semver.isLt (Semver.compare sx sx) = false).
    { rewrite compare_release by (eapply testSet_release; eauto).
      now rewrite compareMain_refl. }
    destruct max as [[m msv]|]; cbn in *.
    + destruct Hinv as (H1 & (H2 & H2') & H3).
      destruct (Semver.isLt (Semver.compare msv sx)) eqn:Hlt; cbn.
      * split; [apply in_or_app; right; now left|]. split; [auto|].
        intros w sw Hw [Hv Hwt]. apply Hin in Hw as [Hw| ->].
        -- specialize (H3 w sw Hw (conj Hv Hwt)).
           rewrite compare_release in * by (eapply testSet_release; eauto).
           eapply compareMain_below; eauto.
        -- assert (sw = sx) by congruence. subst. exact Hrefl.
      * split; [apply in_or_app; auto|]. split; [auto|].
        intros w sw Hw [Hv Hwt]. apply Hin in Hw as [Hw| ->]; [eauto|].
        assert (sw = sx) by congruence. subst. exact Hlt.
    + split; [apply in_or_app; right; now left|]. split; [auto|].
      intros w sw Hw [Hv Hwt]. apply Hin in Hw as [Hw| ->].
      * exfalso. eapply Hinv; eauto.
      * assert (sw = sx) by congruence. subst. exact Hrefl.
  - destruct max as [[m msv]|]; cbn in *.
    + destruct Hinv as (H1 & H2 & H3). split; [apply in_or_app; auto|]. split; [exact H2|].
      intros w sw Hw [Hv Hwt]. apply Hin in Hw as [Hw| ->]; [eauto|]. congruence.
    + intros w sw Hw [Hv Hwt]. apply Hin in Hw as [Hw| ->]; [eapply Hinv; eauto|]. congruence.
Qed.

Lemma fold_maxStep_invariant r l seen acc :
  maxInvariant r seen acc -> maxInvariant r (seen ++ l) (fold_left (Semver.maxStep r) l acc).
Proof.
  revert seen acc. induction l as [|x l IH]; intros seen acc H; cbn [fold_left].
  - now rewrite app_nil_r.
  - replace (seen ++ x :: l) with ((seen ++ [x]) ++ l) by (now rewrite <- app_assoc).
    apply IH. now apply maxStep_invariant.
Qed.

(** What [maxSatisfying] returns is one of the candidates, a valid version
    inside the range, and no candidate inside the range is greater. *)
Lemma maxSatisfying_greatest (versions : list string) (r : Semver.Range) v :
  Semver.maxSatisfying versions (Some r) = Ok (Some v) ->
  In v versions /\
  exists sv,
    Semver.newSemVer v = Ok sv /\ Semver.testSet r sv = true /\
    forall w sw, In w versions -> Semver.newSemVer w = Ok sw -> Semver.testSet r sw = true ->
                 Semver.isLt (Semver.compare sv sw) = false.
Proof.
  unfold Semver.maxSatisfying, res_bind.
  assert (Hinv : maxInvariant r versions
                   (fold_left (Semver.maxStep r) versions (Ok None))).
  { apply (fold_maxStep_invariant r versions [] (Ok None)). cbn. intros w sw []. }
  destruct (fold_left _ _ _) as [[[m sv]|]|e] eqn:Hf; try discriminate.
  cbn. intros [= <-].
  destruct Hinv as (H1 & (H2 & H2') & H3).
  split; [exact H1|]. exists sv. repeat split; auto.
  intros w sw Hw Hv Ht. apply (H3 w sw Hw). auto.
Qed.

Lemma maxSatisfying_sound (versions : list string) (r : Semver.Range) v :
  Semver.maxSatisfying versions (Some r) = Ok (Some v) ->
  In v versions /\ exists sv, Semver.newSemVer v = Ok sv /\ Semver.testSet r sv = true.
Proof.
  intros H. apply maxSatisfying_greatest in H as (H1 & sv & H2 & H3 & _). eauto.
Qed.

(** A directory returned by [getMatchingDir] is the first entry of the
    listing that contains the selected version. *)
Lemma getMatchingDir_some E pathToDir (r : Semver.Range) st d st' :
  AndroidToolsInfo.getMatchingDir E pathToDir (Some r) st = (Ok (Some d), st') ->
  exists subDirs version sv,
    fileSystem_readDirectory E (S (length (log st))) pathToDir = Ok subDirs /\
    In version (omap Re.ANDROID_VERSION_REGEX subDirs) /\
    Semver.newSemVer version = Ok sv /\
    Semver.testSet r sv = true /\
    (forall w sw, In w (omap Re.ANDROID_VERSION_REGEX subDirs) ->
                  Semver.newSemVer w = Ok sw -> Semver.testSet r sw = true ->
                  Semver.isLt (Semver.compare sv sw) = false) /\
    List.find (fun dir => Str.contains version dir) subDirs = Some d.
Proof.
  unfold AndroidToolsInfo.getMatchingDir. intros H.
  apply bind_inv_ok in H as (b & s1 & Hb & H).
  unfold fsExists, perform in Hb. injection Hb as <- <-.
  destruct (fileSystem_exists E _ _); [|discriminate].
  apply bind_inv_ok in H as (subDirs & s2 & Hd & H).
  unfold readDirectory, perform in Hd. cbn in Hd. rewrite length_snoc in Hd.
  injection Hd as Hd <-.
  apply bind_inv_ok in H as (version & s3 & Hv & H).
  unfold liftRes in Hv. injection Hv as Hv <-.
  destruct version as [version|]; [|discriminate].
  injection H as H <-.
  apply maxSatisfying_greatest in Hv as (Hin & sv & Hsv & Ht & Hmax).
  exists subDirs, version, sv. auto 10.
Qed.

(** ** Build tools *)

(** C5, code defect. With build-tools directories [124.0.0] and [24.0.0]
    the greatest version in the range is 24.0.0, from the second name; the
    name returned is [124.0.0], whose own version 124.0.0 is outside the
    range, because the directory is looked up by substring. *)
Theorem build_tools_directory_by_substring :
  AndroidToolsInfo.getBuildToolsRange
    = Some [{| Semver.c_op := Semver.OpGE; Semver.c_major := 23 |};
            {| Semver.c_op := Semver.OpLE; Semver.c_major := 25 |}] /\
  omap Re.ANDROID_VERSION_REGEX ["124.0.0"; "24.0.0"] = ["124.0.0"; "24.0.0"] /\
  Semver.maxSatisfying ["124.0.0"; "24.0.0"] AndroidToolsInfo.getBuildToolsRange
    = Ok (Some "24.0.0") /\
  Semver.maxSatisfying ["124.0.0"] AndroidToolsInfo.getBuildToolsRange = Ok None /\
  fst (AndroidToolsInfo.getBuildToolsVersion Hosts.oddBuildTools initialState)
    = Ok (Some "124.0.0").
Proof. vm_compute. repeat split; reflexivity. Qed.

(** What [getBuildToolsVersion] returns in general: the first entry of the
    listing that contains the greatest listed version of the range. *)
Lemma getBuildToolsVersion_some E st d st' :
  AndroidToolsInfo.getBuildToolsVersion E st = (Ok (Some d), st') ->
  exists home subDirs version sv r,
    AndroidToolsInfo.androidHomeSet E = Some home /\
    AndroidToolsInfo.getBuildToolsRange = Some r /\
    fileSystem_readDirectory E (S (length (log st))) (path_join E [home; "build-tools"])
      = Ok subDirs /\
    In version (omap Re.ANDROID_VERSION_REGEX subDirs) /\
    Semver.newSemVer version = Ok sv /\
    Semver.testSet r sv = true /\
    (forall w sw, In w (omap Re.ANDROID_VERSION_REGEX subDirs) ->
                  Semver.newSemVer w = Ok sw -> Semver.testSet r sw = true ->
                  Semver.isLt (Semver.compare sv sw) = false) /\
    List.find (fun dir => Str.contains version dir) subDirs = Some d.
Proof.
  unfold AndroidToolsInfo.getBuildToolsVersion.
  destruct (AndroidToolsInfo.androidHomeSet E) as [home|]; [|discriminate].
  destruct AndroidToolsInfo.getBuildToolsRange as [r|] eqn:Hr; [|discriminate].
  intros H. apply getMatchingDir_some in H as (subDirs & version & sv & H).
  exists home, subDirs, version, sv, r. tauto.
Qed.

(** The range-matching examples of the specification. *)
Example range_matching_selects_greatest :
  Semver.maxSatisfying ["23.0.1"; "23.0.2"; "24.0.0"] AndroidToolsInfo.getBuildToolsRange
    = Ok (Some "24.0.0") /\
  Semver.maxSatisfying ["21.0.0"] AndroidToolsInfo.getBuildToolsRange = Ok None /\
  Semver.maxSatisfying ["25.0.3"; "26.0.0"] AndroidToolsInfo.getBuildToolsRange
    = Ok (Some "25.0.3").
Proof. vm_compute. repeat split; reflexivity. Qed.

(** Compile-target resolution on two listings of the platforms directory. *)
Example compile_target_resolution :
  let sdk targets :=
    Hosts.host false (Some "/sdk") Hosts.noExec Hosts.noSpawn
      (fun _ p => String.eqb p "/sdk/platforms")
      (fun _ p => if String.eqb p "/sdk/platforms" then Ok targets else Hosts.enoent) in
  fst (AndroidToolsInfo.getCompileSdk (sdk ["android-19"; "android-22"]) initialState)
    = Ok (Some 22%Z) /\
  fst (AndroidToolsInfo.getCompileSdk (sdk ["android-17"]) initialState) = Ok None /\
  fst (AndroidToolsInfo.getCompileSdk Hosts.bareLinux initialState) = Ok None.
Proof. vm_compute. repeat split; reflexivity. Qed.

(** ** The CocoaPods functional check *)


Lemma strategyRuns_result name strategy st :
  strategyRuns name st ->
  fst (SysInfo.getValueForProperty name strategy st) = fst (strategy st) /\
  log (snd (SysInfo.getValueForProperty name strategy st)) = log (snd (strategy st)).
Proof.
  intros H. rewrite getValueForProperty_eq.
  destruct (shouldCache st) eqn:Hc.
  - destruct H as [H|H]; [congruence|]. rewrite H.
    destruct (strategy st) as [[r|e] st']; cbn; auto.
  - auto.
Qed.

(** The outcomes of the check when its strategy runs.  It yields [true]
    only on a Darwin host where [pod install] ended with exit code 0 and the
    workspace exists.  After a successful set-up: when [pod install] cannot
    be started the result is [null]; when it ends with exit code 0 the
    result is whether the workspace exists; when it ends with another exit
    code the process runner rejects, the result is [null] as well, and the
    trace ends with the [pod install] call. *)
Lemma isCocoaPodsWorkingCorrectly_outcomes E st :
  strategyRuns "isCocoaPodsWorkingCorrectlyCache" st ->
  let n := length (log st) in
  let run := SysInfo.isCocoaPodsWorkingCorrectly E st in
  (fst run = Ok (JBool true) ->
   isDarwin E = true /\
   exists tmp p,
     temp_mkdirSync E n podPrefix = Ok tmp /\
     podInstallOutcome E (S (S n)) tmp = Ok p /\
     exitedWithZero p = true /\
     fileSystem_exists E (S (S (S n))) (Some (podWorkspace E tmp)) = true) /\
  (forall tmp,
     isDarwin E = true ->
     temp_mkdirSync E n podPrefix = Ok tmp ->
     fileSystem_extractZip E (S n) (podArchive E) tmp = Ok tt ->
     match podInstallOutcome E (S (S n)) tmp with
     | Ok p =>
         if exitedWithZero p then
           fst run = Ok (JBool (fileSystem_exists E (S (S (S n))) (Some (podWorkspace E tmp))))
         else
           fst run = Ok JNull /\
           log (snd run) =
             log st ++ [CMkdirTemp podPrefix; CExtractZip (podArchive E) tmp;
                        CSpawn "pod" ["install"] "exit" (podInstallOptions E tmp)]
     | Throw _ => fst run = Ok JNull
     end).
Proof.
  intros Hruns n run. subst run n.
  unfold SysInfo.isCocoaPodsWorkingCorrectly.
  match goal with
  | |- context [SysInfo.getValueForProperty ?p ?s st] =>
      destruct (strategyRuns_result p s st Hruns) as (Hf & Hl); rewrite Hf, Hl; clear Hf Hl
  end.
  unfold podInstallOutcome, podInstallOptions, podWorkspace, podProjectDir, podArchive, podPrefix.
  assert (Hzero : forall p, exitedWithZero p = true -> SysInfo.exitCodeTruthy p = false).
  { intros p. unfold exitedWithZero, SysInfo.exitCodeTruthy.
    destruct (exitCode p); [|discriminate]. intros ->. reflexivity. }
  split.
  - destruct (isDarwin E); [|discriminate].
    unfold bind, tryCatch, mkdirSync, extractZip, spawnFromEvent, fsExists, perform, ret.
    cbn.
    destruct (temp_mkdirSync E _ _) as [tmp|e] eqn:Hm; [|discriminate].
    destruct (fileSystem_extractZip E _ _ _) as [[]|e]; [|discriminate].
    destruct (process_spawn E _ _ _ _ _) as [p|e] eqn:Hp; [|discriminate].
    destruct (exitedWithZero p) eqn:Hx; [|discriminate].
    rewrite (Hzero p Hx).
    cbn. intros [= Hw]. split; [reflexivity|].
    repeat rewrite length_snoc in Hp. repeat rewrite length_snoc in Hw.
    exists tmp, p. repeat split; auto.
  - intros tmp Hd Hm Hz. rewrite Hd.
    unfold bind, tryCatch, mkdirSync, extractZip, spawnFromEvent, fsExists, perform, ret.
    cbn. rewrite Hm. cbn. rewrite length_snoc, Hz. cbn. repeat rewrite length_snoc.
    destruct (process_spawn E _ _ _ _ _) as [p|e]; [|reflexivity].
    destruct (exitedWithZero p) eqn:Hx; cbn.
    + rewrite (Hzero p Hx). cbn. repeat rewrite length_snoc. reflexivity.
    + split; [reflexivity|]. now rewrite <- !app_assoc.
Qed.

(** C7, code defect. [pod install] exits with code 1 and the workspace is
    there: the process runner rejects, the [catch] block answers [null]
    (unknown) and not [false], and the workspace is not looked up.  The
    other outcomes are as the claim says: exit code 0 gives [true] with the
    workspace and [false] without it, and [null] when [pod] cannot be
    started. *)
Theorem failed_pod_install_is_reported_as_unknown :
  SysInfo.isCocoaPodsWorkingCorrectly (Hosts.podInstall 1 true) initialState
    = (Ok JNull,
       {| fields := <["isCocoaPodsWorkingCorrectlyCache" := JNull]> initialFields;
          shouldCache := true; monoLastIndex := 0; toolsInfo := None;
          log := [CMkdirTemp podPrefix;
                  CExtractZip (podArchive (Hosts.podInstall 1 true))
                              "/tmp/nativescript-check-cocoapods";
                  CSpawn "pod" ["install"] "exit"
                    (podInstallOptions (Hosts.podInstall 1 true)
                                       "/tmp/nativescript-check-cocoapods")] |}) /\
  fst (SysInfo.isCocoaPodsWorkingCorrectly (Hosts.podInstall 0 true) initialState)
    = Ok (JBool true) /\
  fst (SysInfo.isCocoaPodsWorkingCorrectly (Hosts.podInstall 0 false) initialState)
    = Ok (JBool false) /\
  fst (SysInfo.isCocoaPodsWorkingCorrectly Hosts.bareMac initialState) = Ok JNull.
Proof. vm_compute. repeat split; reflexivity. Qed.

(** The sibling probe passes the ignore-error option, and a non-zero exit
    code of [android -h] does not make it fail. *)
Example android_probe_ignores_exit_code :
  fst (SysInfo.isAndroidInstalled
         (Hosts.host true None Hosts.noExec
            (fun _ cmd _ =>
               if String.eqb cmd "android"
               then Ok {| stdout := "Usage: android [global options]"; stderr := "";
                          exitCode := Some 1%Z |}
               else Hosts.enoent)
            Hosts.noFiles Hosts.noDirectories)
         initialState)
  = Ok (JBool true).
Proof. vm_compute. reflexivity. Qed.

(** ** The order of the warnings *)

Lemma pushIf_app c w result :
  Doctor.pushIf c w result = result ++ (if c then [w] else []).
Proof. destruct c; cbn; [reflexivity | now rewrite app_nil_r]. Qed.

Ltac sublist_tac :=
  repeat first [apply sublist_nil | apply sublist_skip | apply sublist_cons].

Ltac split_ifs :=
  repeat match goal with
         | |- context [if ?b then _ else _] => destruct b
         end.

(** The messages of the twelve warnings are pairwise different, so a
    warning list determines which checks fired. *)
Lemma warning_messages_distinct E :
  NoDup (map warning (androidChecks E ++ iosChecks E ++ [Doctor.iosNote E] ++ toolChecks E)).
Proof.
  cbn. apply (bool_decide_unpack _). vm_compute. exact I.
Qed.

Lemma functional_check_step E (guard : bool) (result : list IWarning) st r s :
  (if guard then
     bind (SysInfo.isCocoaPodsWorkingCorrectly E)
          (fun v => ret (Doctor.pushIf (negb (Js.truthy v)) Doctor.cocoaPodsProblemWarning result))
   else ret result) st = (Ok r, s) ->
  exists c : bool, r = Doctor.pushIf c Doctor.cocoaPodsProblemWarning result.
Proof.
  destruct guard; intros H.
  - apply bind_inv_ok in H as (v & sv & _ & H). injection H as <- <-. eauto.
  - injection H as <- <-. exists false. reflexivity.
Qed.

Lemma sublist_opt2 (a b : IWarning) (c1 c2 : bool) :
  sublist ((if c1 then [a] else []) ++ (if c2 then [b] else [])) [a; b].
Proof. destruct c1, c2; cbn; sublist_tac. Qed.

Lemma sublist_opt3 (a b c : IWarning) (c1 c2 c3 : bool) :
  sublist ((if c1 then [a] else []) ++ (if c2 then [b] else []) ++ (if c3 then [c] else []))
          [a; b; c].
Proof. destruct c1, c2, c3; cbn; sublist_tac. Qed.

Lemma sublist_opt6 (a b c d e f : IWarning) (c1 c2 c3 c4 c5 c6 : bool) :
  sublist ((if c1 then [a] else []) ++ (if c2 then [b] else []) ++ (if c3 then [c] else [])
           ++ (if c4 then [d] else []) ++ (if c5 then [e] else []) ++ (if c6 then [f] else []))
          [a; b; c; d; e; f].
Proof. destruct c1, c2, c3, c4, c5, c6; cbn; sublist_tac. Qed.

(** The shape of a list built by the pushes of the Darwin branch, and of
    the other branch. *)
Lemma pushes_on_darwin (a1 a2 x1 x2 x3 x4 x5 x6 t1 t2 t3 : IWarning)
  (c1 c2 c3 c4 c5 c6 c7 c8 c9 c10 c11 : bool) :
  exists pre middle post,
    Doctor.pushIf c11 t3 (Doctor.pushIf c10 t2 (Doctor.pushIf c9 t1
      (Doctor.pushIf c8 x6 (Doctor.pushIf c7 x5 (Doctor.pushIf c6 x4
        (Doctor.pushIf c5 x3 (Doctor.pushIf c4 x2 (Doctor.pushIf c3 x1
          (Doctor.pushIf c2 a2 (Doctor.pushIf c1 a1 []))))))))))
    = pre ++ middle ++ post /\
    sublist pre [a1; a2] /\
    sublist middle [x1; x2; x3; x4; x5; x6] /\
    sublist post [t1; t2; t3].
Proof.
  exists ((if c1 then [a1] else []) ++ (if c2 then [a2] else [])),
         ((if c3 then [x1] else []) ++ (if c4 then [x2] else []) ++ (if c5 then [x3] else [])
          ++ (if c6 then [x4] else []) ++ (if c7 then [x5] else []) ++ (if c8 then [x6] else [])),
         ((if c9 then [t1] else []) ++ (if c10 then [t2] else []) ++ (if c11 then [t3] else [])).
  split; [|split; [apply sublist_opt2 | split; [apply sublist_opt6 | apply sublist_opt3]]].
  rewrite !pushIf_app. cbn [app]. rewrite <- !app_assoc. reflexivity.
Qed.

Lemma pushes_off_darwin (a1 a2 note t1 t2 t3 : IWarning) (c1 c2 c3 c4 c5 : bool) :
  exists pre post,
    Doctor.pushIf c5 t3 (Doctor.pushIf c4 t2 (Doctor.pushIf c3 t1
      (Doctor.pushIf c2 a2 (Doctor.pushIf c1 a1 []) ++ [note])))
    = pre ++ [note] ++ post /\
    sublist pre [a1; a2] /\
    sublist post [t1; t2; t3].
Proof.
  exists ((if c1 then [a1] else []) ++ (if c2 then [a2] else [])),
         ((if c3 then [t1] else []) ++ (if c4 then [t2] else []) ++ (if c5 then [t3] else [])).
  split; [|split; [apply sublist_opt2 | apply sublist_opt3]].
  rewrite !pushIf_app. cbn [app]. rewrite <- !app_assoc. reflexivity.
Qed.

Lemma getWarningsFrom_order E o st ws st' :
  Doctor.getWarningsFrom E o st = (Ok ws, st') ->
  exists pre middle post,
    ws = pre ++ middle ++ post /\
    sublist pre (androidChecks E) /\
    (if isDarwin E then sublist middle (iosChecks E) else middle = [Doctor.iosNote E]) /\
    sublist post (toolChecks E).
Proof.
  unfold Doctor.getWarningsFrom. intros H.
  apply bind_inv_ok in H as (r & st1 & Hmid & Hret).
  injection Hret as <- <-.
  destruct (isDarwin E).
  - apply bind_inv_ok in Hmid as (r6 & s6 & H6 & Hmid).
    apply bind_inv_ok in Hmid as (tooOld & s7 & H7 & Hmid).
    apply bind_inv_ok in Hmid as (monoMissing & s8 & H8 & Hmid).
    injection Hmid as <- <-.
    apply functional_check_step in H6 as (c & ->).
    apply pushes_on_darwin.
  - injection Hmid as <- <-.
    match goal with
    | |- exists pre middle post, ?l = _ /\ _ =>
        destruct (pushes_off_darwin (Doctor.adbWarning E) (Doctor.androidWarning E)
                    (Doctor.iosNote E) (Doctor.itunesWarning E) (Doctor.javaWarning E)
                    (Doctor.gitWarning E)
                    (negb (Js.truthy (Js.prop o "adbVer")))
                    (negb (Js.truthy (Js.prop o "androidInstalled")))
                    (negb (Js.truthy (Js.prop o "itunesInstalled")))
                    (negb (Js.truthy (Js.prop o "javaVer")))
                    (negb (Js.truthy (Js.prop o "gitVer"))))
          as (pre & post & Heq & Hpre & Hpost)
    end.
    exists pre, [Doctor.iosNote E], post. auto.
Qed.

(** C3. Whenever [getWarnings] returns, its list is made of three parts in
    this order: the Android checks (adb, Android SDK), the iOS part, and the
    remaining checks (iTunes, JDK, Git), each part a subsequence of its fixed
    order.  On a Darwin host the iOS part is a subsequence of the iOS checks;
    on any other host it is exactly the one note, whatever the snapshot
    holds. *)
Theorem getWarnings_order E st ws st' :
  Doctor.getWarnings E st = (Ok ws, st') ->
  exists pre middle post,
    ws = pre ++ middle ++ post /\
    sublist pre (androidChecks E) /\
    (if isDarwin E then sublist middle (iosChecks E) else middle = [Doctor.iosNote E]) /\
    sublist post (toolChecks E).
Proof.
  unfold Doctor.getWarnings. intros H.
  apply bind_inv_ok in H as (d & st1 & _ & H).
  destruct d; try discriminate; eapply getWarningsFrom_order; eassumption.
Qed.

Lemma getWarnings_order_witness :
  exists pre middle post,
    [Doctor.adbWarning Hosts.bareLinux; Doctor.androidWarning Hosts.bareLinux;
     Doctor.iosNote Hosts.bareLinux; Doctor.itunesWarning Hosts.bareLinux;
     Doctor.javaWarning Hosts.bareLinux; Doctor.gitWarning Hosts.bareLinux]
    = pre ++ middle ++ post /\
    sublist pre (androidChecks Hosts.bareLinux) /\
    middle = [Doctor.iosNote Hosts.bareLinux] /\
    sublist post (toolChecks Hosts.bareLinux).
Proof.
  refine (getWarnings_order Hosts.bareLinux initialState _
            (snd (Doctor.getWarnings Hosts.bareLinux initialState)) _).
  vm_compute. reflexivity.
Defined.

(** On a host outside the Darwin family the checks never fail to return
    once the snapshot is there. *)
Lemma getWarningsFrom_returns_off_darwin E o st :
  isDarwin E = false ->
  exists ws, Doctor.getWarningsFrom E o st = (Ok ws, st).
Proof.
  intros Hd. unfold Doctor.getWarningsFrom. rewrite Hd.
  unfold bind, ret. eexists. reflexivity.
Qed.

(** ** The support library *)

Lemma tryCatch_default_total {A} (m : M A) (d : A) st :
  exists a st1, tryCatch m (fun _ => ret d) st = (Ok a, st1).
Proof.
  unfold tryCatch, ret. destruct (m st) as [[a|e] st1]; eauto.
Qed.

Section SupportLibrary.
Variable E : Env.

(** The compile target is always resolved or absent, never an error, and a
    resolved one is at least the minimum. *)
Lemma getCompileSdk_total st :
  exists c st1,
    AndroidToolsInfo.getCompileSdk E st = (Ok c, st1) /\
    match c with Some n => (22 <= n)%Z | None => True end.
Proof.
  unfold AndroidToolsInfo.getCompileSdk, AndroidToolsInfo.getLatestValidAndroidTarget.
  destruct (tryCatch_default_total
              (pathToInstalledTargets <-
                 liftRes (pathJoin E [AndroidToolsInfo.androidHome E; Some "platforms"]) ;;
               b <- fsExists E (Some pathToInstalledTargets) ;;
               if negb b then throw (Error "No Android Targets installed.")
               else readDirectory E pathToInstalledTargets) [] st) as (l & st1 & Hl).
  fold (AndroidToolsInfo.getInstalledTargets E) in Hl.
  rewrite (bind_ok _ _ _ _ _ (bind_ok _ _ _ _ _ Hl)).
  unfold ret at 1.
  destruct (fold_left _ _ _) as [t|]; [|exists None, st1; auto].
  destruct (AndroidToolsInfo.parseAndroidSdkString t) as [n|]; [|exists None, st1; auto].
  destruct (negb (n =? 0)%Z && (AndroidToolsInfo.MIN_REQUIRED_COMPILE_TARGET <=? n)%Z) eqn:Hn.
  - exists (Some n), st1. split; [reflexivity|].
    apply andb_prop in Hn as (_ & Hn). unfold AndroidToolsInfo.MIN_REQUIRED_COMPILE_TARGET in Hn. lia.
  - exists None, st1. auto.
Qed.

Lemma getAppCompatRange_eq st c st1 :
  AndroidToolsInfo.getCompileSdk E st = (Ok c, st1) ->
  AndroidToolsInfo.getAppCompatRange E st = (Ok (option_map appCompatRange c), st1).
Proof.
  intros H. unfold AndroidToolsInfo.getAppCompatRange.
  rewrite (bind_ok _ _ _ _ _ H). destruct c; reflexivity.
Qed.

End SupportLibrary.

(** A version is in the range for the target [c] exactly when its major
    number is [c] and it has no prerelease tag. *)
Lemma testSet_appCompatRange (c : Z) (v : Semver.SemVer) :
  (0 <= c)%Z ->
  Semver.testSet (appCompatRange c) v = true <->
  (Z.of_N (Semver.major v) = c /\ Semver.prerelease v = []).
Proof.
  intros Hc. unfold Semver.testSet, appCompatRange, Semver.testComparator, Semver.compare,
    Semver.compareMain, Semver.comparePre. cbn.
  replace (Z.to_N (c + 1)) with (Z.to_N c + 1)%N by lia.
  destruct (Semver.prerelease v) as [|p ps].
  - destruct (N.compare_spec (Semver.major v) (Z.to_N c)) as [H1|H1|H1];
      destruct (N.compare_spec (Semver.major v) (Z.to_N c + 1)) as [H2|H2|H2];
      destruct (Semver.minor v); destruct (Semver.patch v); cbn;
      split; intros H; try discriminate; try lia; try (destruct H; lia); auto; split; auto; lia.
  - rewrite andb_false_r. split; [discriminate | intros [_ H]; discriminate].
Qed.

(** The compile target is always resolved or absent.  When it is resolved
    to [c] and the SDK root is set, the range asked of the support library
    is the one for [c], a version is in it exactly when its major number is
    [c] (and it is a release), and the directory returned is the first
    listed name that contains, as a substring, a listed version with major
    number [c].  When the compile target is unresolved or the SDK root is
    unset, the result is absent. *)
Lemma support_library_range E st :
  exists compileTarget st1,
    AndroidToolsInfo.getCompileSdk E st = (Ok compileTarget, st1) /\
    match compileTarget, AndroidToolsInfo.androidHomeSet E with
    | Some c, Some home =>
        AndroidToolsInfo.getAppCompatRange E st = (Ok (Some (appCompatRange c)), st1) /\
        (forall v, Semver.testSet (appCompatRange c) v = true <->
                   (Z.of_N (Semver.major v) = c /\ Semver.prerelease v = [])) /\
        (forall d st2,
           AndroidToolsInfo.getAndroidSupportRepositoryVersion E st = (Ok (Some d), st2) ->
           exists subDirs version sv,
             fileSystem_readDirectory E (S (length (log st1))) (appCompatDir E home) = Ok subDirs /\
             In version (omap Re.ANDROID_VERSION_REGEX subDirs) /\
             Semver.newSemVer version = Ok sv /\
             Z.of_N (Semver.major sv) = c /\
             List.find (fun dir => Str.contains version dir) subDirs = Some d)
    | _, _ =>
        fst (AndroidToolsInfo.getAndroidSupportRepositoryVersion E st) = Ok None
    end.
Proof.
  destruct (getCompileSdk_total E st) as (c & st1 & Hc & Hmin).
  exists c, st1. split; [exact Hc|].
  pose proof (getAppCompatRange_eq E st c st1 Hc) as Hr.
  unfold AndroidToolsInfo.getAndroidSupportRepositoryVersion.
  rewrite (bind_ok _ _ _ _ _ Hr).
  destruct c as [c|]; cbn [option_map].
  - destruct (AndroidToolsInfo.androidHomeSet E) as [home|]; [|reflexivity].
    split; [exact Hr|]. split.
    + intros v. apply testSet_appCompatRange. lia.
    + intros d st2 H.
      apply getMatchingDir_some in H as (subDirs & version & sv & H1 & H2 & H3 & H4 & _ & H5).
      exists subDirs, version, sv. repeat split; auto.
      apply testSet_appCompatRange in H4; [tauto | lia].
  - destruct (AndroidToolsInfo.androidHomeSet E); reflexivity.
Qed.

(** The example of the specification: with compile target 25 and the
    support libraries 24.2.1 and 25.1.0, the second one is selected. *)
Example support_library_for_target_25 :
  fst (AndroidToolsInfo.getCompileSdk Hosts.sdk25 initialState) = Ok (Some 25%Z) /\
  fst (AndroidToolsInfo.getAndroidSupportRepositoryVersion Hosts.sdk25 initialState)
    = Ok (Some "25.1.0") /\
  option_map (Semver.testSet (appCompatRange 25)) (Semver.matchFull "24.2.1") = Some false /\
  option_map (Semver.testSet (appCompatRange 25)) (Semver.matchFull "25.1.0") = Some true /\
  option_map (Semver.testSet (appCompatRange 25)) (Semver.matchFull "26.0.0") = Some false.
Proof. vm_compute. repeat split; reflexivity. Qed.

(** C6, code defect. With compile target 25 the range asked of the support
    library is the one of the versions with major number 25.  With the
    support-library directories [24.125.0.1] and [25.0.1] the versions
    extracted are 24.125.0 and 25.0.1, and the greatest one in the range is
    25.0.1; the name returned is [24.125.0.1], whose own version 24.125.0
    has major number 24 and is outside the range, because the directory is
    looked up by substring. *)
Theorem support_library_directory_by_substring :
  fst (AndroidToolsInfo.getCompileSdk Hosts.oddSupportLibrary initialState) = Ok (Some 25%Z) /\
  fst (AndroidToolsInfo.getAppCompatRange Hosts.oddSupportLibrary initialState)
    = Ok (Some (appCompatRange 25)) /\
  omap Re.ANDROID_VERSION_REGEX ["24.125.0.1"; "25.0.1"] = ["24.125.0"; "25.0.1"] /\
  Semver.maxSatisfying ["24.125.0"; "25.0.1"] (Some (appCompatRange 25)) = Ok (Some "25.0.1") /\
  option_map (Semver.testSet (appCompatRange 25)) (Semver.matchFull "24.125.0") = Some false /\
  option_map Semver.major (Semver.matchFull "24.125.0") = Some 24%N /\
  fst (AndroidToolsInfo.getAndroidSupportRepositoryVersion Hosts.oddSupportLibrary initialState)
    = Ok (Some "24.125.0.1").
Proof. vm_compute. repeat split; reflexivity. Qed.

(** ** One evaluation of [getWarnings] *)


(** The checks change the state only through the functional check. *)
Lemma getWarningsFrom_state E o st :
  snd (Doctor.getWarningsFrom E o st) = st \/
  (isDarwin E = true /\
   Js.truthy (Js.prop o "xcodeVer") = true /\
   Js.truthy (Js.prop o "cocoapodVer") = true /\
   snd (Doctor.getWarningsFrom E o st) = snd (SysInfo.isCocoaPodsWorkingCorrectly E st)).
Proof.
  unfold Doctor.getWarningsFrom.
  destruct (isDarwin E); [|left; reflexivity].
  destruct (Js.truthy (Js.prop o "xcodeVer")) eqn:Hx;
    destruct (Js.truthy (Js.prop o "cocoapodVer")) eqn:Hp; cbn [andb negb].
  - right. repeat split; auto.
    unfold bind.
    destruct (SysInfo.isCocoaPodsWorkingCorrectly E st) as [[v|e] s1]; [|reflexivity].
    unfold ret, liftRes; cbn.
    destruct (Semver.valid _); cbn;
      repeat match goal with
             | |- context [Semver.lt ?a ?b] => destruct (Semver.lt a b); cbn
             | |- context [if ?c then _ else _] => destruct c; cbn
             end; reflexivity.
  - left. unfold bind, ret, liftRes; cbn.
    repeat match goal with
           | |- context [Semver.lt ?a ?b] => destruct (Semver.lt a b); cbn
           | |- context [if ?c then _ else _] => destruct c; cbn
           end; reflexivity.
  - left. unfold bind, ret, liftRes; cbn.
    destruct (Semver.valid _); cbn;
      repeat match goal with
             | |- context [Semver.lt ?a ?b] => destruct (Semver.lt a b); cbn
             | |- context [if ?c then _ else _] => destruct c; cbn
             end; reflexivity.
  - left. unfold bind, ret, liftRes; cbn.
    repeat match goal with
           | |- context [Semver.lt ?a ?b] => destruct (Semver.lt a b); cbn
           | |- context [if ?c then _ else _] => destruct c; cbn
           end; reflexivity.
Qed.

(** The warnings depend on the state only through the answer of the
    functional check. *)
Lemma getWarningsFrom_value E o st st2 :
  fst (SysInfo.isCocoaPodsWorkingCorrectly E st)
  = fst (SysInfo.isCocoaPodsWorkingCorrectly E st2) ->
  fst (Doctor.getWarningsFrom E o st) = fst (Doctor.getWarningsFrom E o st2).
Proof.
  intros H. unfold Doctor.getWarningsFrom.
  destruct (isDarwin E); [|reflexivity].
  destruct (Js.truthy (Js.prop o "xcodeVer") && Js.truthy (Js.prop o "cocoapodVer")).
  - unfold bind, ret, liftRes.
    destruct (SysInfo.isCocoaPodsWorkingCorrectly E st) as [[v|e] s1],
             (SysInfo.isCocoaPodsWorkingCorrectly E st2) as [[v2|e2] s2];
      cbn [fst] in H; try discriminate; injection H as ->; [|reflexivity].
    repeat match goal with
           | |- context [Semver.lt ?a ?b] => destruct (Semver.lt a b); cbn
           | |- context [if ?c then _ else _] => destruct c; cbn
           end; reflexivity.
  - unfold bind, ret, liftRes.
    repeat match goal with
           | |- context [Semver.lt ?a ?b] => destruct (Semver.lt a b); cbn
           | |- context [if ?c then _ else _] => destruct c; cbn
           end; reflexivity.
Qed.

(** A snapshot built by [getSysInfo] holds the CocoaPods version under
    [cocoaPodsVer]; it has no property [cocoapodVer], the name the checks
    read. *)
Lemma ret_inv {A} (a b : A) st st' : ret a st = (Ok b, st') -> a = b.
Proof. unfold ret. congruence. Qed.

Lemma getSysInfo_has_no_cocoapodVer E st o st' :
  strategyRuns "sysInfoCache" st ->
  SysInfo.getSysInfo E st = (Ok (JObj o), st') ->
  Js.prop o "cocoapodVer" = JUndefined.
Proof.
  intros Hruns Hrun. unfold SysInfo.getSysInfo in Hrun.
  match type of Hrun with
  | SysInfo.getValueForProperty ?p ?s st = _ =>
      destruct (strategyRuns_result p s st Hruns) as (Hf & _);
      rewrite Hrun in Hf; cbn [fst] in Hf;
      destruct (s st) as [r s1] eqn:H
  end.
  cbn [fst] in Hf. subst r.
  repeat (apply bind_inv_ok in H as (? & ? & _ & H); cbv beta zeta in H).
  apply ret_inv in H.
  apply (f_equal (fun v => match v with JObj m => m | _ => ∅ end)) in H. subst o.
  unfold Js.prop.
  repeat (rewrite lookup_insert_ne by discriminate). now rewrite lookup_empty.
Qed.

(** Hence, when the snapshot is built in the same evaluation, the checks of
    [getWarnings] call no probe at all: the evaluation ends in the state in
    which [getSysInfo] left it. *)
Lemma getWarnings_on_fresh_snapshot E st :
  strategyRuns "sysInfoCache" st ->
  snd (Doctor.getWarnings E st) = snd (SysInfo.getSysInfo E st).
Proof.
  intros Hruns. unfold Doctor.getWarnings, bind.
  destruct (SysInfo.getSysInfo E st) as [[d|e] st1] eqn:Hrun; [|reflexivity].
  destruct d as [| | b | t | o]; try reflexivity.
  - destruct (getWarningsFrom_state E ∅ st1) as [H|(_ & _ & H & _)]; [exact H|].
    unfold Js.prop in H. rewrite lookup_empty in H. discriminate.
  - destruct (getWarningsFrom_state E ∅ st1) as [H|(_ & _ & H & _)]; [exact H|].
    unfold Js.prop in H. rewrite lookup_empty in H. discriminate.
  - destruct (getWarningsFrom_state E o st1) as [H|(_ & _ & H & _)]; [exact H|].
    rewrite (getSysInfo_has_no_cocoapodVer E st o st1 Hruns Hrun) in H. discriminate.
Qed.

(** *** The commands run while the snapshot is built *)

(** Steps compose; the slots and the commands may be enlarged. *)
Lemma step_refl slots cmds st : step slots cmds st st.
Proof.
  repeat split; auto. exists []. rewrite app_nil_r. split; [reflexivity|apply sublist_nil_l].
Qed.

Lemma step_trans S c1 c2 a b c :
  step S c1 a b -> step S c2 b c -> step S (c1 ++ c2) a c.
Proof.
  intros (H1 & H2 & l1 & H3 & H4) (K1 & K2 & l2 & K3 & K4).
  repeat split.
  - congruence.
  - intros k Hk. rewrite K2, H2; auto.
  - exists (l1 ++ l2). split.
    + rewrite K3, H3. now rewrite app_assoc.
    + unfold commands in *. rewrite omap_app. now apply sublist_app.
Qed.

Lemma step_weaken S S' c c' a b :
  step S c a b -> incl S S' -> sublist c c' -> step S' c' a b.
Proof.
  intros (H1 & H2 & l1 & H3 & H4) Hi Hs.
  repeat split; auto.
  exists l1. split; auto. etransitivity; eauto.
Qed.

Lemma probes_weaken {A} S S' c c' (m : M A) :
  probes S c m -> incl S S' -> sublist c c' -> probes S' c' m.
Proof. intros H Hi Hs st. eapply step_weaken; eauto. Qed.

(** The rules of [probes] for the constructs of a computation. *)
Lemma probes_run {A} S c (m : M A) st r st' :
  probes S c m -> m st = (r, st') -> step S c st st'.
Proof. intros H Hr. specialize (H st). now rewrite Hr in H. Qed.

Lemma probes_ret {A} S c (a : A) : probes S c (ret a).
Proof. intros st. apply step_refl. Qed.

Lemma probes_throw {A} S c e : probes S c (@throw A e).
Proof. intros st. apply step_refl. Qed.

Lemma probes_liftRes {A} S c (r : Res A) : probes S c (liftRes r).
Proof. intros st. apply step_refl. Qed.

Lemma probes_monoVerRegExpExec S c output : probes S c (SysInfo.monoVerRegExpExec output).
Proof.
  intros st. unfold SysInfo.monoVerRegExpExec.
  destruct (Re.monoVerRegExp_exec _ _). cbn. repeat split; auto.
  exists []. rewrite app_nil_r. split; [reflexivity|apply sublist_nil_l].
Qed.

Lemma probes_perform {A} S c call (reply : nat -> Res A) :
  sublist (commands [call]) c -> probes S c (perform call reply).
Proof. intros H st. cbn. repeat split; auto. now exists [call]. Qed.

Lemma probes_bind {A B} S c1 c2 (m : M A) (k : A -> M B) :
  probes S c1 m -> (forall a, probes S c2 (k a)) -> probes S (c1 ++ c2) (bind m k).
Proof.
  intros Hm Hk st. specialize (Hm st). unfold bind.
  destruct (m st) as [[a|e] st1]; cbn [snd] in *.
  - eapply step_trans; [exact Hm | apply Hk].
  - eapply step_weaken; [exact Hm | apply incl_refl | now apply sublist_inserts_r].
Qed.

Lemma probes_tryCatch {A} S c1 c2 (m : M A) (h : JsError -> M A) :
  probes S c1 m -> (forall e, probes S c2 (h e)) -> probes S (c1 ++ c2) (tryCatch m h).
Proof.
  intros Hm Hh st. specialize (Hm st). unfold tryCatch.
  destruct (m st) as [[a|e] st1]; cbn [snd] in *.
  - eapply step_weaken; [exact Hm | apply incl_refl | now apply sublist_inserts_r].
  - eapply step_trans; [exact Hm | apply Hh].
Qed.

Lemma step_store S c st st1 p r :
  step S c st st1 -> In p S -> step S c st (store p r st1).
Proof.
  intros (H1 & H2 & H3) Hin. repeat split; auto.
  intros k Hk. cbn. rewrite lookup_insert_ne; [auto|]. intros ->. contradiction.
Qed.

Lemma probes_getValueForProperty S c p (strategy : M JsVal) :
  probes S c strategy -> In p S -> probes S c (SysInfo.getValueForProperty p strategy).
Proof.
  intros Hs Hin st. rewrite getValueForProperty_eq. specialize (Hs st).
  destruct (shouldCache st); [|exact Hs].
  destruct (Js.isNullish _); [|apply step_refl].
  destruct (strategy st) as [[r|e] st1]; cbn [snd] in *; [|exact Hs].
  now apply step_store.
Qed.

Lemma step_app S1 S2 c1 c2 a b c :
  step S1 c1 a b -> step S2 c2 b c -> step (S1 ++ S2) (c1 ++ c2) a c.
Proof.
  intros H1 H2. apply step_trans with (b := b).
  - eapply step_weaken; [exact H1 | apply incl_appl, incl_refl | reflexivity].
  - eapply step_weaken; [exact H2 | apply incl_appr, incl_refl | reflexivity].
Qed.

Lemma step_bind {A B} S c1 c2 (m : M A) (k : A -> M B) st :
  step S c1 st (snd (m st)) ->
  (forall a s1, m st = (Ok a, s1) -> step S c2 s1 (snd (k a s1))) ->
  step S (c1 ++ c2) st (snd (bind m k st)).
Proof.
  intros Hm Hk. unfold bind.
  destruct (m st) as [[a|e] s1]; cbn [snd] in *.
  - eapply step_trans; [exact Hm | now apply Hk].
  - eapply step_weaken; [exact Hm | apply incl_refl | now apply sublist_inserts_r].
Qed.

(** With caching enabled an accessor runs its commands only when its slot
    reads as not computed. *)
Lemma accessor_step S c p strategy st :
  probes S c strategy -> In p S -> shouldCache st = true ->
  step S (if Js.isNullish (Js.prop (fields st) p) then c else []) st
       (snd (SysInfo.getValueForProperty p strategy st)).
Proof.
  intros Hs Hin Hc. rewrite getValueForProperty_eq, Hc.
  destruct (Js.isNullish _); [|apply step_refl].
  specialize (Hs st). destruct (strategy st) as [[r|e] s1]; cbn [snd] in *.
  - now apply step_store.
  - exact Hs.
Qed.

Create HintDb probes.
#[local] Hint Resolve probes_ret probes_throw probes_liftRes probes_monoVerRegExpExec : probes.

Ltac sublist_cmd :=
  cbn; first [ apply sublist_nil_l | reflexivity ].

(* Follows the structure of the computation; the one command of a sequence
   is looked for in its first part, then in the rest. *)

Ltac probes_tac :=
  cbv beta zeta;
  lazymatch goal with
  | |- probes _ _ (SysInfo.getValueForProperty _ _) =>
      apply probes_getValueForProperty; [probes_tac | cbn; tauto]
  | |- probes ?S [] (bind _ _) =>
      apply (probes_bind S [] []); [probes_tac | intros; probes_tac]
  | |- probes ?S [?c] (bind _ _) =>
      first [ solve [apply (probes_bind S [c] []); [probes_tac | intros; probes_tac]]
            | solve [apply (probes_bind S [] [c]); [probes_tac | intros; probes_tac]] ]
  | |- probes ?S [] (tryCatch _ _) =>
      apply (probes_tryCatch S [] []); [probes_tac | intros; probes_tac]
  | |- probes ?S [?c] (tryCatch _ _) =>
      first [ solve [apply (probes_tryCatch S [c] []); [probes_tac | intros; probes_tac]]
            | solve [apply (probes_tryCatch S [] [c]); [probes_tac | intros; probes_tac]] ]
  | |- probes _ _ (perform _ _) => apply probes_perform; sublist_cmd
  | |- probes _ _ (if ?b then _ else _) => destruct b; probes_tac
  | |- probes _ _ (match ?x with _ => _ end) => destruct x; probes_tac
  | |- probes _ _ _ => solve [auto with probes]
  end.

Ltac peel H v s R :=
  apply bind_inv_ok in H as (v & s & R & H); cbv beta zeta in H.

Ltac notin := cbn; intuition discriminate.

Section SnapshotTrace.
Variable E : Env.

Lemma probes_exec S cmd : probes S [cmd] (SysInfo.exec E cmd).
Proof. unfold SysInfo.exec, childProcessExec. probes_tac. Qed.

Lemma probes_execCommand S cmd : probes S [cmd] (SysInfo.execCommand E cmd).
Proof.
  unfold SysInfo.execCommand.
  apply (probes_bind S [cmd] []); [apply probes_exec | intros; apply probes_ret].
Qed.

Hint Resolve probes_exec probes_execCommand : probes.

(** Each accessor writes its own slot and runs its own command. *)
Lemma probes_getOs : probes ["osCache"] ["uname -a"] (SysInfo.getOs E).
Proof. unfold SysInfo.getOs, SysInfo.winVer, SysInfo.unixVer, getRegistryValue. probes_tac. Qed.

Lemma probes_getNodeVersion : probes [] [] (SysInfo.getNodeVersion E).
Proof. apply probes_ret. Qed.

Lemma probes_getNpmVersion : probes ["npmVerCache"] ["npm -v"] (SysInfo.getNpmVersion E).
Proof. unfold SysInfo.getNpmVersion. probes_tac. Qed.

Lemma probes_getNodeGypVersion :
  probes ["nodeGypVerCache"] ["node-gyp -v"] (SysInfo.getNodeGypVersion E).
Proof. unfold SysInfo.getNodeGypVersion. probes_tac. Qed.

Lemma probes_dotNetVersion : probes [] [] (dotNetVersion E).
Proof. unfold dotNetVersion. probes_tac. Qed.

Lemma probes_getJavaVersion :
  probes ["javaVerCache"] ["java -version"] (SysInfo.getJavaVersion E).
Proof. unfold SysInfo.getJavaVersion, spawnFromEvent. probes_tac. Qed.

Lemma probes_getJavaCompilerVersion :
  probes ["javaCompilerVerCache"] [javacCommand E] (SysInfo.getJavaCompilerVersion E).
Proof. unfold SysInfo.getJavaCompilerVersion, childProcessExec, javacCommand. probes_tac. Qed.

Lemma probes_getXcodeVersion :
  probes ["xCodeVerCache"] ["xcodebuild -version"] (SysInfo.getXcodeVersion E).
Proof. unfold SysInfo.getXcodeVersion. probes_tac. Qed.

Lemma probes_getXcodeprojGemLocation :
  probes ["xCodeprojGemLocationCache"] ["gem which xcodeproj"]
         (SysInfo.getXcodeprojGemLocation E).
Proof. unfold SysInfo.getXcodeprojGemLocation. probes_tac. Qed.

Lemma probes_isITunesInstalled :
  probes ["iTunesInstalledCache"] [] (SysInfo.isITunesInstalled E).
Proof. unfold SysInfo.isITunesInstalled, fsExists. probes_tac. Qed.

Lemma probes_getCocoaPodsVersion :
  probes ["cocoaPodsVerCache"] ["pod --version"] (SysInfo.getCocoaPodsVersion E).
Proof. unfold SysInfo.getCocoaPodsVersion. probes_tac. Qed.

Lemma probes_getAdbVersion : probes ["adbVerCache"] ["adb version"] (SysInfo.getAdbVersion E).
Proof. unfold SysInfo.getAdbVersion. probes_tac. Qed.

Lemma probes_isAndroidInstalled :
  probes ["androidInstalledCache"] [androidCommand E] (SysInfo.isAndroidInstalled E).
Proof. unfold SysInfo.isAndroidInstalled, spawnFromEvent, androidCommand. probes_tac. Qed.

Lemma probes_getMonoVersion :
  probes ["monoVerCache"] ["mono --version"] (SysInfo.getMonoVersion E).
Proof. unfold SysInfo.getMonoVersion. probes_tac. Qed.

Lemma probes_getGitVersion : probes ["gitVerCache"] ["git --version"] (SysInfo.getGitVersion E).
Proof. unfold SysInfo.getGitVersion. probes_tac. Qed.

Lemma probes_getGradleVersion :
  probes ["gradleVerCache"] ["gradle -v"] (SysInfo.getGradleVersion E).
Proof. unfold SysInfo.getGradleVersion. probes_tac. Qed.

Lemma probes_isCocoaPodsWorkingCorrectly :
  probes ["isCocoaPodsWorkingCorrectlyCache"] ["pod install"]
         (SysInfo.isCocoaPodsWorkingCorrectly E).
Proof.
  unfold SysInfo.isCocoaPodsWorkingCorrectly, mkdirSync, extractZip, spawnFromEvent, fsExists.
  probes_tac.
Qed.

Lemma probes_getNativeScriptCliVersion :
  probes ["nativeScriptCliVersionCache"] ["tns --version"]
         (SysInfo.getNativeScriptCliVersion E).
Proof. unfold SysInfo.getNativeScriptCliVersion. probes_tac. Qed.


(** The two accessors that [getSysInfo] calls twice, and the two that call
    them again. *)
Lemma getXcodeVersion_step st :
  shouldCache st = true ->
  step ["xCodeVerCache"]
       (if Js.isNullish (Js.prop (fields st) "xCodeVerCache")
        then ["xcodebuild -version"] else [])
       st (snd (SysInfo.getXcodeVersion E st)).
Proof.
  intros Hc. unfold SysInfo.getXcodeVersion.
  apply accessor_step; [ | cbn; tauto | exact Hc].
  probes_tac.
Qed.

Lemma getCocoaPodsVersion_step st :
  shouldCache st = true ->
  step ["cocoaPodsVerCache"]
       (if Js.isNullish (Js.prop (fields st) "cocoaPodsVerCache")
        then ["pod --version"] else [])
       st (snd (SysInfo.getCocoaPodsVersion E st)).
Proof.
  intros Hc. unfold SysInfo.getCocoaPodsVersion.
  apply accessor_step; [ | cbn; tauto | exact Hc].
  probes_tac.
Qed.

Lemma getXcprojInfo_step st :
  shouldCache st = true ->
  step xcprojSlots
       (xcprojCommands (Js.isNullish (Js.prop (fields st) "cocoaPodsVerCache"))
                       (Js.isNullish (Js.prop (fields st) "xCodeVerCache")))
       st (snd (SysInfo.getXcprojInfo E st)).
Proof.
  intros Hc. unfold SysInfo.getXcprojInfo.
  rewrite getValueForProperty_eq, Hc.
  destruct (Js.isNullish (Js.prop (fields st) "xcprojInfoCache")); [|apply step_refl].
  match goal with
  | |- step _ ?c _ (snd (match ?s st with _ => _ end)) =>
      assert (Hs : step xcprojSlots c st (snd (s st)));
      [ | destruct (s st) as [[r|e] s1]; cbn [snd] in *;
          [apply step_store; [exact Hs | cbn; tauto] | exact Hs] ]
  end.
  unfold xcprojCommands. apply step_bind.
    - eapply step_weaken; [apply getCocoaPodsVersion_step, Hc | | reflexivity].
      intros k Hk; cbn in *; tauto.
    - intros cp s1 H1.
      pose proof (getCocoaPodsVersion_step st Hc) as (Hc1 & Hf1 & _).
      rewrite H1 in Hc1, Hf1. cbn [snd] in Hc1, Hf1. rewrite Hc in Hc1.
      apply step_bind.
      + pose proof (getXcodeVersion_step s1 Hc1) as Hx.
        unfold Js.prop in Hx |- *. rewrite Hf1 in Hx by (cbn; intuition discriminate).
        eapply step_weaken; [exact Hx | | reflexivity].
        intros k Hk; cbn in *; tauto.
      + intros xv s2 H2.
        match goal with |- step _ _ _ (snd (?m s2)) => assert (Hp : probes xcprojSlots ["xcproj --version"] m) end.
        { probes_tac. }
        apply Hp.
Qed.

Lemma isCocoaPodsUpdateRequired_step st :
  shouldCache st = true ->
  step xcprojSlots
       (xcprojCommands (Js.isNullish (Js.prop (fields st) "cocoaPodsVerCache"))
                       (Js.isNullish (Js.prop (fields st) "xCodeVerCache")))
       st (snd (SysInfo.isCocoaPodsUpdateRequired E st)).
Proof.
  intros Hc. unfold SysInfo.isCocoaPodsUpdateRequired.
  rewrite getValueForProperty_eq, Hc.
  destruct (Js.isNullish (Js.prop (fields st) "isCocoaPodsUpdateRequiredCache")); [|apply step_refl].
  match goal with
  | |- step _ ?c _ (snd (match ?s st with _ => _ end)) =>
      assert (Hs : step xcprojSlots c st (snd (s st)));
      [ | destruct (s st) as [[r|e] s1]; cbn [snd] in *;
          [apply step_store; [exact Hs | cbn; tauto] | exact Hs] ]
  end.
  rewrite <- (app_nil_r (xcprojCommands _ _)). apply step_bind.
  - now apply getXcprojInfo_step.
  - intros info s1 _.
    match goal with |- step _ _ _ (snd (?m s1)) => assert (Hp : probes xcprojSlots [] m) end.
    { probes_tac. }
    apply Hp.
Qed.

Lemma accessor_after name accessor st v st1 :
  In (name, accessor) (SysInfo.accessors E) ->
  shouldCache st = true ->
  accessor st = (Ok v, st1) ->
  shouldCache st1 = true /\ Js.prop (fields st1) name = v.
Proof.
  intros Hin Hc Hr.
  destruct (accessor_shape E name accessor Hin) as (s & -> & Hk).
  eapply getValueForProperty_after; eauto.
Qed.

(** One evaluation of [getSysInfo] with caching enabled. *)
Lemma getSysInfo_step st o st' :
  shouldCache st = true ->
  SysInfo.getSysInfo E st = (Ok (JObj o), st') ->
  step snapshotSlots
       (snapshotCommands E (Js.isNullish (Js.prop o "cocoaPodsVer"))
                           (Js.isNullish (Js.prop o "xcodeVer")))
       st st'.
Proof.
  intros Hc Hrun. unfold SysInfo.getSysInfo in Hrun.
  rewrite getValueForProperty_eq, Hc in Hrun.
  destruct (Js.isNullish (Js.prop (fields st) "sysInfoCache")).
  2: { apply (f_equal snd) in Hrun. cbn [snd] in Hrun. subst st'. apply step_refl. }
  match type of Hrun with
  | (match ?s st with _ => _ end) = _ => destruct (s st) as [[r|e] s0] eqn:H
  end; [|discriminate].
  assert (r = JObj o) by congruence. subst r.
  apply (f_equal snd) in Hrun. cbn [snd] in Hrun. subst st'.
  apply step_store; [|cbn; tauto].
  peel H v1 s1 R1. peel H v2 s2 R2. peel H v3 s3 R3. peel H v4 s4 R4.
  peel H v5 s5 R5. peel H v6 s6 R6. peel H v7 s7 R7. peel H v8 s8 R8.
  peel H v9 s9 R9. peel H v10 s10 R10. peel H v11 s11 R11. peel H v12 s12 R12.
  peel H v13 s13 R13. peel H v14 s14 R14. peel H v15 s15 R15. peel H v16 s16 R16.
  peel H v17 s17 R17. peel H v18 s18 R18. peel H v19 s19 R19.
  pose proof (f_equal snd H) as Hs. cbn [snd ret] in Hs. subst s0.
  apply ret_inv in H.
  apply (f_equal (fun v => match v with JObj m => m | _ => ∅ end)) in H.
  assert (HoX : Js.prop o "xcodeVer" = v8).
  { subst o. unfold Js.prop.
    repeat (rewrite lookup_insert_ne by discriminate). now rewrite lookup_insert_eq. }
  assert (HoP : Js.prop o "cocoaPodsVer" = v11).
  { subst o. unfold Js.prop.
    repeat (rewrite lookup_insert_ne by discriminate). now rewrite lookup_insert_eq. }
  rewrite HoX, HoP. clear H HoX HoP o.
  pose proof (probes_run _ _ _ _ _ _ probes_getOs R1) as T1.
  pose proof (probes_run _ _ _ _ _ _ probes_getNodeVersion R2) as T2.
  pose proof (probes_run _ _ _ _ _ _ probes_getNpmVersion R3) as T3.
  pose proof (probes_run _ _ _ _ _ _ probes_getNodeGypVersion R4) as T4.
  pose proof (probes_run _ _ _ _ _ _ probes_dotNetVersion R5) as T5.
  pose proof (probes_run _ _ _ _ _ _ probes_getJavaVersion R6) as T6.
  pose proof (probes_run _ _ _ _ _ _ probes_getJavaCompilerVersion R7) as T7.
  pose proof (probes_run _ _ _ _ _ _ probes_getXcodeVersion R8) as T8.
  pose proof (probes_run _ _ _ _ _ _ probes_getXcodeprojGemLocation R9) as T9.
  pose proof (probes_run _ _ _ _ _ _ probes_isITunesInstalled R10) as T10.
  pose proof (probes_run _ _ _ _ _ _ probes_getCocoaPodsVersion R11) as T11.
  pose proof (probes_run _ _ _ _ _ _ probes_getAdbVersion R12) as T12.
  pose proof (probes_run _ _ _ _ _ _ probes_isAndroidInstalled R13) as T13.
  pose proof (probes_run _ _ _ _ _ _ probes_getMonoVersion R14) as T14.
  pose proof (probes_run _ _ _ _ _ _ probes_getGitVersion R15) as T15.
  pose proof (probes_run _ _ _ _ _ _ probes_getGradleVersion R16) as T16.
  pose proof (probes_run _ _ _ _ _ _ probes_isCocoaPodsWorkingCorrectly R17) as T17.
  pose proof (probes_run _ _ _ _ _ _ probes_getNativeScriptCliVersion R18) as T18.
  (* up to the first call of getXcodeVersion, then up to that of
     getCocoaPodsVersion, then up to isCocoaPodsUpdateRequired *)
  pose proof (step_app _ _ _ _ _ _ _ T1 (step_app _ _ _ _ _ _ _ T2 (step_app _ _ _ _ _ _ _ T3
    (step_app _ _ _ _ _ _ _ T4 (step_app _ _ _ _ _ _ _ T5 (step_app _ _ _ _ _ _ _ T6 T7)))))) as Ta.
  pose proof (step_app _ _ _ _ _ _ _ T9 T10) as Tb.
  pose proof (step_app _ _ _ _ _ _ _ T12 (step_app _ _ _ _ _ _ _ T13 (step_app _ _ _ _ _ _ _ T14
    (step_app _ _ _ _ _ _ _ T15 (step_app _ _ _ _ _ _ _ T16 (step_app _ _ _ _ _ _ _ T17 T18)))))) as Tc.
  assert (Hc7 : shouldCache s7 = true) by (rewrite (proj1 Ta); exact Hc).
  destruct (accessor_after "xCodeVerCache" _ _ _ _ ltac:(cbn; tauto) Hc7 R8) as (Hc8 & HX).
  assert (Hc10 : shouldCache s10 = true) by (rewrite (proj1 Tb); exact Hc8).
  destruct (accessor_after "cocoaPodsVerCache" _ _ _ _ ltac:(cbn; tauto) Hc10 R11) as (Hc11 & HP).
  assert (Hc18 : shouldCache s18 = true) by (rewrite (proj1 Tc); exact Hc11).
  pose proof (isCocoaPodsUpdateRequired_step s18 Hc18) as T19.
  rewrite R19 in T19. cbn [snd] in T19.
  assert (FP : Js.prop (fields s18) "cocoaPodsVerCache" = v11).
  { rewrite <- HP. unfold Js.prop. f_equal. apply (proj1 (proj2 Tc)). notin. }
  assert (FX : Js.prop (fields s18) "xCodeVerCache" = v8).
  { rewrite <- HX. unfold Js.prop. f_equal.
    rewrite (proj1 (proj2 Tc)) by notin.
    rewrite (proj1 (proj2 T11)) by notin.
    apply (proj1 (proj2 Tb)). notin. }
  rewrite FP, FX in T19.
  pose proof (step_app _ _ _ _ _ _ _ Ta (step_app _ _ _ _ _ _ _ T8 (step_app _ _ _ _ _ _ _ Tb
    (step_app _ _ _ _ _ _ _ T11 (step_app _ _ _ _ _ _ _ Tc T19))))) as T.
  eapply step_weaken; [exact T | | reflexivity].
  intros k Hk. cbn in Hk |- *. tauto.
Qed.

End SnapshotTrace.

Ltac distinct :=
  repeat match goal with
         | |- NoDup [] => apply NoDup_nil_2
         | |- NoDup (_ :: _) => apply NoDup_cons_2
         | |- _ ∉ [] => apply not_elem_of_nil
         | |- _ ∉ _ :: _ => apply not_elem_of_cons; split
         | |- _ ≠ _ => discriminate
         end.

(** With both versions present no command occurs twice. *)
Lemma snapshotCommands_distinct E : NoDup (snapshotCommands E false false).
Proof.
  unfold snapshotCommands, androidCommand, javacCommand.
  cbv zeta. set (javac := match env_JAVA_HOME E with Some _ => _ | None => _ end).
  destruct (isWindows E); cbn; distinct.
Qed.

Lemma commands_distinct E st o st' :
  shouldCache st = true ->
  SysInfo.getSysInfo E st = (Ok (JObj o), st') ->
  Js.isNullish (Js.prop o "cocoaPodsVer") = false ->
  Js.isNullish (Js.prop o "xcodeVer") = false ->
  exists trace, log st' = log st ++ trace /\ NoDup (commands trace).
Proof.
  intros Hc Hr Hp Hx.
  destruct (getSysInfo_step E st o st' Hc Hr) as (_ & _ & l & Hl & Hs).
  rewrite Hp, Hx in Hs. exists l. split; [exact Hl|].
  eapply sublist_NoDup; [apply snapshotCommands_distinct | exact Hs].
Qed.

Lemma keeps_flag {A} (m : M A) s r s' :
  keeps m -> m s = (r, s') -> shouldCache s' = shouldCache s.
Proof. intros Hk Hr. destruct (Hk s) as (H & _). now rewrite Hr in H. Qed.

Section Evaluation.
Variable E : Env.

(** After a snapshot has been built with caching enabled, the slot of the
    functional check holds the value recorded in the snapshot. *)
Lemma getSysInfo_functional_check_slot st o st' :
  shouldCache st = true ->
  Js.isNullish (Js.prop (fields st) "sysInfoCache") = true ->
  SysInfo.getSysInfo E st = (Ok (JObj o), st') ->
  shouldCache st' = true /\
  Js.prop (fields st') "isCocoaPodsWorkingCorrectlyCache"
  = Js.prop o "isCocoaPodsWorkingCorrectly".
Proof.
  intros Hc Hfresh Hrun.
  pose proof (keeps_getSysInfo E st) as (Hkeep & _). rewrite Hrun in Hkeep. cbn [snd] in Hkeep.
  split; [cbn in Hkeep; congruence|]. clear Hkeep.
  unfold SysInfo.getSysInfo in Hrun.
  rewrite getValueForProperty_eq, Hc, Hfresh in Hrun.
  match type of Hrun with
  | (match ?s st with _ => _ end) = _ => destruct (s st) as [[r|e] s0] eqn:H
  end; [|discriminate].
  assert (r = JObj o) by congruence. subst r.
  apply (f_equal snd) in Hrun. cbn [snd] in Hrun. subst st'.
  assert (Hstore : Js.prop (fields (store "sysInfoCache" (JObj o) s0))
                     "isCocoaPodsWorkingCorrectlyCache"
                   = Js.prop (fields s0) "isCocoaPodsWorkingCorrectlyCache").
  { unfold Js.prop, store. cbn [fields]. now rewrite lookup_insert_ne by discriminate. }
  rewrite Hstore. clear Hstore.
  peel H v1 s1 R1. peel H v2 s2 R2. peel H v3 s3 R3. peel H v4 s4 R4.
  peel H v5 s5 R5. peel H v6 s6 R6. peel H v7 s7 R7. peel H v8 s8 R8.
  peel H v9 s9 R9. peel H v10 s10 R10. peel H v11 s11 R11. peel H v12 s12 R12.
  peel H v13 s13 R13. peel H v14 s14 R14. peel H v15 s15 R15. peel H v16 s16 R16.
  peel H v17 s17 R17. peel H v18 s18 R18. peel H v19 s19 R19.
  pose proof (f_equal snd H) as Hs. cbn [snd ret] in Hs. subst s0.
  apply ret_inv in H.
  apply (f_equal (fun v => match v with JObj m => m | _ => ∅ end)) in H.
  assert (HoW : Js.prop o "isCocoaPodsWorkingCorrectly" = v17).
  { subst o. unfold Js.prop.
    repeat (rewrite lookup_insert_ne by discriminate). now rewrite lookup_insert_eq. }
  rewrite HoW. clear H HoW o.
  assert (Hc16 : shouldCache s16 = true).
  { rewrite (keeps_flag _ _ _ _ (keeps_getGradleVersion E) R16),
      (keeps_flag _ _ _ _ (keeps_getGitVersion E) R15),
      (keeps_flag _ _ _ _ (keeps_getMonoVersion E) R14),
      (keeps_flag _ _ _ _ (keeps_isAndroidInstalled E) R13),
      (keeps_flag _ _ _ _ (keeps_getAdbVersion E) R12),
      (keeps_flag _ _ _ _ (keeps_getCocoaPodsVersion E) R11),
      (keeps_flag _ _ _ _ (keeps_isITunesInstalled E) R10),
      (keeps_flag _ _ _ _ (keeps_getXcodeprojGemLocation E) R9),
      (keeps_flag _ _ _ _ (keeps_getXcodeVersion E) R8),
      (keeps_flag _ _ _ _ (keeps_getJavaCompilerVersion E) R7),
      (keeps_flag _ _ _ _ (keeps_getJavaVersion E) R6),
      (keeps_flag _ _ _ _ (keeps_dotNetVersion E) R5),
      (keeps_flag _ _ _ _ (keeps_getNodeGypVersion E) R4),
      (keeps_flag _ _ _ _ (keeps_getNpmVersion E) R3),
      (keeps_flag _ _ _ _ (keeps_getNodeVersion E) R2),
      (keeps_flag _ _ _ _ (keeps_getOs E) R1).
    exact Hc. }
  destruct (accessor_after E "isCocoaPodsWorkingCorrectlyCache" _ _ _ _
              ltac:(cbn; tauto) Hc16 R17) as (Hc17 & HW).
  pose proof (probes_run _ _ _ _ _ _ (probes_getNativeScriptCliVersion E) R18) as T18.
  assert (Hc18 : shouldCache s18 = true) by (rewrite (proj1 T18); exact Hc17).
  pose proof (isCocoaPodsUpdateRequired_step E s18 Hc18) as T19.
  rewrite R19 in T19. cbn [snd] in T19.
  rewrite <- HW. unfold Js.prop. f_equal.
  rewrite (proj1 (proj2 T19)) by notin.
  apply (proj1 (proj2 T18)). notin.
Qed.

(** One evaluation of [getWarnings] that builds the snapshot, with caching
    enabled. *)
Lemma getWarnings_evaluation st snapshot st1 :
  shouldCache st = true ->
  Js.isNullish (Js.prop (fields st) "sysInfoCache") = true ->
  SysInfo.getSysInfo E st = (Ok (JObj snapshot), st1) ->
  (Js.isNullish (Js.prop snapshot "isCocoaPodsWorkingCorrectly") = false ->
   SysInfo.isCocoaPodsWorkingCorrectly E st1
   = (Ok (Js.prop snapshot "isCocoaPodsWorkingCorrectly"), st1) /\
   snd (Doctor.getWarnings E st) = st1) /\
  exists trace,
    log (snd (Doctor.getWarnings E st)) = log st ++ trace /\
    sublist (commands trace)
      (evaluationCommands E
         (Js.isNullish (Js.prop snapshot "cocoaPodsVer"))
         (Js.isNullish (Js.prop snapshot "xcodeVer"))
         (Js.isNullish (Js.prop snapshot "isCocoaPodsWorkingCorrectly"))).
Proof.
  intros Hc Hfresh Hrun.
  destruct (getSysInfo_functional_check_slot st snapshot st1 Hc Hfresh Hrun) as (Hc1 & Hslot).
  destruct (getSysInfo_step E st snapshot st1 Hc Hrun) as (_ & _ & l1 & Hl1 & Hs1).
  assert (Hw : Doctor.getWarnings E st = Doctor.getWarningsFrom E snapshot st1).
  { unfold Doctor.getWarnings, bind. now rewrite Hrun. }
  rewrite Hw.
  assert (Hhit : Js.isNullish (Js.prop snapshot "isCocoaPodsWorkingCorrectly") = false ->
                 SysInfo.isCocoaPodsWorkingCorrectly E st1
                 = (Ok (Js.prop snapshot "isCocoaPodsWorkingCorrectly"), st1)).
  { intros Hp. rewrite <- Hslot. unfold SysInfo.isCocoaPodsWorkingCorrectly.
    apply getValueForProperty_hit; [exact Hc1 | now rewrite Hslot]. }
  unfold evaluationCommands.
  destruct (getWarningsFrom_state E snapshot st1) as [Hsame|(_ & _ & _ & Hcheck)].
  - rewrite Hsame. split; [auto|].
    exists l1. split; [exact Hl1|]. now apply sublist_inserts_r.
  - rewrite Hcheck.
    destruct (Js.isNullish (Js.prop snapshot "isCocoaPodsWorkingCorrectly")) eqn:Hp.
    + split; [discriminate|].
      destruct (probes_isCocoaPodsWorkingCorrectly E st1) as (_ & _ & l2 & Hl2 & Hs2).
      exists (l1 ++ l2). split.
      * rewrite Hl2, Hl1. now rewrite app_assoc.
      * unfold commands in *. rewrite omap_app. now apply sublist_app.
    + rewrite (Hhit eq_refl). cbn [snd]. split; [auto|].
      exists l1. split; [exact Hl1|]. now apply sublist_inserts_r.
Qed.

End Evaluation.

(** Without the commands of the probes whose result is absent, no command
    occurs twice among those of an evaluation. *)
Lemma evaluationCommands_distinct E absentPods absentXcode absentCheck :
  NoDup (List.filter
           (fun c => negb (existsb (String.eqb c)
                             (absentCommands absentPods absentXcode absentCheck)))
           (evaluationCommands E absentPods absentXcode absentCheck)).
Proof.
  unfold evaluationCommands, snapshotCommands, xcprojCommands, absentCommands,
    androidCommand, javacCommand.
  cbv zeta. generalize (match env_JAVA_HOME E with
                        | Some javaHome =>
                            if Str.isEmpty javaHome then "javac"
                            else path_join E [javaHome; "bin"; "javac"]
                        | None => "javac"
                        end).
  intros javac.
  destruct (isWindows E), absentPods, absentXcode, absentCheck; vm_compute; distinct.
Qed.



(** ** Disabling the cache *)

(** C9 as stated fails for the SDK data: it is computed and stored, caching
    is disabled, the SDK disappears from the disk, and the next
    [getToolsInfo] still returns the stored data without reading anything;
    computing it afresh would give absent components. *)
Lemma stored_tools_info_ignores_cache_flag :
  let E := Hosts.sdk25Removed in
  let first := AndroidToolsInfo.getToolsInfo E initialState in
  let disabled := snd (SysInfo.setShouldCacheSysInfo false (snd first)) in
  let second := AndroidToolsInfo.getToolsInfo E disabled in
  shouldCache disabled = false /\
  fst first = Ok {| androidHomeEnvVar := Some "/sdk"; compileSdkVersion := Some 25%Z;
                    buildToolsVersion := Some "25.0.2";
                    supportRepositoryVersion := Some "25.1.0" |} /\
  fst second = fst first /\
  log (snd second) = log (snd first) /\
  fst (AndroidToolsInfo.computeToolsInfo E disabled)
    = Ok {| androidHomeEnvVar := Some "/sdk"; compileSdkVersion := None;
            buildToolsVersion := None; supportRepositoryVersion := None |}.
Proof. vm_compute. repeat split; reflexivity. Qed.

Lemma getToolsInfo_stored E st d :
  toolsInfo st = Some d -> AndroidToolsInfo.getToolsInfo E st = (Ok d, st).
Proof. intros H. unfold AndroidToolsInfo.getToolsInfo. now rewrite H. Qed.

Lemma getToolsInfo_first E st :
  toolsInfo st = None ->
  AndroidToolsInfo.getToolsInfo E st =
  match AndroidToolsInfo.computeToolsInfo E st with
  | (Ok d, st') => (Ok d, storeToolsInfo d st')
  | (Throw e, st') => (Throw e, st')
  end.
Proof.
  intros H. unfold AndroidToolsInfo.getToolsInfo. rewrite H. unfold bind.
  destruct (AndroidToolsInfo.computeToolsInfo E st) as [[d|e] st']; reflexivity.
Qed.

(** *** Stored results are kept *)

Lemma retains_ret {A} (a : A) : retains (ret a).
Proof. intros st k _. reflexivity. Qed.

Lemma retains_throw {A} e : retains (@throw A e).
Proof. intros st k _. reflexivity. Qed.

Lemma retains_liftRes {A} (r : Res A) : retains (liftRes r).
Proof. intros st k _. reflexivity. Qed.

Lemma retains_perform {A} c (reply : nat -> Res A) : retains (perform c reply).
Proof. intros st k _. reflexivity. Qed.

Lemma retains_monoVerRegExpExec output : retains (SysInfo.monoVerRegExpExec output).
Proof.
  intros st k _. unfold SysInfo.monoVerRegExpExec.
  destruct (Re.monoVerRegExp_exec _ _). reflexivity.
Qed.

Lemma retains_bind {A B} (m : M A) (k : A -> M B) :
  retains m -> (forall a, retains (k a)) -> retains (bind m k).
Proof.
  intros Hm Hk st x Hx. specialize (Hm st x Hx). unfold bind.
  destruct (m st) as [[a|e] st1]; cbn [snd] in *; [|exact Hm].
  rewrite (Hk a st1 x) by (now rewrite Hm). exact Hm.
Qed.

Lemma retains_tryCatch {A} (m : M A) (h : JsError -> M A) :
  retains m -> (forall e, retains (h e)) -> retains (tryCatch m h).
Proof.
  intros Hm Hh st x Hx. specialize (Hm st x Hx). unfold tryCatch.
  destruct (m st) as [[a|e] st1]; cbn [snd] in *; [exact Hm|].
  rewrite (Hh e st1 x) by (now rewrite Hm). exact Hm.
Qed.

(** [getValueForProperty] writes only a property that read as not
    computed. *)
Lemma retains_getValueForProperty property (strategy : M JsVal) :
  retains strategy -> retains (SysInfo.getValueForProperty property strategy).
Proof.
  intros Hs st x Hx. rewrite getValueForProperty_eq. specialize (Hs st x Hx).
  destruct (shouldCache st); [|exact Hs].
  destruct (Js.isNullish (Js.prop (fields st) property)) eqn:Hp; [|reflexivity].
  destruct (strategy st) as [[r|e] st1]; cbn [snd] in *; [|exact Hs].
  rewrite <- Hs. unfold Js.prop, store. cbn [fields].
  rewrite lookup_insert_ne; [reflexivity|]. intros ->. congruence.
Qed.

Ltac head_of t := lazymatch t with ?f _ => head_of f | _ => t end.

(* Follows the structure of the computation and unfolds the functions of
   the program it meets. *)
Ltac retains_tac :=
  cbv beta zeta;
  lazymatch goal with
  | |- retains (ret _) => apply retains_ret
  | |- retains (throw _) => apply retains_throw
  | |- retains (liftRes _) => apply retains_liftRes
  | |- retains (perform _ _) => apply retains_perform
  | |- retains (SysInfo.monoVerRegExpExec _) => apply retains_monoVerRegExpExec
  | |- retains (bind _ _) => apply retains_bind; [retains_tac | intros; retains_tac]
  | |- retains (tryCatch _ _) => apply retains_tryCatch; [retains_tac | intros; retains_tac]
  | |- retains (SysInfo.getValueForProperty _ _) =>
      apply retains_getValueForProperty; retains_tac
  | |- retains (if ?b then _ else _) => destruct b; retains_tac
  | |- retains (match ?x with _ => _ end) => destruct x; retains_tac
  | |- retains ?m => let h := head_of m in unfold h; retains_tac
  end.

Lemma retains_accessors E name a : In (name, a) (SysInfo.accessors E) -> retains a.
Proof.
  unfold SysInfo.accessors. cbn [In].
  intros H. repeat (destruct H as [H|H]; [injection H as _ <-; solve [retains_tac] | ]).
  contradiction.
Qed.

Lemma keeps_getMatchingDir E pathToDir range :
  keeps (AndroidToolsInfo.getMatchingDir E pathToDir range).
Proof.
  unfold AndroidToolsInfo.getMatchingDir, fsExists, readDirectory. keeps_tac.
Qed.

Lemma keeps_getCompileSdk E : keeps (AndroidToolsInfo.getCompileSdk E).
Proof.
  unfold AndroidToolsInfo.getCompileSdk, AndroidToolsInfo.getLatestValidAndroidTarget,
    AndroidToolsInfo.getInstalledTargets, fsExists, readDirectory.
  keeps_tac.
Qed.

Lemma keeps_computeToolsInfo E : keeps (AndroidToolsInfo.computeToolsInfo E).
Proof.
  pose proof (keeps_getCompileSdk E). pose proof (keeps_getMatchingDir E).
  unfold AndroidToolsInfo.computeToolsInfo, AndroidToolsInfo.getBuildToolsVersion,
    AndroidToolsInfo.getAndroidSupportRepositoryVersion, AndroidToolsInfo.getAppCompatRange.
  keeps_tac.
Qed.

Lemma retains_computeToolsInfo E : retains (AndroidToolsInfo.computeToolsInfo E).
Proof. retains_tac. Qed.

(** [getToolsInfo] leaves the caching flag and the stored probe results
    alone. *)
Lemma getToolsInfo_state E st :
  shouldCache (snd (AndroidToolsInfo.getToolsInfo E st)) = shouldCache st /\
  forall k, Js.isNullish (Js.prop (fields st) k) = false ->
            Js.prop (fields (snd (AndroidToolsInfo.getToolsInfo E st))) k
            = Js.prop (fields st) k.
Proof.
  destruct (keeps_computeToolsInfo E st) as (Hc & _).
  pose proof (retains_computeToolsInfo E st) as Hr.
  unfold AndroidToolsInfo.getToolsInfo.
  destruct (toolsInfo st); [auto|]. unfold bind.
  destruct (AndroidToolsInfo.computeToolsInfo E st) as [[d|e] st1]; cbn [snd] in *; auto.
Qed.

Lemma retains_getSysInfo E : retains (SysInfo.getSysInfo E).
Proof. retains_tac. Qed.

Lemma retains_getWarnings E : retains (Doctor.getWarnings E).
Proof. retains_tac. Qed.

Lemma keeps_getWarnings E : keeps (Doctor.getWarnings E).
Proof.
  pose proof (keeps_getSysInfo E). pose proof (keeps_isCocoaPodsWorkingCorrectly E).
  unfold Doctor.getWarnings, Doctor.getWarningsFrom. keeps_tac.
Qed.

Section Accesses.
Variable E : Env.

Lemma access_state st a k :
  isAccess E a ->
  Js.isNullish (Js.prop (fields st) k) = false ->
  Js.prop (fields (access E st a)) k = Js.prop (fields st) k.
Proof.
  destruct a as [name accessor| | | |b]; cbn [isAccess access]; intros Ha Hk.
  - now apply (retains_accessors E name accessor Ha).
  - now apply retains_getSysInfo.
  - now apply retains_getWarnings.
  - now apply getToolsInfo_state.
  - reflexivity.
Qed.

Lemma access_toolsInfo st a d :
  isAccess E a -> toolsInfo st = Some d -> toolsInfo (access E st a) = Some d.
Proof.
  destruct a as [name accessor| | | |b]; cbn [isAccess access]; intros Ha Hd.
  - destruct (keeps_accessors E name accessor Ha st) as (_ & Ht & _). congruence.
  - destruct (keeps_getSysInfo E st) as (_ & Ht & _). congruence.
  - destruct (keeps_getWarnings E st) as (_ & Ht & _). congruence.
  - now rewrite (getToolsInfo_stored E st d Hd).
  - exact Hd.
Qed.

(** No series of accesses changes a stored result or the stored tools
    data. *)
Lemma afterAll_state later st k :
  Forall (isAccess E) later ->
  Js.isNullish (Js.prop (fields st) k) = false ->
  Js.prop (fields (afterAll E later st)) k = Js.prop (fields st) k.
Proof.
  intros Hl. revert st. induction Hl as [|a later Ha Hl IH]; intros st Hk; [reflexivity|].
  cbn [afterAll fold_left]. fold (afterAll E later (access E st a)).
  pose proof (access_state st a k Ha Hk) as H1.
  rewrite IH by (now rewrite H1). exact H1.
Qed.

Lemma afterAll_toolsInfo later st d :
  Forall (isAccess E) later ->
  toolsInfo st = Some d -> toolsInfo (afterAll E later st) = Some d.
Proof.
  intros Hl. revert st. induction Hl as [|a later Ha Hl IH]; intros st Hd; [exact Hd|].
  cbn [afterAll fold_left]. fold (afterAll E later (access E st a)).
  apply IH. now apply access_toolsInfo.
Qed.

(** C9, corrected. With caching disabled every probe accessor runs its
    strategy and the cache properties stay as they were.  The SDK data does
    not depend on the flag: it is computed and stored on the first access
    and the stored data is returned afterwards, whatever the flag is set to
    and whatever is called in between.  With caching enabled a stored probe
    result other than [null] and [undefined] is returned as it is and the
    state does not change; no later series of calls of the probe accessors,
    [getSysInfo], [getWarnings], [getToolsInfo] and [setShouldCacheSysInfo]
    changes or removes it, so that an accessor called after them with
    caching enabled still returns it. *)
Theorem cache_disabling st :
  (forall name accessor,
     In (name, accessor) (SysInfo.accessors E) ->
     shouldCache st = false ->
     fields (snd (accessor st)) = fields st /\
     forall strategy, SysInfo.getValueForProperty name strategy st = strategy st) /\
  (forall d flag,
     toolsInfo st = Some d ->
     AndroidToolsInfo.getToolsInfo E (snd (SysInfo.setShouldCacheSysInfo flag st))
       = (Ok d, snd (SysInfo.setShouldCacheSysInfo flag st))) /\
  (toolsInfo st = None ->
   AndroidToolsInfo.getToolsInfo E st =
   match AndroidToolsInfo.computeToolsInfo E st with
   | (Ok d, st') => (Ok d, storeToolsInfo d st')
   | (Throw e, st') => (Throw e, st')
   end) /\
  (forall name accessor,
     In (name, accessor) (SysInfo.accessors E) ->
     shouldCache st = true ->
     Js.isNullish (Js.prop (fields st) name) = false ->
     accessor st = (Ok (Js.prop (fields st) name), st)) /\
  (forall d later,
     toolsInfo st = Some d ->
     Forall (isAccess E) later ->
     AndroidToolsInfo.getToolsInfo E (afterAll E later st) = (Ok d, afterAll E later st)) /\
  (forall name accessor later,
     In (name, accessor) (SysInfo.accessors E) ->
     Js.isNullish (Js.prop (fields st) name) = false ->
     Forall (isAccess E) later ->
     shouldCache (afterAll E later st) = true ->
     accessor (afterAll E later st) = (Ok (Js.prop (fields st) name), afterAll E later st)).
Proof.
  split; [|split; [|split; [|split; [|split]]]].
  - intros name accessor Hin Hc.
    destruct (accessor_shape E name accessor Hin) as (strategy & -> & Hk).
    split.
    + rewrite getValueForProperty_disabled by exact Hc.
      destruct (Hk st) as (_ & _ & H & _). auto.
    + intros again. now apply getValueForProperty_disabled.
  - intros d flag H. apply getToolsInfo_stored. exact H.
  - apply getToolsInfo_first.
  - intros name accessor Hin Hc Hn.
    destruct (accessor_shape E name accessor Hin) as (strategy & -> & Hk).
    now apply getValueForProperty_hit.
  - intros d later Hd Hl. apply getToolsInfo_stored. now apply afterAll_toolsInfo.
  - intros name accessor later Hin Hn Hl Hc.
    destruct (accessor_shape E name accessor Hin) as (strategy & -> & Hk).
    rewrite <- (afterAll_state later st name Hl Hn).
    apply getValueForProperty_hit; [exact Hc|].
    now rewrite (afterAll_state later st name Hl Hn).
Qed.

End Accesses.

Lemma cache_disabling_witness :
  (let E := Hosts.javaInstalled in
   let st := snd (SysInfo.setShouldCacheSysInfo false
                    (snd (SysInfo.getJavaVersion E initialState))) in
   fields (snd (SysInfo.getJavaVersion E st)) = fields st /\
   forall strategy, SysInfo.getValueForProperty "javaVerCache" strategy st = strategy st) /\
  (let E := Hosts.javaInstalled in
   let st := snd (SysInfo.getJavaVersion E initialState) in
   let later := [CallProbe "gitVerCache" (SysInfo.getGitVersion E);
                 SetShouldCache false;
                 CallProbe "javaVerCache" (SysInfo.getJavaVersion E);
                 CallGetToolsInfo;
                 CallGetWarnings;
                 SetShouldCache true] in
   SysInfo.getJavaVersion E (afterAll E later st) = (Ok (JStr "1.8.0"), afterAll E later st)).
Proof.
  split.
  - intros E st.
    refine (proj1 (cache_disabling E st) "javaVerCache" (SysInfo.getJavaVersion E) _ _).
    + cbn. auto.
    + reflexivity.
  - intros E st later.
    refine (proj2 (proj2 (proj2 (proj2 (proj2 (cache_disabling E st)))))
              "javaVerCache" (SysInfo.getJavaVersion E) later _ _ _ _).
    + cbn. auto.
    + reflexivity.
    + subst later. repeat (constructor; [cbn; auto 30|]). constructor.
    + reflexivity.
Defined.

(** With caching disabled the stored Java version is not used: the command
    runs again on every call. *)
Example java_probe_with_cache_disabled :
  let E := Hosts.javaInstalled in
  let st := snd (SysInfo.setShouldCacheSysInfo false
                   (snd (SysInfo.getJavaVersion E initialState))) in
  log (snd (SysInfo.getJavaVersion E (snd (SysInfo.getJavaVersion E st))))
  = [CSpawn "java" ["-version"] "exit" noOptions;
     CSpawn "java" ["-version"] "exit" noOptions;
     CSpawn "java" ["-version"] "exit" noOptions].
Proof. vm_compute. reflexivity. Qed.

(** * Further properties *)

(** ** Paths of the SDK tools *)

Lemma stripPrefix_app p t : Str.stripPrefix p (p ++ t) = Some t.
Proof.
  induction p as [|c p IH].
  - reflexivity.
  - change (String c p ++ t)%string with (String c (p ++ t)).
    cbn [Str.stripPrefix]. now rewrite Ascii.eqb_refl.
Qed.

Lemma replaceFirst_prefix p repl t : Str.replaceFirst p repl (p ++ t) = (repl ++ t)%string.
Proof.
  destruct p as [|c p].
  - cbn. destruct t; reflexivity.
  - change (String c p ++ t)%string with (String c (p ++ t)). cbn [Str.replaceFirst].
    change (String c (p ++ t)) with (String c p ++ t)%string. now rewrite stripPrefix_app.
Qed.

Section SdkTools.
Variable E : Env.
Variable ANDROID_PLATFORM_NAME : string.

Lemma absorbs_validateAndroidHome :
  absorbs (AndroidToolsInfo.validateAndroidHomeEnvVariable E ANDROID_PLATFORM_NAME).
Proof.
  intros st. unfold AndroidToolsInfo.validateAndroidHomeEnvVariable.
  destruct (AndroidToolsInfo.androidHomeSet E) as [home|]; [|eexists _, _; reflexivity].
  unfold bind at 1. unfold fsExists at 1, perform at 1.
  destruct (negb _); [eexists _, _; reflexivity|].
  match goal with
  | |- context [bind (AndroidToolsInfo.mapM _ ?l) _ ?s] =>
      destruct (mapM_fsExists_ok E (fun dir => Some (path_join E [home; dir])) l s)
        as (found & st' & Hm & Hl)
  end.
  unfold bind. rewrite Hm. destruct (_ =? _)%nat; eexists _, _; reflexivity.
Qed.

Lemma validateAndroidHome_unset_state st :
  env_ANDROID_HOME E = None ->
  AndroidToolsInfo.validateAndroidHomeEnvVariable E ANDROID_PLATFORM_NAME st
  = (Ok [AndroidToolsInfo.androidHomeNotSetWarning ANDROID_PLATFORM_NAME], st).
Proof.
  intros H. unfold AndroidToolsInfo.validateAndroidHomeEnvVariable,
    AndroidToolsInfo.androidHomeSet, AndroidToolsInfo.androidHome.
  now rewrite H.
Qed.

(** With [ANDROID_HOME] unset the validity check returns a list with one
    warning; a list is truthy, so the paths of the tools are built from
    [undefined], and [path.join] throws. *)
Lemma sdk_tool_path_unset st :
  env_ANDROID_HOME E = None ->
  exists msg,
    AndroidToolsInfo.getPathToSdkManagementTool E ANDROID_PLATFORM_NAME st
    = (Throw (TypeError msg), st).
Proof.
  intros H. unfold AndroidToolsInfo.getPathToSdkManagementTool.
  rewrite (bind_ok _ _ _ _ _ (validateAndroidHome_unset_state st H)).
  cbn [AndroidToolsInfo.arrayTruthy].
  unfold AndroidToolsInfo.androidHome. rewrite H.
  eexists. reflexivity.
Qed.

Lemma computeToolsInfo_unset st :
  env_ANDROID_HOME E = None ->
  AndroidToolsInfo.computeToolsInfo E st
  = (Ok {| androidHomeEnvVar := None; compileSdkVersion := None;
           buildToolsVersion := None; supportRepositoryVersion := None |}, st).
Proof.
  intros H.
  unfold AndroidToolsInfo.computeToolsInfo, AndroidToolsInfo.getAndroidSupportRepositoryVersion,
    AndroidToolsInfo.getAppCompatRange, AndroidToolsInfo.getBuildToolsVersion,
    AndroidToolsInfo.getCompileSdk, AndroidToolsInfo.getLatestValidAndroidTarget,
    AndroidToolsInfo.getInstalledTargets, AndroidToolsInfo.androidHomeSet,
    AndroidToolsInfo.androidHome.
  rewrite H. reflexivity.
Qed.

(** On a machine without [ANDROID_HOME] the path of the SDK manager cannot
    be built: the validity check returns a list, which is truthy, and
    [path.join] throws on the absent root.  Hence [validateInfo] cannot
    report anything there: the first warning it builds asks for that path,
    and the error leaves [validateInfo]. *)
Theorem validateInfo_needs_android_home st :
  env_ANDROID_HOME E = None ->
  (exists msg,
     AndroidToolsInfo.getPathToSdkManagementTool E ANDROID_PLATFORM_NAME st
     = (Throw (TypeError msg), st)) /\
  (toolsInfo st = None ->
   exists msg st',
     AndroidToolsInfo.validateInfo E ANDROID_PLATFORM_NAME st = (Throw (TypeError msg), st')).
Proof.
  intros H. split; [now apply sdk_tool_path_unset|].
  intros Hnone. unfold AndroidToolsInfo.validateInfo.
  rewrite (bind_ok _ _ st _ _
             (eq_trans (getToolsInfo_first E st Hnone)
                       ltac:(rewrite (computeToolsInfo_unset st H); reflexivity))).
  rewrite (bind_ok _ _ _ _ _ (validateAndroidHome_unset_state _ H)).
  cbn [compileSdkVersion AndroidToolsInfo.numberTruthy negb].
  destruct (sdk_tool_path_unset
              (storeToolsInfo {| androidHomeEnvVar := None; compileSdkVersion := None;
                                 buildToolsVersion := None; supportRepositoryVersion := None |} st)
              H) as (msg & Hm).
  exists msg. eexists. unfold bind at 1. unfold bind at 1. rewrite Hm. reflexivity.
Qed.

(** With [ANDROID_HOME] set, and a host whose [path.join] puts the root in
    front, the tool is shown with the name of the variable in place of the
    root: [sdkmanager] when [tools/bin/sdkmanager] exists at that moment,
    the [android] tool otherwise.  Nothing is thrown. *)
Theorem sdk_tool_path_uses_placeholder home sdkmanager android st :
  env_ANDROID_HOME E = Some home ->
  path_join E [home; "tools"; "bin"; "sdkmanager"] = (home ++ sdkmanager)%string ->
  path_join E [home; "tools"; "android"] = (home ++ android)%string ->
  exists ws st1,
    AndroidToolsInfo.validateAndroidHomeEnvVariable E ANDROID_PLATFORM_NAME st = (Ok ws, st1) /\
    AndroidToolsInfo.getPathToSdkManagementTool E ANDROID_PLATFORM_NAME st =
    (Ok ((if isWindows E then "%ANDROID_HOME%" else "$ANDROID_HOME") ++
         (if fileSystem_exists E (length (log st1)) (Some (home ++ sdkmanager)%string)
          then sdkmanager else android))%string,
     snd (fsExists E (Some (home ++ sdkmanager)%string) st1)).
Proof.
  intros H Hs Ha.
  destruct (absorbs_validateAndroidHome st) as (ws & st1 & Hv).
  exists ws, st1. split; [exact Hv|].
  unfold AndroidToolsInfo.getPathToSdkManagementTool.
  rewrite (bind_ok _ _ _ _ _ Hv). cbn [AndroidToolsInfo.arrayTruthy].
  unfold AndroidToolsInfo.androidHome. rewrite H.
  unfold pathJoin. cbn [allStrings]. rewrite Hs, Ha.
  unfold liftRes, bind, fsExists, perform, ret. cbn [default].
  destruct (fileSystem_exists E _ _); now rewrite replaceFirst_prefix.
Qed.

Lemma range_bounds_of_build_tools :
  AndroidToolsInfo.getBuildToolsRangeText = ">=23 <=25" /\
  Re.RANGE_BOUNDS_REGEXP AndroidToolsInfo.getBuildToolsRangeText = Some ("23", "25").
Proof. split; vm_compute; reflexivity. Qed.

(** What [validateInfo] returns: one warning for each component of the
    tools data that is missing, in the order compile target, build tools,
    support repository; the build-tools message always quotes the range
    (its two bounds differ), and the sentence about [ANDROID_HOME] is never
    added, the validity result being a list.  So the list is empty exactly
    when the three components were found. *)
Theorem validateInfo_warnings st ws st' :
  AndroidToolsInfo.validateInfo E ANDROID_PLATFORM_NAME st = (Ok ws, st') ->
  exists d t1 t2 t3,
    fst (AndroidToolsInfo.getToolsInfo E st) = Ok d /\
    ws =
      (if AndroidToolsInfo.numberTruthy (compileSdkVersion d) then []
       else [AndroidToolsInfo.compileSdkWarning ANDROID_PLATFORM_NAME t1]) ++
      (if AndroidToolsInfo.stringTruthy (buildToolsVersion d) then []
       else [AndroidToolsInfo.buildToolsWarning ANDROID_PLATFORM_NAME
               "You can install any version in the following range: '>=23 <=25'."
               ("Run `$ " ++ t2 ++ "` from your command-line to install required `Android Build Tools`.")]) ++
      (if AndroidToolsInfo.stringTruthy (supportRepositoryVersion d) then []
       else [AndroidToolsInfo.supportRepositoryWarning ANDROID_PLATFORM_NAME
               ("Run `$ " ++ t3 ++ "` to manage the Android Support Repository.")]) /\
    (ws = [] <->
     AndroidToolsInfo.numberTruthy (compileSdkVersion d)
     && AndroidToolsInfo.stringTruthy (buildToolsVersion d)
     && AndroidToolsInfo.stringTruthy (supportRepositoryVersion d) = true).
Proof.
  intros Hrun. unfold AndroidToolsInfo.validateInfo in Hrun.
  apply bind_inv_ok in Hrun as (d & s1 & Hd & Hrun).
  apply bind_inv_ok in Hrun as (valid & s2 & Hv & Hrun).
  apply bind_inv_ok in Hrun as (e1 & s3 & H1 & Hrun).
  apply bind_inv_ok in Hrun as (e2 & s4 & H2 & Hrun).
  apply bind_inv_ok in Hrun as (e3 & s5 & H3 & Hrun).
  apply ret_inv in Hrun. subst ws.
  cbv zeta in H2, H3.
  destruct range_bounds_of_build_tools as (Hr & Hm). rewrite Hm, Hr in H2.
  cbn [AndroidToolsInfo.arrayTruthy negb] in H2, H3.
  assert (exists t1, e1 = if AndroidToolsInfo.numberTruthy (compileSdkVersion d) then []
                          else [AndroidToolsInfo.compileSdkWarning ANDROID_PLATFORM_NAME t1])
    as (t1 & ->).
  { destruct (AndroidToolsInfo.numberTruthy _); cbn [negb] in H1.
    - exists "". now apply ret_inv in H1.
    - apply bind_inv_ok in H1 as (t & s & _ & H1). exists t. now apply ret_inv in H1. }
  assert (exists t2, e2 = (if AndroidToolsInfo.numberTruthy (compileSdkVersion d) then []
                           else [AndroidToolsInfo.compileSdkWarning ANDROID_PLATFORM_NAME t1]) ++
                          if AndroidToolsInfo.stringTruthy (buildToolsVersion d) then []
                          else [AndroidToolsInfo.buildToolsWarning ANDROID_PLATFORM_NAME
               "You can install any version in the following range: '>=23 <=25'."
               ("Run `$ " ++ t2 ++ "` from your command-line to install required `Android Build Tools`.")])
    as (t2 & ->).
  { destruct (AndroidToolsInfo.stringTruthy (buildToolsVersion d)); cbn [negb] in H2.
    - exists "". apply ret_inv in H2. now rewrite app_nil_r.
    - apply bind_inv_ok in H2 as (t & s & _ & H2). exists t. now apply ret_inv in H2. }
  assert (exists t3, e3 = ((if AndroidToolsInfo.numberTruthy (compileSdkVersion d) then []
                           else [AndroidToolsInfo.compileSdkWarning ANDROID_PLATFORM_NAME t1]) ++
                          if AndroidToolsInfo.stringTruthy (buildToolsVersion d) then []
                          else [AndroidToolsInfo.buildToolsWarning ANDROID_PLATFORM_NAME
               "You can install any version in the following range: '>=23 <=25'."
               ("Run `$ " ++ t2 ++ "` from your command-line to install required `Android Build Tools`.")]) ++
                          if AndroidToolsInfo.stringTruthy (supportRepositoryVersion d) then []
                          else [AndroidToolsInfo.supportRepositoryWarning ANDROID_PLATFORM_NAME
               ("Run `$ " ++ t3 ++ "` to manage the Android Support Repository.")])
    as (t3 & ->).
  { destruct (AndroidToolsInfo.stringTruthy (supportRepositoryVersion d)); cbn [negb] in H3.
    - exists "". apply ret_inv in H3. now rewrite app_nil_r.
    - apply bind_inv_ok in H3 as (t & s & _ & H3). exists t. now apply ret_inv in H3. }
  exists d, t1, t2, t3. split; [now rewrite Hd|]. split.
  - now rewrite <- app_assoc.
  - destruct (AndroidToolsInfo.numberTruthy _), (AndroidToolsInfo.stringTruthy (buildToolsVersion d)),
      (AndroidToolsInfo.stringTruthy (supportRepositoryVersion d)); cbn; split; congruence.
Qed.

End SdkTools.

Lemma validateInfo_needs_android_home_witness :
  exists msg st',
    AndroidToolsInfo.validateInfo Hosts.bareLinux "Android" initialState
    = (Throw (TypeError msg), st').
Proof.
  apply (proj2 (validateInfo_needs_android_home Hosts.bareLinux "Android" initialState
                  eq_refl)).
  reflexivity.
Defined.

Lemma sdk_tool_path_uses_placeholder_witness :
  fst (AndroidToolsInfo.getPathToSdkManagementTool Hosts.emptySdkRoot "Android" initialState)
  = Ok "$ANDROID_HOME/tools/android".
Proof.
  destruct (sdk_tool_path_uses_placeholder Hosts.emptySdkRoot "Android" "/sdk"
              "/tools/bin/sdkmanager" "/tools/android" initialState
              eq_refl eq_refl eq_refl) as (ws & st1 & Hv & Ht).
  rewrite Ht. cbn [fst].
  assert (Hst : st1 = snd (AndroidToolsInfo.validateAndroidHomeEnvVariable
                             Hosts.emptySdkRoot "Android" initialState))
    by (rewrite Hv; reflexivity).
  rewrite Hst. vm_compute. reflexivity.
Defined.

Lemma validateInfo_warnings_witness :
  let run := AndroidToolsInfo.validateInfo Hosts.emptySdkRoot "Android" initialState in
  exists ws d t1 t2 t3,
    fst run = Ok ws /\
    fst (AndroidToolsInfo.getToolsInfo Hosts.emptySdkRoot initialState) = Ok d /\
    ws =
      (if AndroidToolsInfo.numberTruthy (compileSdkVersion d) then []
       else [AndroidToolsInfo.compileSdkWarning "Android" t1]) ++
      (if AndroidToolsInfo.stringTruthy (buildToolsVersion d) then []
       else [AndroidToolsInfo.buildToolsWarning "Android"
               "You can install any version in the following range: '>=23 <=25'."
               ("Run `$ " ++ t2 ++ "` from your command-line to install required `Android Build Tools`.")]) ++
      (if AndroidToolsInfo.stringTruthy (supportRepositoryVersion d) then []
       else [AndroidToolsInfo.supportRepositoryWarning "Android"
               ("Run `$ " ++ t3 ++ "` to manage the Android Support Repository.")]).
Proof.
  intros run.
  pose (ws := match fst run with Ok l => l | Throw _ => [] end).
  assert (Hrun : run = (Ok ws, snd run)) by (vm_compute; reflexivity).
  destruct (validateInfo_warnings Hosts.emptySdkRoot "Android" initialState ws (snd run) Hrun)
    as (d & t1 & t2 & t3 & Hd & Hw & _).
  exists ws, d, t1, t2, t3. split; [now rewrite Hrun|]. split; assumption.
Defined.

(** ** Version tokens *)

Lemma allChars_app p a b : allChars p (a ++ b) = allChars p a && allChars p b.
Proof.
  unfold allChars. induction a as [|c a IH].
  - reflexivity.
  - change (String c a ++ b)%string with (String c (a ++ b)).
    cbn [list_ascii_of_string forallb]. rewrite IH. now rewrite andb_assoc.
Qed.

Lemma takeWhile_spec p s a r :
  Str.takeWhile p s = (a, r) ->
  s = (a ++ r)%string /\ allChars p a = true /\
  match r with String c _ => p c = false | EmptyString => True end.
Proof.
  revert a r. induction s as [|c s IH]; intros a r; cbn [Str.takeWhile].
  - intros [= <- <-]. repeat split.
  - destruct (p c) eqn:Hc.
    + destruct (Str.takeWhile p s) as [a' r'] eqn:Ht. intros [= <- <-].
      destruct (IH a' r' eq_refl) as (-> & Ha & Hr).
      repeat split; auto. unfold allChars in *. cbn. now rewrite Hc.
    + intros [= <- <-]. repeat split. exact Hc.
Qed.

Lemma takeWhile_app p a r :
  allChars p a = true ->
  match r with String c _ => p c = false | EmptyString => True end ->
  Str.takeWhile p (a ++ r) = (a, r).
Proof.
  unfold allChars. induction a as [|c a IH]; intros Ha Hr.
  - change ("" ++ r)%string with r. destruct r as [|c r]; cbn [Str.takeWhile].
    + reflexivity.
    + now rewrite Hr.
  - change (String c a ++ r)%string with (String c (a ++ r)).
    cbn [list_ascii_of_string forallb] in Ha. apply andb_prop in Ha as (Hc & Ha).
    cbn [Str.takeWhile]. rewrite Hc, (IH Ha Hr). reflexivity.
Qed.

Lemma search_some {A} (f : string -> option A) s r :
  Str.search f s = Some r -> exists pre u, s = (pre ++ u)%string /\ f u = Some r.
Proof.
  induction s as [|c s IH]; cbn [Str.search].
  - destruct (f "") eqn:Hf; [|discriminate]. intros [= <-]. now exists "", "".
  - destruct (f (String c s)) eqn:Hf.
    + intros [= <-]. now exists "", (String c s).
    + intros H. destruct (IH H) as (pre & u & -> & Hu). now exists (String c pre), u.
Qed.

Lemma digitRun_takeWhile s d r :
  Str.takeWhile Str.isDigit s = (d, r) -> Str.isEmpty d = false -> digitRun d.
Proof.
  intros Ht He. destruct (takeWhile_spec _ _ _ _ Ht) as (_ & Ha & _).
  split; [|exact Ha]. intros ->. discriminate.
Qed.

(** The token of [VERSION_REGEX] is made of three runs of digits. *)
Lemma version_token_shape s t :
  Re.ANDROID_VERSION_REGEX s = Some t ->
  exists a b c, t = (a ++ "." ++ b ++ "." ++ c)%string /\ digitRun a /\ digitRun b /\ digitRun c.
Proof.
  unfold Re.ANDROID_VERSION_REGEX. intros H.
  apply search_some in H as (pre & u & _ & H).
  cbn [Re.takeComponents] in H.
  destruct (Str.takeWhile Str.isDigit u) as [a r1] eqn:Ha.
  destruct (Str.isEmpty a) eqn:Hea; [discriminate|].
  destruct r1 as [|c1 r1]; [discriminate|].
  destruct (Ascii.eqb_spec c1 "."%char) as [->|Hne].
  2: { destruct c1 as [[] [] [] [] [] [] [] []]; try discriminate; exfalso; now apply Hne. }
  cbn in H.
  destruct (Str.takeWhile Str.isDigit r1) as [b r2] eqn:Hb.
  destruct (Str.isEmpty b) eqn:Heb; [discriminate|].
  destruct r2 as [|c2 r2]; [discriminate|].
  destruct (Ascii.eqb_spec c2 "."%char) as [->|Hne].
  2: { destruct c2 as [[] [] [] [] [] [] [] []]; try discriminate; exfalso; now apply Hne. }
  cbn in H.
  destruct (Str.takeWhile Str.isDigit r2) as [c r3] eqn:Hc.
  destruct (Str.isEmpty c) eqn:Hec; [discriminate|].
  injection H as <-.
  exists a, b, c. split; [reflexivity|].
  repeat split; eapply digitRun_takeWhile; eauto.
Qed.

(** ** Parsing a version token *)

Lemma isDigit_not_space c : Str.isDigit c = true -> Str.isWhiteSpace c = false.
Proof. destruct c as [[] [] [] [] [] [] [] []]; try discriminate; reflexivity. Qed.

Lemma rev_rev s : Str.rev (Str.rev s) = s.
Proof.
  unfold Str.rev. rewrite list_ascii_of_string_of_list_ascii, rev_involutive.
  apply string_of_list_ascii_of_string.
Qed.

Lemma dropWhile_head p s :
  match s with String c _ => p c = false | EmptyString => True end ->
  Str.dropWhile p s = s.
Proof. destruct s as [|c s]; cbn; [reflexivity|]. now intros ->. Qed.

Lemma list_ascii_of_string_app x y :
  list_ascii_of_string (x ++ y) = list_ascii_of_string x ++ list_ascii_of_string y.
Proof.
  induction x as [|c x IH]; [reflexivity|].
  change (String c x ++ y)%string with (String c (x ++ y)).
  cbn [list_ascii_of_string]. now rewrite IH.
Qed.

Lemma allChars_impl (p q : ascii -> bool) s :
  (forall c, p c = true -> q c = true) -> allChars p s = true -> allChars q s = true.
Proof.
  intros Hpq. unfold allChars. rewrite !forallb_forall. auto.
Qed.

Lemma allChars_rev p s : allChars p s = true -> allChars p (Str.rev s) = true.
Proof.
  unfold allChars, Str.rev. rewrite list_ascii_of_string_of_list_ascii.
  rewrite !forallb_forall. intros H c Hc. apply H. now apply in_rev.
Qed.

Lemma allChars_head p s :
  allChars p s = true ->
  match s with String c _ => negb (p c) = false | EmptyString => True end.
Proof.
  destruct s as [|c s]; [auto|]. unfold allChars. cbn.
  intros H. apply andb_prop in H as (-> & _). reflexivity.
Qed.

(** A text without white space is its own [trim]. *)
Lemma trim_no_space s :
  allChars (fun c => negb (Str.isWhiteSpace c)) s = true -> Str.trim s = s.
Proof.
  intros H. unfold Str.trim.
  assert (Hd : forall x, allChars (fun c => negb (Str.isWhiteSpace c)) x = true ->
                         Str.dropWhile Str.isWhiteSpace x = x).
  { intros x Hx. apply dropWhile_head. apply allChars_head in Hx.
    destruct x as [|c x]; [exact I|]. now apply negb_false_iff in Hx as ->%negb_true_iff. }
  rewrite (Hd s H). rewrite (Hd _ (allChars_rev _ _ H)). apply rev_rev.
Qed.

Lemma digitRun_no_space d :
  digitRun d -> allChars (fun c => negb (Str.isWhiteSpace c)) d = true.
Proof.
  intros (_ & H). revert H. apply allChars_impl.
  intros c Hc. now rewrite (isDigit_not_space c Hc).
Qed.

Lemma trim_token a b c :
  digitRun a -> digitRun b -> digitRun c ->
  Str.trim (a ++ "." ++ b ++ "." ++ c) = (a ++ "." ++ b ++ "." ++ c)%string.
Proof.
  intros Ha Hb Hc. apply trim_no_space.
  rewrite !allChars_app.
  rewrite (digitRun_no_space a Ha), (digitRun_no_space b Hb), (digitRun_no_space c Hc).
  reflexivity.
Qed.

Lemma append_empty_r (s : string) : (s ++ "")%string = s.
Proof.
  induction s as [|c s IH]; [reflexivity|].
  change (String c s ++ "")%string with (String c (s ++ "")). now rewrite IH.
Qed.

Lemma strip_v c r :
  Str.isDigit c = true ->
  match String c r with String "v" r' => r' | _ => String c r end = String c r.
Proof. destruct c as [[] [] [] [] [] [] [] []]; try discriminate; reflexivity. Qed.

Lemma takeNumericIdentifier_run d r :
  digitRun d ->
  match r with String c _ => Str.isDigit c = false | EmptyString => True end ->
  Semver.takeNumericIdentifier (d ++ r) =
  if numericIdentifier d then Some (d, r) else None.
Proof.
  intros (_ & Hd) Hr. unfold Semver.takeNumericIdentifier.
  rewrite (takeWhile_app _ _ _ Hd Hr).
  destruct d as [|x [|y d]]; try reflexivity;
    destruct x as [[] [] [] [] [] [] [] []]; reflexivity.
Qed.

(** The token parses as a version exactly when none of the three runs has
    a leading zero, and then it has no prerelease part. *)
Lemma matchFull_token a b c :
  digitRun a -> digitRun b -> digitRun c ->
  Semver.matchFull (a ++ "." ++ b ++ "." ++ c) =
  if numericIdentifier a && numericIdentifier b && numericIdentifier c
  then Some {| Semver.major := Str.digitsToN a; Semver.minor := Str.digitsToN b;
               Semver.patch := Str.digitsToN c; Semver.prerelease := [] |}
  else None.
Proof.
  intros Ha Hb Hc. unfold Semver.matchFull.
  assert (Hv : match (a ++ "." ++ b ++ "." ++ c)%string with
               | String "v" r => r
               | _ => (a ++ "." ++ b ++ "." ++ c)%string
               end = (a ++ "." ++ b ++ "." ++ c)%string).
  { destruct Ha as (Hne & Hd). destruct a as [|x a]; [congruence|].
    apply strip_v. unfold allChars in Hd. cbn in Hd. now apply andb_prop in Hd as (-> & _). }
  rewrite Hv. clear Hv.
  rewrite (takeNumericIdentifier_run a _ Ha) by reflexivity.
  destruct (numericIdentifier a); [|reflexivity].
  change ("." ++ b ++ "." ++ c)%string with (String "." (b ++ "." ++ c)).
  cbv beta iota.
  rewrite (takeNumericIdentifier_run b _ Hb) by reflexivity.
  destruct (numericIdentifier b); [|reflexivity].
  change ("." ++ c)%string with (String "." c).
  cbv beta iota.
  rewrite <- (append_empty_r c) at 1.
  rewrite (takeNumericIdentifier_run c "" Hc) by exact I.
  destruct (numericIdentifier c); reflexivity.
Qed.

Lemma token_nonempty s t : Re.ANDROID_VERSION_REGEX s = Some t -> Str.isEmpty t = false.
Proof.
  intros H. destruct (version_token_shape s t H) as (a & b & c & -> & (Ha & _) & _).
  destruct a; [congruence|reflexivity].
Qed.

Lemma token_release s t v :
  Re.ANDROID_VERSION_REGEX s = Some t -> Semver.newSemVer t = Ok v ->
  Semver.prerelease v = [].
Proof.
  intros Ht Hv. destruct (version_token_shape s t Ht) as (a & b & c & -> & Ha & Hb & Hc).
  unfold Semver.newSemVer in Hv. destruct (_ <? _)%nat; [discriminate|].
  rewrite trim_token, matchFull_token in Hv by assumption.
  destruct (_ && _ && _); [|discriminate]. cbv beta iota in Hv.
  repeat match type of Hv with
         | (if ?c then _ else _) = _ => destruct c; [discriminate|]
         end.
  injection Hv as <-. reflexivity.
Qed.

Lemma compare_releases v w :
  Semver.prerelease v = [] -> Semver.prerelease w = [] ->
  Semver.isLt (Semver.compare v w) = Semver.isLt (Semver.compareMain v w).
Proof.
  intros Hv Hw. unfold Semver.compare, Semver.comparePre. rewrite Hv, Hw.
  destruct (Semver.compareMain v w); reflexivity.
Qed.

Section Javac.
Variable E : Env.
Variable ANDROID_PLATFORM_NAME : string.


(** What [validateJavacVersion] answers.  Without a version of three
    numbers in the text (no text at all included) it reports that [javac]
    could not be run.  With one, the three numbers are compared as numbers
    with 1.8.0 and a lower version is reported as not supported; what
    follows the third number plays no part.  A number with a leading zero
    is not a version for [semver], whose error then leaves the function.
    Never more than one warning is returned, and it is tagged with the
    Android platform. *)
Theorem validateJavacVersion_outcomes :
  (forall x, Js.truthy x = false ->
     AndroidToolsInfo.validateJavacVersion E ANDROID_PLATFORM_NAME x
     = Ok [AndroidToolsInfo.javacMissingWarning E ANDROID_PLATFORM_NAME]) /\
  (forall s, Re.ANDROID_VERSION_REGEX s = None ->
     AndroidToolsInfo.validateJavacVersion E ANDROID_PLATFORM_NAME (JStr s)
     = Ok [AndroidToolsInfo.javacMissingWarning E ANDROID_PLATFORM_NAME]) /\
  (forall s t v,
     Re.ANDROID_VERSION_REGEX s = Some t ->
     Semver.newSemVer t = Ok v ->
     Semver.prerelease v = [] /\
     AndroidToolsInfo.validateJavacVersion E ANDROID_PLATFORM_NAME (JStr s)
     = Ok (if Semver.isLt (Semver.compareMain v minJavaVersion)
           then [AndroidToolsInfo.javacUnsupportedWarning E ANDROID_PLATFORM_NAME (JStr s)]
           else [])) /\
  (forall s t e,
     Re.ANDROID_VERSION_REGEX s = Some t ->
     Semver.newSemVer t = Throw e ->
     AndroidToolsInfo.validateJavacVersion E ANDROID_PLATFORM_NAME (JStr s) = Throw e) /\
  (forall x ws,
     AndroidToolsInfo.validateJavacVersion E ANDROID_PLATFORM_NAME x = Ok ws ->
     length ws <= 1 /\ forall w, In w ws -> platforms w = Some [ANDROID_PLATFORM_NAME]).
Proof.
  split; [|split; [|split; [|split]]].
  - intros x Hx. unfold AndroidToolsInfo.validateJavacVersion.
    destruct x as [| | [] | s | o]; try discriminate; try reflexivity.
    destruct s; [reflexivity|discriminate].
  - intros s Hs. unfold AndroidToolsInfo.validateJavacVersion. cbn. now rewrite Hs.
  - intros s t v Ht Hv.
    pose proof (token_release s t v Ht Hv) as Hp. split; [exact Hp|].
    unfold AndroidToolsInfo.validateJavacVersion. cbn [AndroidToolsInfo.javacVersionMatch res_bind].
    rewrite Ht, (token_nonempty s t Ht). cbn [negb].
    unfold Semver.lt. cbn [Semver.newSemVerJs]. rewrite Hv. cbn [res_bind].
    change (Semver.newSemVer AndroidToolsInfo.MIN_JAVA_VERSION) with (Ok minJavaVersion).
    cbn [res_bind]. rewrite (compare_releases v minJavaVersion Hp eq_refl).
    destruct (Semver.isLt _); reflexivity.
  - intros s t e Ht Hv.
    unfold AndroidToolsInfo.validateJavacVersion. cbn [AndroidToolsInfo.javacVersionMatch res_bind].
    rewrite Ht, (token_nonempty s t Ht). cbn [negb].
    unfold Semver.lt. cbn [Semver.newSemVerJs]. rewrite Hv. reflexivity.
  - intros x ws. unfold AndroidToolsInfo.validateJavacVersion.
    destruct (AndroidToolsInfo.javacVersionMatch x) as [[t|]|e]; cbn [res_bind];
      [| |discriminate].
    + destruct (negb _).
      * destruct (Semver.lt _ _) as [[]|e]; cbn [res_bind]; [| |discriminate];
          intros [= <-]; cbn; (split; [lia|]); intuition (subst; reflexivity).
      * intros [= <-]; cbn; (split; [lia|]); intuition (subst; reflexivity).
    + intros [= <-]; cbn; (split; [lia|]); intuition (subst; reflexivity).
Qed.

End Javac.

Lemma validateJavacVersion_outcomes_witness :
  AndroidToolsInfo.validateJavacVersion Hosts.bareLinux "Android" (JStr "1.8.0_211") = Ok [] /\
  AndroidToolsInfo.validateJavacVersion Hosts.bareLinux "Android" (JStr "1.10.0")
  = Ok [] /\
  AndroidToolsInfo.validateJavacVersion Hosts.bareLinux "Android" (JStr "javac 1.7.0_80")
  = Ok [AndroidToolsInfo.javacUnsupportedWarning Hosts.bareLinux "Android"
          (JStr "javac 1.7.0_80")].
Proof.
  pose proof (validateJavacVersion_outcomes Hosts.bareLinux "Android") as (_ & _ & H & _).
  split; [|split].
  - exact (proj2 (H "1.8.0_211" "1.8.0"
             {| Semver.major := 1; Semver.minor := 8; Semver.patch := 0;
                Semver.prerelease := [] |} eq_refl eq_refl)).
  - exact (proj2 (H "1.10.0" "1.10.0"
             {| Semver.major := 1; Semver.minor := 10; Semver.patch := 0;
                Semver.prerelease := [] |} eq_refl eq_refl)).
  - exact (proj2 (H "javac 1.7.0_80" "1.7.0"
             {| Semver.major := 1; Semver.minor := 7; Semver.patch := 0;
                Semver.prerelease := [] |} eq_refl eq_refl)).
Defined.

(** ** Directories that do not name a version *)

Lemma fold_maxStep_throw r vs e :
  fold_left (Semver.maxStep r) vs (Throw e) = Throw e.
Proof. induction vs as [|v vs IH]; cbn; auto. Qed.

Lemma fold_maxStep_invalid r vs t e acc :
  In t vs -> Str.isEmpty t = false -> Semver.newSemVer t = Throw e ->
  exists e', fold_left (Semver.maxStep r) vs acc = Throw e'.
Proof.
  intros Hin Hne Ht. revert acc. induction vs as [|v vs IH]; intros acc; [contradiction|].
  destruct Hin as [->|Hin].
  - cbn [fold_left]. destruct acc as [max|e0].
    + unfold Semver.maxStep at 2. cbn [res_bind]. rewrite Hne, Ht. cbn [res_bind].
      exists e. apply fold_maxStep_throw.
    + exists e0. apply fold_maxStep_throw.
  - cbn [fold_left]. apply IH. exact Hin.
Qed.

(** One directory whose version token is not a version for [semver] (a
    number with a leading zero, say) is enough for the look-up to throw,
    whatever else the directory holds. *)
Theorem invalid_version_directory_throws E pathToDir range dirs dir t e st :
  fileSystem_exists E (length (log st)) (Some pathToDir) = true ->
  fileSystem_readDirectory E (S (length (log st))) pathToDir = Ok dirs ->
  In dir dirs ->
  Re.ANDROID_VERSION_REGEX dir = Some t ->
  Semver.newSemVer t = Throw e ->
  exists e' st',
    AndroidToolsInfo.getMatchingDir E pathToDir (Some range) st = (Throw e', st').
Proof.
  intros Hx Hr Hin Ht He. unfold AndroidToolsInfo.getMatchingDir.
  unfold bind at 1. unfold fsExists at 1, perform at 1. rewrite Hx.
  unfold bind at 1. unfold readDirectory at 1, perform at 1. cbn [log].
  rewrite length_snoc, Hr.
  assert (Hin' : In t (omap Re.ANDROID_VERSION_REGEX dirs)).
  { apply list_elem_of_In, list_elem_of_omap. exists dir. split; [|exact Ht].
    now apply list_elem_of_In. }
  destruct (fold_maxStep_invalid range _ t e (Ok None) Hin' (token_nonempty _ _ Ht) He)
    as (e' & Hf).
  unfold Semver.maxSatisfying. rewrite Hf. cbn [res_bind].
  exists e'. eexists. reflexivity.
Qed.

Lemma invalid_version_directory_throws_witness :
  exists e' st',
    AndroidToolsInfo.getMatchingDir Hosts.malformedBuildTools "/sdk/build-tools"
      (AndroidToolsInfo.getBuildToolsRange) initialState = (Throw e', st').
Proof.
  apply (invalid_version_directory_throws Hosts.malformedBuildTools "/sdk/build-tools"
           _ ["25.0.2"; "25.0.03"] "25.0.03" "25.0.03"
           (TypeError "Invalid Version: 25.0.03") initialState); try reflexivity.
  cbn. auto.
Defined.

(** ** The stored tools data *)

(** When computing the tools data fails, nothing is stored: the next
    [getToolsInfo] computes it again from the file system. *)
Theorem failed_tools_info_is_not_stored E st e st' :
  toolsInfo st = None ->
  AndroidToolsInfo.getToolsInfo E st = (Throw e, st') ->
  toolsInfo st' = None /\
  AndroidToolsInfo.getToolsInfo E st' =
  match AndroidToolsInfo.computeToolsInfo E st' with
  | (Ok d, st2) => (Ok d, storeToolsInfo d st2)
  | (Throw e2, st2) => (Throw e2, st2)
  end.
Proof.
  intros Hnone Hrun. rewrite (getToolsInfo_first E st Hnone) in Hrun.
  destruct (keeps_computeToolsInfo E st) as (_ & Ht & _).
  destruct (AndroidToolsInfo.computeToolsInfo E st) as [[d|e0] s1]; [discriminate|].
  injection Hrun as _ <-. cbn [snd] in Ht.
  assert (Hn : toolsInfo s1 = None) by congruence.
  split; [exact Hn|]. now apply getToolsInfo_first.
Qed.

Lemma failed_tools_info_is_not_stored_witness :
  let run := AndroidToolsInfo.getToolsInfo Hosts.malformedBuildTools initialState in
  toolsInfo (snd run) = None.
Proof.
  intros run.
  refine (proj1 (failed_tools_info_is_not_stored Hosts.malformedBuildTools initialState
                   (TypeError "Invalid Version: 25.0.03") (snd run) eq_refl _)).
  vm_compute. reflexivity.
Defined.

(** ** The compile target *)

Lemma latest_supported_target (has : string -> bool) :
  match fold_left (fun latestValidAndroidTarget s =>
                     if has s then Some s else latestValidAndroidTarget)
                  (Str.sort AndroidToolsInfo.SUPPORTED_TARGETS) None with
  | Some t =>
      match AndroidToolsInfo.parseAndroidSdkString t with
      | Some integerVersion =>
          if negb (integerVersion =? 0)%Z
             && (AndroidToolsInfo.MIN_REQUIRED_COMPILE_TARGET <=? integerVersion)%Z
          then Some integerVersion else None
      | None => None
      end
  | None => None
  end
  = List.find (fun c => has ("android-" ++ AndroidToolsInfo.numberToString (Some c))%string)
              [25; 24; 23; 22]%Z.
Proof.
  replace (Str.sort AndroidToolsInfo.SUPPORTED_TARGETS)
    with ["android-17"; "android-18"; "android-19"; "android-21"; "android-22";
          "android-23"; "android-24"; "android-25"] by (vm_compute; reflexivity).
  cbn [fold_left List.find].
  change ("android-" ++ AndroidToolsInfo.numberToString (Some 25%Z))%string with "android-25".
  change ("android-" ++ AndroidToolsInfo.numberToString (Some 24%Z))%string with "android-24".
  change ("android-" ++ AndroidToolsInfo.numberToString (Some 23%Z))%string with "android-23".
  change ("android-" ++ AndroidToolsInfo.numberToString (Some 22%Z))%string with "android-22".
  destruct (has "android-25"); [reflexivity|].
  destruct (has "android-24"); [reflexivity|].
  destruct (has "android-23"); [reflexivity|].
  destruct (has "android-22"); [reflexivity|].
  destruct (has "android-21"); [reflexivity|].
  destruct (has "android-19"); [reflexivity|].
  destruct (has "android-18"); [reflexivity|].
  destruct (has "android-17"); reflexivity.
Qed.

(** [getCompileSdk] never throws, and its result is the highest of the API
    levels 25, 24, 23 and 22 whose platform directory is among the
    installed targets; older and unknown platforms do not count. *)
Theorem getCompileSdk_greatest E st :
  exists targets st',
    AndroidToolsInfo.getInstalledTargets E st = (Ok targets, st') /\
    AndroidToolsInfo.getCompileSdk E st =
    (Ok (List.find
           (fun c => existsb (String.eqb ("android-" ++ AndroidToolsInfo.numberToString (Some c)))
                             targets)
           [25; 24; 23; 22]%Z),
     st').
Proof.
  assert (Ht : exists targets st', AndroidToolsInfo.getInstalledTargets E st = (Ok targets, st')).
  { unfold AndroidToolsInfo.getInstalledTargets, tryCatch.
    match goal with
    | |- context [match ?m st with _ => _ end] => destruct (m st) as [[l|e] s1]
    end; eexists _, _; reflexivity. }
  destruct Ht as (targets & st' & Ht). exists targets, st'. split; [exact Ht|].
  unfold AndroidToolsInfo.getCompileSdk, AndroidToolsInfo.getLatestValidAndroidTarget.
  rewrite (bind_ok _ _ _ _ _ (bind_ok _ _ _ _ _ Ht)).
  rewrite <- (latest_supported_target (fun s => existsb (String.eqb s) targets)).
  unfold ret.
  destruct (fold_left _ _ _) as [t|]; [|reflexivity].
  destruct (AndroidToolsInfo.parseAndroidSdkString t) as [v|]; [|reflexivity].
  destruct (_ && _); reflexivity.
Qed.

Example compile_target_ignores_unknown_platforms :
  fst (AndroidToolsInfo.getCompileSdk Hosts.sdk25 initialState) = Ok (Some 25%Z).
Proof. reflexivity. Qed.

(** ** The CocoaPods checks of [getWarnings] *)

Lemma pushes_without_pods (a1 a2 x1 x2 x3 x6 t1 t2 t3 : IWarning)
  (c1 c2 c3 c4 c8 c9 c10 c11 : bool) (w : IWarning) :
  let ws :=
    Doctor.pushIf c11 t3 (Doctor.pushIf c10 t2 (Doctor.pushIf c9 t1
      (Doctor.pushIf c8 x6 (Doctor.pushIf false w
        (Doctor.pushIf true x3 (Doctor.pushIf c4 x2 (Doctor.pushIf c3 x1
          (Doctor.pushIf c2 a2 (Doctor.pushIf c1 a1 []))))))))) in
  In x3 ws /\ forall y, In y ws -> In y [a1; a2; x1; x2; x3; x6; t1; t2; t3].
Proof.
  cbv zeta. rewrite !pushIf_app, !app_nil_l, !app_nil_r. split.
  - rewrite !in_app_iff. cbn. tauto.
  - intros y. rewrite !in_app_iff.
    destruct c1, c2, c3, c4, c8, c9, c10, c11; cbn; tauto.
Qed.

(** The snapshot that [getSysInfo] builds has the CocoaPods version under
    [cocoaPodsVer], and the checks read [cocoapodVer].  So on a Darwin host
    an evaluation that builds the snapshot always reports CocoaPods as not
    installed, and never reports a problem with CocoaPods or a version that
    is too old, whatever is installed. *)
Theorem cocoapods_always_reported_missing E st ws st' :
  isDarwin E = true ->
  strategyRuns "sysInfoCache" st ->
  Doctor.getWarnings E st = (Ok ws, st') ->
  In (Doctor.cocoaPodsWarning E) ws /\
  ~ In Doctor.cocoaPodsProblemWarning ws /\
  ~ In (Doctor.cocoaPodsOldWarning E) ws.
Proof.
  intros Hd Hruns Hrun. unfold Doctor.getWarnings in Hrun.
  apply bind_inv_ok in Hrun as (d & s1 & Hsys & Hrun).
  assert (Hfrom : exists o, Doctor.getWarningsFrom E o s1 = (Ok ws, st') /\
                            Js.prop o "cocoapodVer" = JUndefined).
  { destruct d as [| | b | t | o]; try discriminate.
    - exists ∅. split; [exact Hrun|]. unfold Js.prop. now rewrite lookup_empty.
    - exists ∅. split; [exact Hrun|]. unfold Js.prop. now rewrite lookup_empty.
    - exists o. split; [exact Hrun|]. eapply getSysInfo_has_no_cocoapodVer; eassumption. }
  destruct Hfrom as (o & Hfrom & Hno). clear Hrun Hsys.
  unfold Doctor.getWarningsFrom in Hfrom. rewrite Hd, Hno in Hfrom.
  cbn [Js.truthy andb negb] in Hfrom. rewrite andb_false_r in Hfrom.
  apply bind_inv_ok in Hfrom as (r & s2 & Hmid & Hret).
  apply ret_inv in Hret. subst ws.
  apply bind_inv_ok in Hmid as (r6 & s6 & H6 & Hmid). apply ret_inv in H6. subst r6.
  apply bind_inv_ok in Hmid as (tooOld & s7 & H7 & Hmid). apply ret_inv in H7. subst tooOld.
  apply bind_inv_ok in Hmid as (monoMissing & s8 & _ & Hmid).
  apply ret_inv in Hmid. subst r.
  match goal with
  | |- In _ ?l /\ _ =>
      destruct (pushes_without_pods (Doctor.adbWarning E) (Doctor.androidWarning E)
                  (Doctor.xcodeWarning E) (Doctor.xcodeprojWarning E)
                  (Doctor.cocoaPodsWarning E) (Doctor.monoWarning E)
                  (Doctor.itunesWarning E) (Doctor.javaWarning E) (Doctor.gitWarning E)
                  (negb (Js.truthy (Js.prop o "adbVer")))
                  (negb (Js.truthy (Js.prop o "androidInstalled")))
                  (negb (Js.truthy (Js.prop o "xcodeVer")))
                  (negb (Js.truthy (Js.prop o "xcodeprojGemLocation")))
                  monoMissing
                  (negb (Js.truthy (Js.prop o "itunesInstalled")))
                  (negb (Js.truthy (Js.prop o "javaVer")))
                  (negb (Js.truthy (Js.prop o "gitVer")))
                  (Doctor.cocoaPodsOldWarning E)) as (Hin & Hall)
  end.
  split; [exact Hin|]. split; intros H; apply Hall in H; cbn [In] in H;
    repeat (destruct H as [H|H]; [apply (f_equal warning) in H; discriminate|]);
    exact H.
Qed.

Lemma cocoapods_always_reported_missing_witness :
  let E := Hosts.podInstall 0 true in
  In (Doctor.cocoaPodsWarning E)
     match fst (Doctor.getWarnings E initialState) with Ok ws => ws | Throw _ => [] end.
Proof.
  intros E.
  pose (ws := match fst (Doctor.getWarnings E initialState) with
              | Ok ws => ws
              | Throw _ => []
              end).
  assert (Hrun : Doctor.getWarnings E initialState
                 = (Ok ws, snd (Doctor.getWarnings E initialState)))
    by (vm_compute; reflexivity).
  assert (Hruns : strategyRuns "sysInfoCache" initialState) by (right; reflexivity).
  exact (proj1 (cocoapods_always_reported_missing E initialState ws _ eq_refl Hruns Hrun)).
Defined.

(** ** The iOS probes on other hosts *)

(** Off the Darwin family the Xcode and CocoaPods probes run no command:
    the two versions are [undefined] and the functional check is [false],
    whenever the strategy runs. *)
Theorem ios_probes_off_darwin E st :
  isDarwin E = false ->
  (strategyRuns "xCodeVerCache" st ->
   fst (SysInfo.getXcodeVersion E st) = Ok JUndefined /\
   log (snd (SysInfo.getXcodeVersion E st)) = log st) /\
  (strategyRuns "cocoaPodsVerCache" st ->
   fst (SysInfo.getCocoaPodsVersion E st) = Ok JUndefined /\
   log (snd (SysInfo.getCocoaPodsVersion E st)) = log st) /\
  (strategyRuns "isCocoaPodsWorkingCorrectlyCache" st ->
   fst (SysInfo.isCocoaPodsWorkingCorrectly E st) = Ok (JBool false) /\
   log (snd (SysInfo.isCocoaPodsWorkingCorrectly E st)) = log st).
Proof.
  intros Hd. split; [|split]; intros Hruns.
  - unfold SysInfo.getXcodeVersion.
    match goal with
    | |- context [SysInfo.getValueForProperty ?p ?s st] =>
        destruct (strategyRuns_result p s st Hruns) as (-> & ->)
    end.
    rewrite Hd. split; reflexivity.
  - unfold SysInfo.getCocoaPodsVersion.
    match goal with
    | |- context [SysInfo.getValueForProperty ?p ?s st] =>
        destruct (strategyRuns_result p s st Hruns) as (-> & ->)
    end.
    rewrite Hd. split; reflexivity.
  - unfold SysInfo.isCocoaPodsWorkingCorrectly.
    match goal with
    | |- context [SysInfo.getValueForProperty ?p ?s st] =>
        destruct (strategyRuns_result p s st Hruns) as (-> & ->)
    end.
    rewrite Hd. split; reflexivity.
Qed.

Lemma ios_probes_off_darwin_witness :
  fst (SysInfo.getXcodeVersion Hosts.bareLinux initialState) = Ok JUndefined /\
  log (snd (SysInfo.getXcodeVersion Hosts.bareLinux initialState)) = log initialState.
Proof.
  apply (proj1 (ios_probes_off_darwin Hosts.bareLinux initialState eq_refl)).
  right. reflexivity.
Defined.

(** ** The Mono pattern keeps its position *)

Lemma execCommand_ok E cmd out st :
  Str.isEmpty cmd = false ->
  childProcess_exec E (length (log st)) cmd = Ok out ->
  SysInfo.execCommand E cmd st
  = (Ok (JStr (stdout out)),
     {| fields := fields st; shouldCache := shouldCache st;
        monoLastIndex := monoLastIndex st; toolsInfo := toolsInfo st;
        log := log st ++ [CExec cmd] |}).
Proof.
  intros Hc Hx. unfold SysInfo.execCommand, SysInfo.exec. rewrite Hc.
  unfold bind, tryCatch, childProcessExec, perform, ret. now rewrite Hx.
Qed.

(** The pattern of [getMonoVersion] has the flag [g], so it resumes where
    the previous match ended.  With caching disabled, on a machine whose
    [mono --version] prints the same text with one version in it, the first
    call finds the version, the second one starts behind it, finds nothing
    and answers [null], and the pattern is back at the start for the third
    call. *)
Theorem mono_version_alternates E st out v i :
  shouldCache st = false ->
  monoLastIndex st = 0 ->
  childProcess_exec E (length (log st)) "mono --version" = Ok out ->
  childProcess_exec E (S (length (log st))) "mono --version" = Ok out ->
  Re.monoVerRegExp_exec 0 (stdout out) = (Some v, i) ->
  Re.monoVerRegExp_exec i (stdout out) = (None, 0) ->
  let first := SysInfo.getMonoVersion E st in
  let second := SysInfo.getMonoVersion E (snd first) in
  fst first = Ok (JStr v) /\
  monoLastIndex (snd first) = i /\
  fst second = Ok JNull /\
  monoLastIndex (snd second) = 0 /\
  log (snd second) = log st ++ [CExec "mono --version"; CExec "mono --version"].
Proof.
  intros Hc H0 Hx1 Hx2 Hm1 Hm2. cbv zeta.
  assert (H1 : SysInfo.getMonoVersion E st
               = (Ok (JStr v),
                  {| fields := fields st; shouldCache := false;
                     monoLastIndex := i; toolsInfo := toolsInfo st;
                     log := log st ++ [CExec "mono --version"] |})).
  { unfold SysInfo.getMonoVersion. rewrite getValueForProperty_disabled by exact Hc.
    unfold bind at 1. rewrite (execCommand_ok E "mono --version" out st eq_refl Hx1).
    unfold bind, SysInfo.monoVerRegExpExec, ret. cbn [monoLastIndex Js.toString].
    rewrite H0, Hm1, Hc. reflexivity. }
  rewrite H1. cbn [fst snd monoLastIndex].
  split; [reflexivity|]. split; [reflexivity|].
  unfold SysInfo.getMonoVersion. rewrite getValueForProperty_disabled by reflexivity.
  unfold bind at 1 3 5.
  rewrite (execCommand_ok E "mono --version" out _ eq_refl)
    by (cbn [log]; rewrite length_snoc; exact Hx2).
  unfold bind, SysInfo.monoVerRegExpExec, ret. cbn [monoLastIndex Js.toString].
  rewrite Hm2. cbn [fst snd monoLastIndex log fields shouldCache toolsInfo].
  rewrite <- app_assoc. repeat split; reflexivity.
Qed.

Lemma mono_version_alternates_witness :
  let E := Hosts.monoInstalled in
  let st := snd (SysInfo.setShouldCacheSysInfo false initialState) in
  let first := SysInfo.getMonoVersion E st in
  let second := SysInfo.getMonoVersion E (snd first) in
  fst first = Ok (JStr "5.4.1") /\ fst second = Ok JNull.
Proof.
  intros E st first second.
  destruct (mono_version_alternates E st Hosts.monoOutput "5.4.1" 32
              eq_refl eq_refl eq_refl eq_refl eq_refl eq_refl) as (H1 & _ & H2 & _).
  split; [exact H1 | exact H2].
Defined.

(** ** Paths of adb and of the emulator *)

(** [getPathToAdbFromAndroidHome] never throws.  It answers [null] when
    [ANDROID_HOME] is unset or empty, without running anything, and when
    [adb help] fails; otherwise it answers the path of [adb] under
    [platform-tools]. *)
Theorem adb_path_outcomes E (execFile : string -> list string -> M ProcessInfo) st :
  exists r st',
    AndroidToolsInfo.getPathToAdbFromAndroidHome E execFile st = (Ok r, st') /\
    match AndroidToolsInfo.androidHomeSet E with
    | None => r = None /\ st' = st
    | Some home =>
        let pathToAdb := path_join E [home; "platform-tools"; "adb"] in
        st' = snd (execFile pathToAdb ["help"] st) /\
        r = match fst (execFile pathToAdb ["help"] st) with
            | Ok _ => Some pathToAdb
            | Throw _ => None
            end
    end.
Proof.
  unfold AndroidToolsInfo.getPathToAdbFromAndroidHome.
  destruct (AndroidToolsInfo.androidHomeSet E) as [home|].
  - unfold tryCatch, bind, ret. cbv zeta.
    destruct (execFile _ _ st) as [[p|e] st1]; eexists _, _; cbn; eauto.
  - eexists _, _. unfold ret. eauto.
Qed.


(** ** Hosts on which the evaluation always returns *)

Lemma returns_ret {A} (Q : A -> Prop) (a : A) : Q a -> returnsWith Q (ret a).
Proof. intros Ha st HP. exists a, st. auto. Qed.

Lemma returns_bind {A B} (Q : A -> Prop) (R : B -> Prop) (m : M A) (k : A -> M B) :
  returnsWith Q m -> (forall a, Q a -> returnsWith R (k a)) -> returnsWith R (bind m k).
Proof.
  intros Hm Hk st HP. destruct (Hm st HP) as (a & st1 & H & Ha & HP1).
  rewrite (bind_ok _ _ _ _ _ H). now apply Hk.
Qed.

Lemma returns_leaf {A} S c (m : M A) :
  absorbs m -> probes S c m -> ~ In "cocoaPodsVerCache" S ->
  returnsWith (fun _ => True) m.
Proof.
  intros Ha Hp Hn st HP. destruct (Ha st) as (a & st' & H). exists a, st'.
  split; [exact H|]. split; [exact I|].
  destruct (Hp st) as (_ & Hf & _). rewrite H in Hf. cbn [snd] in Hf.
  unfold podsFree, Js.prop in *. now rewrite (Hf _ Hn).
Qed.

Lemma podsFree_store p r st :
  p <> "cocoaPodsVerCache" -> podsFree st -> podsFree (store p r st).
Proof.
  intros Hp HP. unfold podsFree, Js.prop, store in *. cbn [fields].
  now rewrite lookup_insert_ne.
Qed.

(** A value taken from the cache is neither [null] nor [undefined]. *)
Lemma returns_getValueForProperty (Q : JsVal -> Prop) p strategy :
  p <> "cocoaPodsVerCache" ->
  (forall v, Js.isNullish v = false -> Q v) ->
  returnsWith Q strategy ->
  returnsWith Q (SysInfo.getValueForProperty p strategy).
Proof.
  intros Hp Hq Hs st HP. rewrite getValueForProperty_eq.
  destruct (Hs st HP) as (r & st1 & H & Hr & HP1). rewrite H.
  destruct (shouldCache st); [destruct (Js.isNullish _) eqn:Hn|].
  - exists r, (store p r st1). auto using podsFree_store.
  - eexists _, st. auto.
  - exists r, st1. auto.
Qed.

Section Linux.
Variable E : Env.
Hypothesis notDarwin : isDarwin E = false.

Lemma returns_getCocoaPodsVersion :
  returnsWith (fun v => Js.truthy v = false) (SysInfo.getCocoaPodsVersion E).
Proof.
  intros st HP. unfold SysInfo.getCocoaPodsVersion.
  rewrite getValueForProperty_eq, notDarwin. unfold ret.
  destruct (shouldCache st); [destruct (Js.isNullish _) eqn:Hn|].
  - eexists _, _. split; [reflexivity|]. split; [reflexivity|].
    unfold podsFree. now rewrite prop_store.
  - eexists _, _. split; [reflexivity|]. split; exact HP.
  - eexists _, _. split; [reflexivity|]. split; [reflexivity|exact HP].
Qed.

Lemma returns_getXcprojInfo :
  returnsWith (fun v => Js.isNullish v = false) (SysInfo.getXcprojInfo E).
Proof.
  destruct (absorbing_probes E) as (_ & _ & Hx & _).
  unfold SysInfo.getXcprojInfo.
  apply returns_getValueForProperty; [discriminate | auto |].
  eapply returns_bind; [apply returns_getCocoaPodsVersion|]. intros v Hv. cbv beta.
  eapply returns_bind;
    [apply (returns_leaf _ _ _ Hx (probes_getXcodeVersion E)); cbn; intuition discriminate|].
  intros x _. rewrite Hv.
  eapply returns_bind; [apply (returns_ret (fun s => Js.truthy s = false)); exact Hv|].
  intros s Hs. cbv beta. rewrite Hs.
  eapply returns_bind; [apply (returns_ret (fun _ => True)); exact I|].
  intros a _. apply returns_ret. reflexivity.
Qed.

Lemma returns_isCocoaPodsUpdateRequired :
  returnsWith (fun _ => True) (SysInfo.isCocoaPodsUpdateRequired E).
Proof.
  unfold SysInfo.isCocoaPodsUpdateRequired.
  apply returns_getValueForProperty; [discriminate | auto |].
  eapply returns_bind; [apply returns_getXcprojInfo|]. intros v Hv. cbv beta.
  destruct v as [| | b | s | o]; try discriminate; try (now apply returns_ret).
  destruct (_ && _); now apply returns_ret.
Qed.

Hypothesis linux : isLinux E = true.
Hypothesis notWindows : isWindows E = false.
Hypothesis dotNet : forall n, exists v, hostInfo_dotNetVersion E n = Ok v.

Lemma absorbs_dotNetVersion : absorbs (dotNetVersion E).
Proof.
  intros st. unfold dotNetVersion, perform.
  destruct (dotNet (length (log st))) as (v & ->). eauto.
Qed.

Lemma absorbs_isITunesInstalled : absorbs (SysInfo.isITunesInstalled E).
Proof.
  unfold SysInfo.isITunesInstalled. apply absorbs_getValueForProperty.
  rewrite linux. apply absorbs_ret.
Qed.

Lemma absorbs_isCocoaPodsWorkingCorrectly : absorbs (SysInfo.isCocoaPodsWorkingCorrectly E).
Proof.
  unfold SysInfo.isCocoaPodsWorkingCorrectly. apply absorbs_getValueForProperty.
  rewrite notDarwin. apply absorbs_ret.
Qed.

Ltac leaf :=
  match goal with
  | Ha : absorbs ?m |- returnsWith _ ?m =>
      first
        [ apply (returns_leaf _ _ _ Ha (probes_getOs E))
        | apply (returns_leaf _ _ _ Ha (probes_getNodeVersion E))
        | apply (returns_leaf _ _ _ Ha (probes_getNpmVersion E))
        | apply (returns_leaf _ _ _ Ha (probes_getNodeGypVersion E))
        | apply (returns_leaf _ _ _ Ha (probes_dotNetVersion E))
        | apply (returns_leaf _ _ _ Ha (probes_getJavaVersion E))
        | apply (returns_leaf _ _ _ Ha (probes_getJavaCompilerVersion E))
        | apply (returns_leaf _ _ _ Ha (probes_getXcodeVersion E))
        | apply (returns_leaf _ _ _ Ha (probes_getXcodeprojGemLocation E))
        | apply (returns_leaf _ _ _ Ha (probes_isITunesInstalled E))
        | apply (returns_leaf _ _ _ Ha (probes_getAdbVersion E))
        | apply (returns_leaf _ _ _ Ha (probes_isAndroidInstalled E))
        | apply (returns_leaf _ _ _ Ha (probes_getMonoVersion E))
        | apply (returns_leaf _ _ _ Ha (probes_getGitVersion E))
        | apply (returns_leaf _ _ _ Ha (probes_getGradleVersion E))
        | apply (returns_leaf _ _ _ Ha (probes_isCocoaPodsWorkingCorrectly E))
        | apply (returns_leaf _ _ _ Ha (probes_getNativeScriptCliVersion E)) ];
      cbn; intuition discriminate
  end.

Lemma returns_weaken {A} (Q R : A -> Prop) (m : M A) :
  (forall a, Q a -> R a) -> returnsWith Q m -> returnsWith R m.
Proof.
  intros H Hm st HP. destruct (Hm st HP) as (a & st' & H1 & H2 & H3).
  exists a, st'. auto.
Qed.

Lemma returns_getSysInfo :
  returnsWith (fun v => Js.isNullish v = false) (SysInfo.getSysInfo E).
Proof.
  destruct (absorbing_probes E)
    as (A1 & A2 & A3 & A4 & A5 & A6 & A7 & A8 & A9 & A10 & A11 & A12 & A13 & A14 & A15).
  specialize (A15 notWindows).
  pose proof absorbs_dotNetVersion as A16.
  pose proof absorbs_isITunesInstalled as A17.
  pose proof absorbs_isCocoaPodsWorkingCorrectly as A18.
  unfold SysInfo.getSysInfo.
  apply returns_getValueForProperty; [discriminate | auto |]. cbv zeta.
  repeat (eapply (returns_bind (fun _ => True));
          [ first [ leaf
                  | apply (returns_weaken _ _ _ (fun _ _ => I) returns_getCocoaPodsVersion)
                  | apply returns_isCocoaPodsUpdateRequired ]
          | intros ? _; cbv beta ]).
  apply returns_ret. reflexivity.
Qed.

(** On a Linux host whose [dotNetVersion] answers, and with no CocoaPods
    version in the cache, [getSysInfo] and [getWarnings] always return:
    whatever the commands do, no error leaves them. *)
Theorem getWarnings_returns_on_linux st :
  podsFree st ->
  (exists snapshot st', SysInfo.getSysInfo E st = (Ok snapshot, st')) /\
  (exists ws st', Doctor.getWarnings E st = (Ok ws, st')).
Proof.
  intros HP. destruct (returns_getSysInfo st HP) as (d & st1 & H & Hd & _).
  split; [eauto|].
  unfold Doctor.getWarnings. rewrite (bind_ok _ _ _ _ _ H).
  destruct d as [| | b | s | o]; try discriminate;
    match goal with
    | |- context [Doctor.getWarningsFrom E ?o st1] =>
        destruct (getWarningsFrom_returns_off_darwin E o st1 notDarwin) as (ws & ->)
    end; eauto.
Qed.

End Linux.

Lemma getWarnings_returns_on_linux_witness :
  exists ws st', Doctor.getWarnings Hosts.javaInstalled initialState = (Ok ws, st').
Proof.
  refine (proj2 (getWarnings_returns_on_linux Hosts.javaInstalled eq_refl eq_refl eq_refl _
                   initialState eq_refl)).
  intros n. eexists. reflexivity.
Defined.
